(** * voodooapp: the UTM builder and the Bitly pipelines

    A shallow embedding of [tabs/utm_bitly.py] and [tabs/bitly_stats.py].

    - Python [str] values are modelled by [string], read as the UTF-8 bytes of
      the text.  Comparison of UTF-8 byte sequences agrees with comparison of
      code points, which is the order Python uses on [str].
    - The functions of [urllib.parse] the program calls are transcribed from
      CPython 3.11's [Lib/urllib/parse.py].  The percent-decoder works on
      bytes; the substitution of U+FFFD for escapes that do not decode to
      well-formed UTF-8 is not represented.
    - What only the interpreter's Unicode and IP-address tables decide is a
      field of the class [Platform].
    - The Bitly service is a transition function on an abstract world; a call
      of [requests] either obtains a response or raises.  The bearer token of
      [st.secrets] is taken as configured and is not part of a request.
    - A Python exception is the [Raise] outcome of a computation.
    - The [while True] loop of the listing runs on fuel; running out of it is
      the answer [None].
    - The Streamlit widgets and the messages they show are left out: the two
      [render] functions are modelled from the values the widgets hand over
      to the value handed to [pd.DataFrame].
    - [DataFrame.sort_values] on several columns is a stable sort of the rows
      by the tuple of keys. *)

From Stdlib Require Import List String Ascii ZArith Bool Arith Lia.
From Stdlib Require Import Permutation Sorted DecimalString.
Import ListNotations.

Local Open Scope list_scope.
Local Open Scope string_scope.

(* ================================================================== *)
(** ** Python values: outcomes, strings, insertion-ordered dicts       *)
(* ================================================================== *)

Module Py.

(** The exceptions the modelled code can meet. *)
Inductive exn : Type :=
| ValueError (msg : string)
| AttributeError (msg : string)
| KeyError (msg : string)
| RequestException (msg : string)
| JSONDecodeError (msg : string).

(** [str(e)] *)
Definition str_of_exn (e : exn) : string :=
  match e with
  | ValueError m | AttributeError m | KeyError m
  | RequestException m | JSONDecodeError m => m
  end.

Inductive outcome (A : Type) : Type :=
| Ret (a : A)
| Raise (e : exn).
Arguments Ret {A} a.
Arguments Raise {A} e.

Definition bind {A B} (m : outcome A) (k : A -> outcome B) : outcome B :=
  match m with
  | Ret a => k a
  | Raise e => Raise e
  end.

Definition returns {A} (m : outcome A) : bool :=
  match m with Ret _ => true | Raise _ => false end.

(** [not s] on a string *)
Definition is_empty (s : string) : bool :=
  match s with EmptyString => true | String _ _ => false end.

(** [x or None] followed by a truth test: an empty string does not count. *)
Definition or_none (s : string) : option string :=
  if is_empty s then None else Some s.

(** [c in s] for a single character [c] *)
Fixpoint char_in (c : ascii) (s : string) : bool :=
  match s with
  | EmptyString => false
  | String a s' => Ascii.eqb a c || char_in c s'
  end.

(** [s.split(c, 1)] when [c in s]: the text before and after the first [c]. *)
Fixpoint partition (c : ascii) (s : string) : option (string * string) :=
  match s with
  | EmptyString => None
  | String a s' =>
      if Ascii.eqb a c then Some (EmptyString, s')
      else match partition c s' with
           | Some (l, r) => Some (String a l, r)
           | None => None
           end
  end.

(** [s.rpartition(c)[2]]: the text after the last [c], all of [s] without. *)
Fixpoint after_last (c : ascii) (s : string) : string :=
  match s with
  | EmptyString => EmptyString
  | String a s' =>
      if char_in c s' then after_last c s'
      else if Ascii.eqb a c then s' else s
  end.

(** [s.split(c)]: never the empty list. *)
Fixpoint split (c : ascii) (s : string) : list string :=
  match s with
  | EmptyString => [EmptyString]
  | String a s' =>
      if Ascii.eqb a c then EmptyString :: split c s'
      else match split c s' with
           | h :: t => String a h :: t
           | [] => [String a EmptyString]
           end
  end.

(** [sep.join(l)] *)
Fixpoint join (sep : string) (l : list string) : string :=
  match l with
  | [] => EmptyString
  | [x] => x
  | x :: rest => x ++ sep ++ join sep rest
  end.

(** [s.replace(c, d)] for single characters *)
Fixpoint replace_char (c d : ascii) (s : string) : string :=
  match s with
  | EmptyString => EmptyString
  | String a s' => String (if Ascii.eqb a c then d else a) (replace_char c d s')
  end.

(** [s.replace(c, "")] for a single character *)
Fixpoint remove_char (c : ascii) (s : string) : string :=
  match s with
  | EmptyString => EmptyString
  | String a s' =>
      if Ascii.eqb a c then remove_char c s' else String a (remove_char c s')
  end.

(** [s.startswith(p)] *)
Fixpoint startswith (p s : string) : bool :=
  match p, s with
  | EmptyString, _ => true
  | String a p', String b s' => Ascii.eqb a b && startswith p' s'
  | String _ _, EmptyString => false
  end.

(** [sub in s] *)
Fixpoint contains (sub s : string) : bool :=
  startswith sub s ||
  match s with
  | EmptyString => false
  | String _ s' => contains sub s'
  end.

(** [s.replace(old, "")] for a non-empty [old]: occurrences are found from
    the left and do not overlap; [skip] counts the characters of a found
    occurrence still to be dropped. *)
Fixpoint remove_sub_from (old : string) (skip : nat) (s : string) : string :=
  match s with
  | EmptyString => EmptyString
  | String a s' =>
      match skip with
      | S k => remove_sub_from old k s'
      | O =>
          if startswith old s then remove_sub_from old (String.length old - 1) s'
          else String a (remove_sub_from old 0 s')
      end
  end.

Definition remove_sub (old s : string) : string := remove_sub_from old 0 s.

(** [s.lstrip(chars)] and [s.strip(chars)] for a set of characters given as
    a test *)
Fixpoint lstrip (p : ascii -> bool) (s : string) : string :=
  match s with
  | EmptyString => EmptyString
  | String a s' => if p a then lstrip p s' else s
  end.

Fixpoint rstrip (p : ascii -> bool) (s : string) : string :=
  match s with
  | EmptyString => EmptyString
  | String a s' =>
      match rstrip p s' with
      | EmptyString => if p a then EmptyString else String a EmptyString
      | r => String a r
      end
  end.

Definition strip (p : ascii -> bool) (s : string) : string :=
  rstrip p (lstrip p s).

Definition code (c : ascii) : nat := nat_of_ascii c.

Definition between (lo hi : nat) (c : ascii) : bool :=
  Nat.leb lo (code c) && Nat.leb (code c) hi.

Definition is_upper (c : ascii) : bool := between 65 90 c.
Definition is_lower (c : ascii) : bool := between 97 122 c.
Definition is_digit (c : ascii) : bool := between 48 57 c.
(** [c.isascii() and c.isalpha()] *)
Definition is_ascii_alpha (c : ascii) : bool := is_upper c || is_lower c.
(** [c.isascii()] *)
Definition is_ascii (c : ascii) : bool := Nat.ltb (code c) 128.

Fixpoint all_chars (p : ascii -> bool) (s : string) : bool :=
  match s with
  | EmptyString => true
  | String a s' => p a && all_chars p s'
  end.

Definition lower_char (c : ascii) : ascii :=
  if is_upper c then ascii_of_nat (code c + 32) else c.

(** [s.lower()] on text whose cased characters are ASCII *)
Fixpoint lower (s : string) : string :=
  match s with
  | EmptyString => EmptyString
  | String a s' => String (lower_char a) (lower s')
  end.

(** [f"{n}"] for an integer *)
Definition str_of_Z (n : Z) : string := NilEmpty.string_of_int (Z.to_int n).

(** *** dict: keys in insertion order, assignment keeps a key's place *)

Definition dict : Type := list (string * string).

(** [d[k] = v] *)
Fixpoint dict_set (k v : string) (d : dict) : dict :=
  match d with
  | [] => [(k, v)]
  | (k', v') :: d' =>
      if String.eqb k' k then (k', v) :: d' else (k', v') :: dict_set k v d'
  end.

(** [d.get(k)] *)
Fixpoint dict_get (k : string) (d : dict) : option string :=
  match d with
  | [] => None
  | (k', v') :: d' => if String.eqb k' k then Some v' else dict_get k d'
  end.

(** [dict(pairs)]: later pairs overwrite, first occurrences fix the order. *)
Definition dict_of_pairs (l : list (string * string)) : dict :=
  fold_left (fun d kv => dict_set (fst kv) (snd kv) d) l [].

(** [list(d.keys())] *)
Definition keys (d : dict) : list string := map fst d.

End Py.

(* ================================================================== *)
(** ** urllib.parse (CPython 3.11)                                     *)
(* ================================================================== *)

Module urllib.
Import Py.

(** The result of [ipaddress.ip_address(s)]; the last case is its
    [ValueError], with the message. *)
Inductive ip_result : Type :=
| IPv4Address
| IPv6Address
| NotAnAddress (msg : string).

(** What the interpreter decides from its Unicode and address tables. *)
Class Platform : Type := {
  (** [unicodedata.normalize('NFKC', s)] *)
  NFKC : string -> string;
  (** [ipaddress.ip_address(s)] *)
  ip_address : string -> ip_result;
  (** [s.title()] *)
  str_title : string -> string
}.

Record SplitResult : Type := mkSplitResult {
  s_scheme : string;
  s_netloc : string;
  s_path : string;
  s_query : string;
  s_fragment : string
}.

Record ParseResult : Type := mkParseResult {
  scheme : string;
  netloc : string;
  path : string;
  params : string;
  query : string;
  fragment : string
}.

(** [parsed._replace(query=q)] *)
Definition replace_query (p : ParseResult) (q : string) : ParseResult :=
  mkParseResult (scheme p) (netloc p) (path p) (params p) q (fragment p).

Definition uses_netloc : list string :=
  [""; "ftp"; "http"; "gopher"; "nntp"; "telnet";
   "imap"; "wais"; "file"; "mms"; "https"; "shttp";
   "snews"; "prospero"; "rtsp"; "rtspu"; "rsync";
   "svn"; "svn+ssh"; "sftp"; "nfs"; "git"; "git+ssh";
   "ws"; "wss"].

Definition uses_params : list string :=
  [""; "ftp"; "hdl"; "prospero"; "http"; "imap";
   "https"; "shttp"; "rtsp"; "rtspu"; "sip"; "sips";
   "mms"; "sftp"; "tel"].

(** [s in l] for a list of strings *)
Definition str_mem (s : string) (l : list string) : bool :=
  existsb (String.eqb s) l.

(** [c in scheme_chars] *)
Definition scheme_char (c : ascii) : bool :=
  is_lower c || is_upper c || is_digit c || char_in c "+-.".

(** [c in _WHATWG_C0_CONTROL_OR_SPACE] *)
Definition c0_control_or_space (c : ascii) : bool := Nat.leb (code c) 32.

Definition TAB : ascii := ascii_of_nat 9.
Definition CR : ascii := ascii_of_nat 13.
Definition LF : ascii := ascii_of_nat 10.

(** The loop over [_UNSAFE_URL_BYTES_TO_REMOVE] *)
Definition remove_unsafe (url : string) : string :=
  remove_char LF (remove_char CR (remove_char TAB url)).

(** The scheme test of [urlsplit]: [i = url.find(':')], [i > 0], a first
    character that is an ASCII letter and only [scheme_chars] in [url[:i]]. *)
Definition split_scheme (url : string) : string * string :=
  match partition ":" url with
  | Some (String a pre, rest) =>
      if is_ascii_alpha a && all_chars scheme_char (String a pre)
      then (lower (String a pre), rest)
      else (EmptyString, url)
  | _ => (EmptyString, url)
  end.

(** [url[2:]] when [url[:2] == '//'] *)
Definition after_slashes (url : string) : option string :=
  match url with
  | String a (String b rest) =>
      if Ascii.eqb a "/" && Ascii.eqb b "/" then Some rest else None
  | _ => None
  end.

Definition netloc_delim (c : ascii) : bool :=
  Ascii.eqb c "/" || Ascii.eqb c "?" || Ascii.eqb c "#".

(** [_splitnetloc(url, 2)] on the text after the two slashes: the earliest of
    the first ["/"], ["?"] and ["#"] ends the netloc. *)
Fixpoint _splitnetloc (s : string) : string * string :=
  match s with
  | EmptyString => (EmptyString, EmptyString)
  | String a s' =>
      if netloc_delim a then (EmptyString, s)
      else let (n, r) := _splitnetloc s' in (String a n, r)
  end.

(** [s.partition(c)]: before, whether [c] was found, after. *)
Definition partition3 (c : ascii) (s : string) : string * bool * string :=
  match partition c s with
  | Some (l, r) => (l, true, r)
  | None => (s, false, EmptyString)
  end.

Definition is_hexdig (c : ascii) : bool :=
  is_digit c || between 65 70 c || between 97 102 c.

(** [re.match(r"\Av[a-fA-F0-9]+\..+\Z", hostname)]; the text holds no line
    break, those were removed from the URL. *)
Definition ipvfuture (hostname : string) : bool :=
  match hostname with
  | String v (String a t) =>
      Ascii.eqb v "v" && is_hexdig a &&
      match lstrip is_hexdig t with
      | String dot (String _ _) => Ascii.eqb dot "."
      | _ => false
      end
  | _ => false
  end.

Section Parsing.
Context {P : Platform}.

Definition _check_bracketed_host (hostname : string) : outcome unit :=
  if startswith "v" hostname then
    if ipvfuture hostname then Ret tt
    else Raise (ValueError "IPvFuture address is invalid")
  else
    match ip_address hostname with
    | NotAnAddress msg => Raise (ValueError msg)
    | IPv4Address => Raise (ValueError "An IPv4 address cannot be in brackets")
    | IPv6Address => Ret tt
    end.

Definition _check_bracketed_netloc (netloc : string) : outcome unit :=
  let hostname_and_port := after_last "@" netloc in
  let '(before_bracket, have_open_br, bracketed) :=
    partition3 "[" hostname_and_port in
  if have_open_br then
    if negb (is_empty before_bracket) then Raise (ValueError "Invalid IPv6 URL")
    else
      let '(hostname, _, port) := partition3 "]" bracketed in
      if negb (is_empty port) && negb (startswith ":" port)
      then Raise (ValueError "Invalid IPv6 URL")
      else _check_bracketed_host hostname
  else
    let '(hostname, _, _) := partition3 ":" hostname_and_port in
    _check_bracketed_host hostname.

Definition _checknetloc (netloc : string) : outcome unit :=
  if is_empty netloc || all_chars is_ascii netloc then Ret tt
  else
    let n := remove_char "?" (remove_char "#" (remove_char ":"
               (remove_char "@" netloc))) in
    let netloc2 := NFKC n in
    if String.eqb n netloc2 then Ret tt
    else if existsb (fun c => char_in c netloc2) ["/"; "?"; "#"; "@"; ":"]%char
    then Raise (ValueError ("netloc '" ++ netloc ++
                 "' contains invalid characters under NFKC normalization"))
    else Ret tt.

(** The bracket tests [urlsplit] makes on a netloc. *)
Definition check_brackets (netloc : string) : outcome unit :=
  let o := char_in "[" netloc in
  let c := char_in "]" netloc in
  if (o && negb c) || (c && negb o) then Raise (ValueError "Invalid IPv6 URL")
  else if o && c then _check_bracketed_netloc netloc
  else Ret tt.

(** [urlsplit(url)] with the default [scheme=''] and [allow_fragments=True] *)
Definition urlsplit (url : string) : outcome SplitResult :=
  let url := lstrip c0_control_or_space url in
  let url := remove_unsafe url in
  let (scheme, url) := split_scheme url in
  bind (match after_slashes url with
        | Some rest =>
            let (netloc, url) := _splitnetloc rest in
            bind (check_brackets netloc) (fun _ => Ret (netloc, url))
        | None => Ret (EmptyString, url)
        end)
    (fun '(netloc, url) =>
       let (url, fragment) :=
         match partition "#" url with
         | Some (u, f) => (u, f)
         | None => (url, EmptyString)
         end in
       let (url, query) :=
         match partition "?" url with
         | Some (u, q) => (u, q)
         | None => (url, EmptyString)
         end in
       bind (_checknetloc netloc) (fun _ =>
       Ret (mkSplitResult scheme netloc url query fragment))).

(** [url[:url.rfind(c) + 1]] when [c in url] *)
Fixpoint upto_last (c : ascii) (s : string) : string :=
  match s with
  | EmptyString => EmptyString
  | String a s' =>
      if char_in c s' then String a (upto_last c s')
      else if Ascii.eqb a c then String a EmptyString else EmptyString
  end.

Definition _splitparams (url : string) : string * string :=
  if char_in "/" url then
    match partition ";" (after_last "/" url) with
    | None => (url, EmptyString)
    | Some (before, after) => (upto_last "/" url ++ before, after)
    end
  else
    match partition ";" url with
    | Some (before, after) => (before, after)
    | None => (url, EmptyString)
    end.

Definition urlparse (url : string) : outcome ParseResult :=
  bind (urlsplit url) (fun r =>
    let (url, params) :=
      if str_mem (s_scheme r) uses_params && char_in ";" (s_path r)
      then _splitparams (s_path r)
      else (s_path r, EmptyString) in
    Ret (mkParseResult (s_scheme r) (s_netloc r) url params
           (s_query r) (s_fragment r))).

End Parsing.

Definition urlunsplit (scheme netloc url query fragment : string) : string :=
  let url :=
    if negb (is_empty netloc) ||
       (negb (is_empty scheme) && str_mem scheme uses_netloc &&
        negb (startswith "//" url))
    then
      let url :=
        if negb (is_empty url) && negb (startswith "/" url)
        then "/" ++ url else url in
      "//" ++ netloc ++ url
    else url in
  let url := if negb (is_empty scheme) then scheme ++ ":" ++ url else url in
  let url := if negb (is_empty query) then url ++ "?" ++ query else url in
  let url := if negb (is_empty fragment) then url ++ "#" ++ fragment else url in
  url.

Definition urlunparse (p : ParseResult) : string :=
  let url :=
    if negb (is_empty (params p)) then path p ++ ";" ++ params p else path p in
  urlunsplit (scheme p) (netloc p) url (query p) (fragment p).

(** *** Percent-encoding *)

Definition hexval (c : ascii) : option nat :=
  if is_digit c then Some (code c - 48)
  else if between 65 70 c then Some (code c - 55)
  else if between 97 102 c then Some (code c - 87)
  else None.

(** [unquote_to_bytes]: a ["%"] followed by two hexadecimal digits is the byte
    they spell, any other ["%"] stays. *)
Fixpoint unquote (s : string) : string :=
  match s with
  | EmptyString => EmptyString
  | String c t =>
      if Ascii.eqb c "%" then
        match t with
        | String a (String b r) =>
            match hexval a, hexval b with
            | Some x, Some y => String (ascii_of_nat (16 * x + y)) (unquote r)
            | _, _ => String c (unquote t)
            end
        | _ => String c (unquote t)
        end
      else String c (unquote t)
  end.

(** [unquote(s.replace('+', ' '))], what [parse_qsl] applies to names and
    values *)
Definition unquote_plus (s : string) : string :=
  unquote (replace_char "+" " " s).

(** One field of a query: [None] when [parse_qsl] appends nothing for it. *)
Definition parse_field (keep_blank_values : bool) (name_value : string)
  : option (string * string) :=
  if is_empty name_value then None
  else
    let nv :=
      match partition "=" name_value with
      | Some (n, v) => Some (n, v)
      | None => if keep_blank_values then Some (name_value, EmptyString) else None
      end in
    match nv with
    | None => None
    | Some (n, v) =>
        if negb (is_empty v) || keep_blank_values
        then Some (unquote_plus n, unquote_plus v)
        else None
    end.

Fixpoint parse_fields (keep_blank_values : bool) (query_args : list string)
  : list (string * string) :=
  match query_args with
  | [] => []
  | name_value :: rest =>
      match parse_field keep_blank_values name_value with
      | Some kv => kv :: parse_fields keep_blank_values rest
      | None => parse_fields keep_blank_values rest
      end
  end.

(** [parse_qsl(qs, keep_blank_values=...)] with the separator ["&"] *)
Definition parse_qsl (qs : string) (keep_blank_values : bool)
  : list (string * string) :=
  parse_fields keep_blank_values (if is_empty qs then [] else split "&" qs).

(** [c in _ALWAYS_SAFE] *)
Definition always_safe (c : ascii) : bool :=
  is_upper c || is_lower c || is_digit c || char_in c "_.-~".

Definition hexdigit (n : nat) : ascii :=
  if Nat.ltb n 10 then ascii_of_nat (48 + n) else ascii_of_nat (55 + n).

(** [_Quoter(safe).__missing__(b)], for the two sets [quote_plus] passes:
    [safe = ''] and [safe = ' '].  A safe byte is kept, any other byte [b]
    becomes ['%{:02X}'.format(b)]. *)
Definition quoter (space_safe : bool) (c : ascii) : string :=
  if always_safe c || (space_safe && Ascii.eqb c " ") then String c EmptyString
  else String "%" (String (hexdigit (code c / 16))
                     (String (hexdigit (code c mod 16)) EmptyString)).

(** [quote(s, safe)]: [''.join([quoter(char) for char in bs])] on the bytes
    of [s] *)
Fixpoint quote (space_safe : bool) (s : string) : string :=
  match s with
  | EmptyString => EmptyString
  | String c t => quoter space_safe c ++ quote space_safe t
  end.

Definition quote_plus (s : string) : string :=
  if char_in " " s then replace_char " " "+" (quote true s)
  else quote false s.

(** [k + '=' + v] of a quoted key and value *)
Definition encode_pair (kv : string * string) : string :=
  quote_plus (fst kv) ++ "=" ++ quote_plus (snd kv).

(** [urlencode(d, doseq=True)] for a dict whose values are strings *)
Definition urlencode (d : dict) : string :=
  join "&" (map encode_pair d).

End urllib.

(* ================================================================== *)
(** ** The remote service as the program sees it through [requests]   *)
(* ================================================================== *)

Module requests.
Import Py.

(** The calls the program makes, by endpoint, with what it puts in the URL
    or in the JSON payload. *)
Inductive request : Type :=
| GetGroups
    (* GET /v4/groups *)
| GetBitlinks (group_guid : string) (size page : Z) (created_after : option Z)
    (* GET /v4/groups/{group_guid}/bitlinks?size=..&page=..[&created_after=..] *)
| GetClicksSummary (bitlink_id : string)
    (* GET /v4/bitlinks/{bitlink_id}/clicks/summary *)
| PostShorten (long_url : string) (domain : option string)
    (* POST /v4/shorten *)
| PatchBitlink (bitlink_id : string) (title : string).
    (* PATCH /v4/bitlinks/{bitlink_id} *)

(** One entry of ["links"]; a key may be missing. *)
Record item : Type := mkItem {
  link : option string;
  long_url : option string;
  title : option string
}.

(** One entry of ["groups"]. *)
Record group : Type := mkGroup {
  guid : option string
}.

(** The JSON object of a response body, by the keys the program reads; a key
    may be missing. *)
Record json_object : Type := mkJson {
  j_groups : option (list group);
  j_links : option (list item);
  j_total_clicks : option Z;
  j_link : option string
}.

Definition empty_object : json_object := mkJson None None None None.

Record response : Type := mkResponse {
  status_code : Z;
  text : string;
  (** [resp.json()], which raises on a body that is not JSON *)
  json : outcome json_object
}.

(** A call either obtains a response or raises (no connection, timeout). *)
Inductive reply : Type :=
| Response (r : response)
| Failure (e : exn).

(** A program step: it may change the world and may raise. *)
Definition M (W A : Type) : Type := W -> outcome A * W.

Definition ret {W A} (a : A) : M W A := fun w => (Ret a, w).

Definition raise {W A} (e : exn) : M W A := fun w => (Raise e, w).

Definition mbind {W A B} (m : M W A) (k : A -> M W B) : M W B :=
  fun w =>
    match m w with
    | (Ret a, w') => k a w'
    | (Raise e, w') => (Raise e, w')
    end.

(** A pure computation that may raise, as a step. *)
Definition lift {W A} (o : outcome A) : M W A := fun w => (o, w).

(** [try: m  except Exception as e: h(e)] *)
Definition try_except {W A} (m : M W A) (h : exn -> M W A) : M W A :=
  fun w =>
    match m w with
    | (Ret a, w') => (Ret a, w')
    | (Raise e, w') => h e w'
    end.

(** [requests.get], [requests.post], [requests.patch] *)
Definition call {W} (send : request -> W -> reply * W) (q : request)
  : M W response :=
  fun w =>
    match send q w with
    | (Response r, w') => (Ret r, w')
    | (Failure e, w') => (Raise e, w')
    end.

End requests.

(* ================================================================== *)
(** ** tabs/utm_bitly.py: the UTM builder                              *)
(* ================================================================== *)

Module utm_bitly.
Import Py urllib requests.

Section Builder.
Context {P : Platform}.

(** The loop [for k, v in utm_params.items(): if v: query_params[k] = v]. *)
Definition apply_utm_params (utm_params : list (string * option string))
  (query_params : dict) : dict :=
  fold_left
    (fun qp kv =>
       match snd kv with
       | Some v => dict_set (fst kv) v qp
       | None => qp
       end)
    utm_params query_params.

Definition build_utm_url
  (base_url utm_source utm_medium utm_campaign utm_term : string)
  : outcome string :=
  if is_empty base_url then Ret EmptyString
  else
    bind (urlparse base_url) (fun parsed =>
      let query_params := dict_of_pairs (parse_qsl (query parsed) true) in
      let utm_params :=
        [("utm_source", or_none utm_source);
         ("utm_medium", or_none utm_medium);
         ("utm_campaign", or_none utm_campaign);
         ("utm_term", or_none utm_term)] in
      let query_params := apply_utm_params utm_params query_params in
      let new_query := urlencode query_params in
      let new_parsed := replace_query parsed new_query in
      Ret (urlunparse new_parsed)).

End Builder.

(** *** The Bitly shortener *)

Record result_row : Type := mkResultRow {
  Original_URL : string;
  UTM_URL : string;
  Short_URL : string;
  Error : string
}.

(** [resp.status_code in (200, 201)] *)
Definition status_created (resp : response) : bool :=
  Z.eqb (status_code resp) 200 || Z.eqb (status_code resp) 201.

(** [x or ""] and the truth test on an [Optional[str]] *)
Definition or_empty (x : option string) : string :=
  match x with Some s => s | None => EmptyString end.

Definition truthy (x : option string) : bool := negb (is_empty (or_empty x)).

Section Shortener.
Context {P : Platform} {W : Type} (send : request -> W -> reply * W).

(** Step 1: create the short link.  The result is [(short_url, error)]. *)
Definition shorten_with_bitly (long_url : string) (domain : option string)
  : M W (option string * option string) :=
  let payload_domain := if truthy domain then domain else None in
  try_except
    (mbind (call send (PostShorten long_url payload_domain)) (fun resp =>
       if negb (status_created resp) then
         ret (None, Some ("Bitly error " ++ str_of_Z (status_code resp)
                            ++ ": " ++ text resp))
       else
         mbind (lift (json resp)) (fun data => ret (j_link data, None))))
    (fun e => ret (None, Some (str_of_exn e))).

(** Step 2: set the title with PATCH.  The result is the error, if any. *)
Definition update_bitly_title (bitlink title : string) : M W (option string) :=
  let bitlink_id := remove_sub "https://" bitlink in
  try_except
    (mbind (call send (PatchBitlink bitlink_id title)) (fun resp =>
       if negb (status_created resp) then
         ret (Some ("Title update error " ++ str_of_Z (status_code resp)
                      ++ ": " ++ text resp))
       else ret None))
    (fun e => ret (Some ("Exception while setting title: " ++ str_of_exn e))).

(** *** The batch of [render], from the list [urls] on *)

Variables utm_source utm_medium utm_campaign utm_term bitly_domain : string.

Definition slug_of (parsed : ParseResult) : string :=
  str_title
    (replace_char "-" " "
       (hd EmptyString (split "/" (strip (Ascii.eqb "/") (path parsed))))).

Definition readable_name (i : nat) (parsed : ParseResult) : string :=
  if Nat.eqb i 0 then "Розробка Shopify-магазину"
  else if is_empty (slug_of parsed) then netloc parsed else slug_of parsed.

(** The body of [for i, url in enumerate(urls)]: the entry appended to
    [results]. *)
Definition process_url (i : nat) (url : string) : M W result_row :=
  mbind (lift (urlparse url)) (fun parsed =>
  mbind (lift (build_utm_url url utm_source utm_medium utm_campaign utm_term))
    (fun utm_url =>
  mbind (shorten_with_bitly utm_url (or_none bitly_domain))
    (fun '(short_url, err) =>
  mbind (if truthy short_url then
           let final_title :=
             readable_name i parsed ++ " — " ++ utm_campaign in
           mbind (update_bitly_title (or_empty short_url) final_title)
             (fun e => ret (or_empty e))
         else ret EmptyString)
    (fun title_err =>
  ret (mkResultRow url utm_url
         (if truthy short_url then or_empty short_url else EmptyString)
         (if truthy err then or_empty err else title_err)))))).

Fixpoint process_urls (i : nat) (urls : list string) (results : list result_row)
  : M W (list result_row) :=
  match urls with
  | [] => ret results
  | url :: rest =>
      mbind (process_url i url) (fun row =>
        process_urls (S i) rest (results ++ [row])%list)
  end.

(** The handler of the button: [None] is the warning for an empty batch. *)
Definition render (urls : list string) : M W (option (list result_row)) :=
  match urls with
  | [] => ret None
  | _ => mbind (process_urls 0 urls []) (fun results => ret (Some results))
  end.

End Shortener.

End utm_bitly.

(* ================================================================== *)
(** ** tabs/bitly_stats.py: the statistics pipeline                    *)
(* ================================================================== *)

Module bitly_stats.
Import Py urllib requests.

Record utm_params : Type := mkUtm {
  p_utm_source : string;
  p_utm_medium : string;
  p_utm_campaign : string
}.

Record row : Type := mkRow {
  Title : string;
  Bitly_Link : string;
  UTM_URL : string;
  utm_source : string;
  utm_medium : string;
  utm_campaign : string;
  Clicks : Z
}.

(** [size = 50] in [get_all_bitlinks] *)
Definition size : Z := 50.

(** A step of a loop that may not end: [None] when the fuel is used up. *)
Definition D (W A : Type) : Type := W -> option (outcome A * W).

(** *** UTM parsing *)

(** The body of the loop of [parse_qs]: a value joins the list of its name. *)
Fixpoint add_value (name value : string) (r : list (string * list string))
  : list (string * list string) :=
  match r with
  | [] => [(name, [value])]
  | (n, vs) :: r' =>
      if String.eqb n name then (n, (vs ++ [value])%list) :: r'
      else (n, vs) :: add_value name value r'
  end.

(** [parse_qs(qs)], with the default [keep_blank_values=False] *)
Definition parse_qs (qs : string) : list (string * list string) :=
  fold_left (fun r nv => add_value (fst nv) (snd nv) r) (parse_qsl qs false) [].

(** [query.get(k, [""])[0]] *)
Fixpoint get_first (k : string) (query : list (string * list string)) : string :=
  match query with
  | [] => EmptyString
  | (n, vs) :: q' => if String.eqb n k then hd EmptyString vs else get_first k q'
  end.

Section Pipeline.
Context {P : Platform} {W : Type} (send : request -> W -> reply * W).

Definition parse_utm_params (long_url : string) : outcome utm_params :=
  bind (urlparse long_url) (fun parsed =>
    let query := parse_qs (urllib.query parsed) in
    Ret (mkUtm (get_first "utm_source" query)
               (get_first "utm_medium" query)
               (get_first "utm_campaign" query))).

(** *** Bitly API helpers *)

Definition get_group_guid : M W (option string) :=
  mbind (call send GetGroups) (fun resp =>
    if negb (Z.eqb (status_code resp) 200) then ret None
    else
      mbind (lift (json resp)) (fun data =>
        let groups := match j_groups data with Some g => g | None => [] end in
        match groups with
        | [] => ret None
        | g :: _ =>
            match guid g with
            | Some s => ret (Some s)
            | None => raise (KeyError "'guid'")
            end
        end)).

(** [if created_after: params += ...]: neither [None] nor [0] adds it. *)
Definition created_after_param (created_after : option Z) : option Z :=
  match created_after with
  | Some n => if Z.eqb n 0 then None else Some n
  | None => None
  end.

(** The [while True] loop of [get_all_bitlinks], entered with the current
    [page] and the [bitlinks] gathered so far. *)
Fixpoint get_all_bitlinks_loop (fuel : nat) (group_guid : string)
  (created_after : option Z) (page : Z) (bitlinks : list item) : D W (list item) :=
  fun w =>
    match fuel with
    | O => None
    | S fuel' =>
        match call send (GetBitlinks group_guid size page
                           (created_after_param created_after)) w with
        | (Raise e, w') => Some (Raise e, w')
        | (Ret resp, w') =>
            if negb (Z.eqb (status_code resp) 200) then Some (Ret [], w')
            else
              match json resp with
              | Raise e => Some (Raise e, w')
              | Ret data =>
                  let items := match j_links data with Some l => l | None => [] end in
                  let bitlinks := (bitlinks ++ items)%list in
                  if Z.ltb (Z.of_nat (List.length items)) size
                  then Some (Ret bitlinks, w')
                  else get_all_bitlinks_loop fuel' group_guid created_after
                         (page + 1)%Z bitlinks w'
              end
        end
    end.

Definition get_all_bitlinks (fuel : nat) (group_guid : string)
  (created_after : option Z) : D W (list item) :=
  get_all_bitlinks_loop fuel group_guid created_after 1%Z [].

Definition get_clicks (bitlink_id : string) : M W Z :=
  mbind (call send (GetClicksSummary bitlink_id)) (fun resp =>
    if negb (Z.eqb (status_code resp) 200) then ret 0%Z
    else
      mbind (lift (json resp)) (fun data =>
        ret (match j_total_clicks data with Some n => n | None => 0%Z end))).

(** *** The report of [render] *)

Inductive date_choice : Type :=
| Last_7_days
| Last_30_days
| Last_90_days
| All_time.

Definition created_after_of (choice : date_choice) (now : Z) : option Z :=
  match choice with
  | Last_7_days => Some (now - 7 * 24 * 3600)%Z
  | Last_30_days => Some (now - 30 * 24 * 3600)%Z
  | Last_90_days => Some (now - 90 * 24 * 3600)%Z
  | All_time => None
  end.

Variables prefilter_source prefilter_medium prefilter_campaign : string.

(** [prefilter and f"{param}={prefilter}" not in long_url]: the record is
    skipped. *)
Definition skipped_by (param prefilter long_url : string) : bool :=
  negb (is_empty prefilter) && negb (contains (param ++ "=" ++ prefilter) long_url).

Definition passes_prefilters (long_url : string) : bool :=
  negb (skipped_by "utm_source" prefilter_source long_url) &&
  negb (skipped_by "utm_medium" prefilter_medium long_url) &&
  negb (skipped_by "utm_campaign" prefilter_campaign long_url).

(** The body of [for item in links]: the row appended, [None] after a
    [continue]. *)
Definition process_item (it : item) : M W (option row) :=
  let bitlink := link it in
  let long_url := match long_url it with Some u => u | None => EmptyString end in
  let title :=
    match title it with
    | Some t => if is_empty t then "Untitled" else t
    | None => "Untitled"
    end in
  if skipped_by "utm_source" prefilter_source long_url then ret None
  else if skipped_by "utm_medium" prefilter_medium long_url then ret None
  else if skipped_by "utm_campaign" prefilter_campaign long_url then ret None
  else
    mbind (lift (parse_utm_params long_url)) (fun utm =>
    match bitlink with
    | None => raise (AttributeError "'NoneType' object has no attribute 'replace'")
    | Some bitlink =>
        let bitlink_id := remove_sub "https://" bitlink in
        mbind (get_clicks bitlink_id) (fun clicks =>
        ret (Some (mkRow title bitlink long_url
                     (p_utm_source utm) (p_utm_medium utm) (p_utm_campaign utm)
                     clicks)))
    end).

Fixpoint process_items (links : list item) (rows : list row) : M W (list row) :=
  match links with
  | [] => ret rows
  | it :: rest =>
      mbind (process_item it) (fun r =>
        process_items rest
          (match r with Some x => (rows ++ [x])%list | None => rows end))
  end.

End Pipeline.

(** *** Sorting *)

(** The order of
    [sort_values(["utm_source", "utm_medium", "utm_campaign", "Clicks"],
                 ascending=[True, True, True, False])]. *)
Definition row_compare (a b : row) : comparison :=
  match String.compare (utm_source a) (utm_source b) with
  | Eq =>
      match String.compare (utm_medium a) (utm_medium b) with
      | Eq =>
          match String.compare (utm_campaign a) (utm_campaign b) with
          | Eq => Z.compare (Clicks b) (Clicks a)
          | c => c
          end
      | c => c
      end
  | c => c
  end.

Definition row_le (a b : row) : bool :=
  match row_compare a b with Gt => false | _ => true end.

(** pandas sorts on several columns with a stable sort of the rows by the
    tuple of keys: rows that compare equal keep their order.  Insertion from
    the right, before the first row that is not smaller, is such a sort. *)
Fixpoint insert_row (x : row) (l : list row) : list row :=
  match l with
  | [] => [x]
  | y :: l' => if row_le x y then x :: y :: l' else y :: insert_row x l'
  end.

Definition sort_values (rows : list row) : list row :=
  fold_right insert_row [] rows.

(** [not group_guid] and the text of a guid that passed the test *)
Definition guid_text (g : option string) : string :=
  match g with Some s => s | None => EmptyString end.

Definition truthy_guid (g : option string) : bool := negb (is_empty (guid_text g)).

Section Render.
Context {P : Platform} {W : Type} (send : request -> W -> reply * W).
Variables prefilter_source prefilter_medium prefilter_campaign : string.

(** The handler of the button: [None] is a return after a warning or an
    error message, [Some df] the sorted table. *)
Definition render (fuel : nat) (created_after : option Z) : D W (option (list row)) :=
  fun w =>
    match get_group_guid send w with
    | (Raise e, w1) => Some (Raise e, w1)
    | (Ret group_guid, w1) =>
        if negb (truthy_guid group_guid) then Some (Ret None, w1)
        else
          match get_all_bitlinks send fuel (guid_text group_guid) created_after w1 with
          | None => None
          | Some (Raise e, w2) => Some (Raise e, w2)
          | Some (Ret links, w2) =>
              match links with
              | [] => Some (Ret None, w2)
              | _ =>
                  match process_items send prefilter_source prefilter_medium
                          prefilter_campaign links [] w2 with
                  | (Raise e, w3) => Some (Raise e, w3)
                  | (Ret rows, w3) =>
                      match rows with
                      | [] => Some (Ret None, w3)
                      | _ => Some (Ret (Some (sort_values rows)), w3)
                      end
                  end
              end
          end
    end.

End Render.

End bitly_stats.

(* ================================================================== *)
(** ** Services and inputs used to state and instantiate the results  *)
(* ================================================================== *)

Module Scenario.
Import Py urllib requests.

(** A platform for closed examples.  Every URL evaluated on it below has an
    ASCII host without brackets, and on such a URL [urlsplit] consults no
    field of the platform. *)
Definition reference_platform : Platform :=
  {| NFKC := fun s => s;
     ip_address := fun _ => NotAnAddress "does not appear to be an IPv4 or IPv6 address";
     str_title := fun s => s |}.

(** A service that plays a script: each call gets the next reply, whatever
    it asks; after the script it cannot be reached. *)
Definition play (q : request) (script : list reply) : reply * list reply :=
  match script with
  | r :: rest => (r, rest)
  | [] => (Failure (RequestException "connection refused"), [])
  end.

Definition ok (j : json_object) : reply := Response (mkResponse 200 "" (Ret j)).

Definition status (code : Z) (body : string) : reply :=
  Response (mkResponse code body (Ret empty_object)).

(** [records[size * (page - 1) : size * page]] *)
Definition page_of (records : list item) (size page : Z) : list item :=
  firstn (Z.to_nat size) (skipn (Z.to_nat size * Z.to_nat (page - 1)) records).

(** A listing of [records] in pages of the size the request asks for.  The
    world is the listing and the number of requests served. *)
Definition paginated (q : request) (w : list item * nat) : reply * (list item * nat) :=
  match q with
  | GetBitlinks _ size page _ =>
      (ok (mkJson None (Some (page_of (fst w) size page)) None None),
       (fst w, S (snd w)))
  | _ => (status 404 "NOT_FOUND", (fst w, S (snd w)))
  end.


(** Three inputs; the second link is created and its title is refused. *)
Definition three_urls : list string :=
  ["https://site.com/shopify-store"; "https://site.com/custom-store";
   "https://site.com/payments"].

Definition second_title_refused : list reply :=
  [ok (mkJson None None None (Some "https://bit.ly/a"));
   status 200 "{}";
   ok (mkJson None None None (Some "https://bit.ly/b"));
   status 500 "INTERNAL_ERROR";
   ok (mkJson None None None (Some "https://bit.ly/c"));
   status 200 "{}"].

Definition two_links : list item :=
  [mkItem (Some "https://bit.ly/a") (Some "https://site.com/?utm_source=news")
     (Some "Spring");
   mkItem (Some "https://bit.ly/b") (Some "https://site.com/?utm_source=mail")
     None].

Definition listing_of_two : list reply :=
  [ok (mkJson (Some [mkGroup (Some "Bg1")]) None None None);
   ok (mkJson None (Some two_links) None None)].

(** The count of the first record cannot be fetched: the connection times
    out. *)
Definition first_count_times_out : list reply :=
  (listing_of_two ++
   [Failure (RequestException "Read timed out.");
    ok (mkJson None None (Some 7%Z) None)])%list.

(** The count of the first record is refused with status 503. *)
Definition first_count_refused : list reply :=
  (listing_of_two ++
   [status 503 "UNAVAILABLE";
    ok (mkJson None None (Some 7%Z) None)])%list.

End Scenario.

(* ================================================================== *)
(** ** The run of the pagination loop, exchange by exchange            *)
(* ================================================================== *)

Module Pagination.
Import Py urllib requests bitly_stats.

Section Run.
Context {W : Type} (send : request -> W -> reply * W).
Variables (group_guid : string) (created_after : option Z).

(** The request for the page after [k] full pages. *)
Definition page_request (k : nat) : request :=
  GetBitlinks group_guid size (Z.of_nat k + 1)%Z (created_after_param created_after).

(** The world before the exchange number [k] (from 0). *)
Fixpoint world_before (k : nat) (w : W) : W :=
  match k with
  | O => w
  | S k' => snd (send (page_request k') (world_before k' w))
  end.

Definition reply_at (k : nat) (w : W) : reply :=
  fst (send (page_request k) (world_before k w)).

(** [data.get("links", [])] of a reply that has them. *)
Definition items_of (rp : reply) : list item :=
  match rp with
  | Response r =>
      match json r with
      | Ret data => match j_links data with Some l => l | None => [] end
      | Raise _ => []
      end
  | Failure _ => []
  end.

(** A reply after which the loop asks for the next page: status 200 and at
    least [size] items. *)
Definition full_page (rp : reply) : bool :=
  match rp with
  | Response r =>
      Z.eqb (status_code r) 200 &&
      match json r with
      | Ret _ => negb (Z.ltb (Z.of_nat (List.length (items_of rp))) size)
      | Raise _ => false
      end
  | Failure _ => false
  end.

(** The items of the exchanges [0 .. n-1], in order. *)
Fixpoint gathered (n : nat) (w : W) : list item :=
  match n with
  | O => []
  | S n' => (gathered n' w ++ items_of (reply_at n' w))%list
  end.

(** What the loop hands back at a reply that is not a full page, with
    [bitlinks] gathered before it. *)
Definition stop_outcome (bitlinks : list item) (rp : reply) : outcome (list item) :=
  match rp with
  | Failure e => Raise e
  | Response r =>
      if negb (Z.eqb (status_code r) 200) then Ret []
      else match json r with
           | Raise e => Raise e
           | Ret _ => Ret (bitlinks ++ items_of rp)%list
           end
  end.

(** A reply with a status other than 200. *)
Definition non_success (rp : reply) : bool :=
  match rp with
  | Response r => negb (Z.eqb (status_code r) 200)
  | Failure _ => false
  end.

(** A reply with status 200 and fewer than [size] items. *)
Definition short_page (rp : reply) : bool :=
  match rp with
  | Response r =>
      Z.eqb (status_code r) 200 &&
      match json r with
      | Ret _ => Z.ltb (Z.of_nat (List.length (items_of rp))) size
      | Raise _ => false
      end
  | Failure _ => false
  end.

(** The service answers the page requests of a run with the consecutive
    slices of [records]. *)
Definition serves_slices (records : list item) (w : W) : Prop :=
  forall k, exists r data,
    reply_at k w = Response r /\ status_code r = 200%Z /\ json r = Ret data /\
    j_links data = Some (Scenario.page_of records size (Z.of_nat k + 1)).

End Run.

End Pagination.

(* ================================================================== *)
(** ** Notions the results are stated with                            *)
(* ================================================================== *)

Module Notions.
Import Py urllib requests.

(** The keys of a list of pairs, each at its first occurrence. *)
Fixpoint first_occurrences (l : list string) : list string :=
  match l with
  | [] => []
  | k :: t => k :: filter (fun y => negb (String.eqb k y)) (first_occurrences t)
  end.

(** The value of the last pair named [k]. *)
Fixpoint last_value (k : string) (l : list (string * string)) : option string :=
  match l with
  | [] => None
  | (k', v) :: t =>
      match last_value k t with
      | Some x => Some x
      | None => if String.eqb k' k then Some v else None
      end
  end.



(** The tracking parameters as [build_utm_url] receives them. *)
Definition assigned (s m c t : string) : list (string * string) :=
  [("utm_source", s); ("utm_medium", m); ("utm_campaign", c); ("utm_term", t)].

(** The dict [build_utm_url] goes over. *)
Definition utm_params_of (s m c t : string) : list (string * option string) :=
  [("utm_source", or_none s); ("utm_medium", or_none m);
   ("utm_campaign", or_none c); ("utm_term", or_none t)].

(** The query [build_utm_url] writes for a parsed base URL. *)
Definition merged_params (parsed : ParseResult) (s m c t : string) : dict :=
  utm_bitly.apply_utm_params (utm_params_of s m c t)
    (dict_of_pairs (parse_qsl (query parsed) true)).




(** A URL outside its query: the text before the first ["?"] or ["#"], and
    the text from the first ["#"] on. *)
Fixpoint before_query (u : string) : string :=
  match u with
  | EmptyString => EmptyString
  | String a t =>
      if Ascii.eqb a "?" || Ascii.eqb a "#" then EmptyString
      else String a (before_query t)
  end.

Fixpoint from_fragment (u : string) : string :=
  match u with
  | EmptyString => EmptyString
  | String a t => if Ascii.eqb a "#" then u else from_fragment t
  end.

Definition outside_query (u : string) : string * string :=
  (before_query u, from_fragment u).

(** A character of a URL that no check of [urlsplit] objects to: ASCII and
    not a square bracket. *)
Definition plain (c : ascii) : bool :=
  is_ascii c && negb (Ascii.eqb c "[") && negb (Ascii.eqb c "]").

(** [item.get("long_url", "")] *)
Definition long_url_of (it : item) : string :=
  match long_url it with Some u => u | None => EmptyString end.



(** [item.get("title") or "Untitled"] *)
Definition title_of (it : item) : string :=
  match title it with
  | Some t => if is_empty t then "Untitled" else t
  | None => "Untitled"
  end.

(** The domain [shorten_with_bitly] puts in the payload. *)
Definition payload_domain (bitly_domain : string) : option string :=
  if utm_bitly.truthy (or_none bitly_domain) then or_none bitly_domain else None.

(** The title [render] asks for. *)
Definition final_title {P : Platform} (utm_campaign : string) (i : nat)
  (parsed : ParseResult) : string :=
  utm_bitly.readable_name i parsed ++ " — " ++ utm_campaign.

(** A character that [urlsplit] does not remove from a URL. *)
Definition kept (c : ascii) : bool :=
  negb (Ascii.eqb c TAB) && negb (Ascii.eqb c CR) && negb (Ascii.eqb c LF).

(** A character of a written query: kept, and not the fragment mark. *)
Definition query_char (c : ascii) : bool := kept c && negb (Ascii.eqb c "#").

Definition netloc_char (c : ascii) : bool :=
  plain c && kept c && negb (netloc_delim c).

Definition path_char (c : ascii) : bool :=
  kept c && negb (Ascii.eqb c "?") && negb (Ascii.eqb c "#") &&
  negb (Ascii.eqb c ";").

Definition starts_with_letter (s : string) : bool :=
  match s with
  | String a _ => is_ascii_alpha a
  | EmptyString => false
  end.

(** Parsed components of an absolute URL that [urlunparse] writes and
    [urlparse] reads back the same: a lowercase scheme, a host of plain
    characters, a path that is empty or starts with ["/"] and has no [";"],
    no params, and no character in them that [urlsplit] would remove. *)
Definition absolute_plain (p : ParseResult) : bool :=
  starts_with_letter (scheme p) && all_chars scheme_char (scheme p) &&
  String.eqb (lower (scheme p)) (scheme p) &&
  negb (is_empty (netloc p)) && all_chars netloc_char (netloc p) &&
  (is_empty (path p) || startswith "/" (path p)) &&
  all_chars path_char (path p) &&
  is_empty (params p) &&
  all_chars kept (fragment p).

(** What follows a written netloc: nothing, or a mark that ends it. *)
Definition ends_netloc (tail : string) : bool :=
  match tail with
  | EmptyString => true
  | String a _ => netloc_delim a
  end.

(** [url + '?' + query] and [url + '#' + fragment] of [urlunsplit] *)
Definition marked (mark : ascii) (s : string) : string :=
  if negb (is_empty s) then String mark s else EmptyString.

End Notions.

(* ================================================================== *)
(** ** tabs/utm_bitly.py: the formatted block of [render]             *)
(* ================================================================== *)

Module utm_bitly_output.
Import Py utm_bitly.

Definition HARDCODED_LABELS : list string :=
  ["📌 Розробка Shopify-магазину для дропшипінгу «під ключ»";
   "📌 Індивідуальна розробка Shopify-магазину для вашого бренду";
   "📌 Підключення Shopify Payments, PayPal, Stripe";
   "📌 Рекламні креативи для тесту продукту";
   "📌 Особистий агент з Китаю";
   "📌 Voodoo Product Hunter — 15 потенційних winner-товарів кожного місяця"].

(** The loop [for label, row in zip(HARDCODED_LABELS, results)], for any
    list of labels. *)
Definition output_lines (labels : list string) (results : list result_row)
  : list string :=
  map (fun lr => fst lr ++ " - " ++ Short_URL (snd lr)) (combine labels results).

Definition final_output_lines (results : list result_row) : list string :=
  output_lines HARDCODED_LABELS results.

(** ["\n".join(final_output_lines)] *)
Definition final_output (results : list result_row) : string :=
  join (String urllib.LF EmptyString) (final_output_lines results).

End utm_bitly_output.

(* ================================================================== *)
(** ** The requests of a run, and further notions                     *)
(* ================================================================== *)

Module Observed.
Import Py urllib requests.

(** The same service, with the requests it receives written down in
    order. *)
Definition recorded {W : Type} (send : request -> W -> reply * W)
  (q : request) (w : W * list request) : reply * (W * list request) :=
  (fst (send q (fst w)), (snd (send q (fst w)), (snd w ++ [q])%list)).

(** The value of the first pair named [k], the empty string without one. *)
Fixpoint first_value (k : string) (l : list (string * string)) : string :=
  match l with
  | [] => EmptyString
  | (k', v) :: t => if String.eqb k' k then v else first_value k t
  end.

(** The pairs [parse_qsl] keeps without [keep_blank_values]. *)
Definition not_blank (kv : string * string) : bool := negb (is_empty (snd kv)).

(** The tracking parameters that were given a value, in the order
    [build_utm_url] goes over them. *)
Definition given (s m c t : string) : list (string * string) :=
  filter not_blank (Notions.assigned s m c t).

(** The keys of the entries of [utm_params] that have a value. *)
Definition valued_keys (utm_params : list (string * option string)) : list string :=
  map fst
    (filter (fun kv => match snd kv with Some _ => true | None => false end)
       utm_params).

(** What the report reads for the tracking parameter [k] in a URL built
    from [parsed] with the value [v]: the value given, or without one the
    value the base URL had last. *)
Definition read_back (parsed : ParseResult) (k v : string) : string :=
  if is_empty v
  then utm_bitly.or_empty (Notions.last_value k (parse_qsl (query parsed) true))
  else v.

(** Whether [name] has a list in the result of [parse_qs]. *)
Definition has_name (name : string) (r : list (string * list string)) : bool :=
  existsb (fun nv => String.eqb (fst nv) name) r.

(** Every name in the result of [parse_qs] has a value. *)
Definition lists_not_empty (r : list (string * list string)) : Prop :=
  forall nv, In nv r -> snd nv <> [].

(** [item.get("link")] of a record that has one. *)
Definition link_text (it : item) : string :=
  match link it with Some b => b | None => EmptyString end.

(** The request [get_clicks] makes for a record. *)
Definition clicks_request (it : item) : request :=
  GetClicksSummary (remove_sub "https://" (link_text it)).

(** The records the three filters let through. *)
Definition surviving (src med camp : string) (links : list item) : list item :=
  filter (fun it => bitly_stats.passes_prefilters src med camp (Notions.long_url_of it))
    links.

(** What every row of the report satisfies: it passed the filters, it has a
    title, and its UTM columns are read from its own URL. *)
Definition row_sound {P : Platform} (src med camp : string) (r : bitly_stats.row)
  : Prop :=
  bitly_stats.passes_prefilters src med camp (bitly_stats.UTM_URL r) = true /\
  is_empty (bitly_stats.Title r) = false /\
  bitly_stats.parse_utm_params (bitly_stats.UTM_URL r) =
    Ret (bitly_stats.mkUtm (bitly_stats.utm_source r) (bitly_stats.utm_medium r)
           (bitly_stats.utm_campaign r)).

(** The requests of one entry of the batch, from what the entry records:
    the creation of a link for its UTM URL, and the titling of the link when
    the entry has one.  [i] is the position of the entry. *)
Definition requests_of_row {P : Platform} (utm_campaign bitly_domain : string)
  (i : nat) (row : utm_bitly.result_row) : list request :=
  PostShorten (utm_bitly.UTM_URL row) (Notions.payload_domain bitly_domain) ::
  (if is_empty (utm_bitly.Short_URL row) then []
   else
     match urlparse (utm_bitly.Original_URL row) with
     | Ret parsed =>
         [PatchBitlink (remove_sub "https://" (utm_bitly.Short_URL row))
            (Notions.final_title utm_campaign i parsed)]
     | Raise _ => []
     end).

Fixpoint requests_of_rows {P : Platform} (utm_campaign bitly_domain : string)
  (i : nat) (rows : list utm_bitly.result_row) : list request :=
  match rows with
  | [] => []
  | row :: rest =>
      (requests_of_row utm_campaign bitly_domain i row ++
       requests_of_rows utm_campaign bitly_domain (S i) rest)%list
  end.

(** An entry whose UTM URL is what [build_utm_url] makes of its original
    URL. *)
Definition built {P : Platform} (s m c t : string) (row : utm_bitly.result_row)
  : Prop :=
  utm_bitly.build_utm_url (utm_bitly.Original_URL row) s m c t =
  Ret (utm_bitly.UTM_URL row).

(** The row of the report for a record, with the count [clicks]. *)
Definition row_of {P : Platform} (it : item) (clicks : Z) : option bitly_stats.row :=
  match bitly_stats.parse_utm_params (Notions.long_url_of it), link it with
  | Ret utm, Some bitlink =>
      Some (bitly_stats.mkRow (Notions.title_of it) bitlink (Notions.long_url_of it)
              (bitly_stats.p_utm_source utm) (bitly_stats.p_utm_medium utm)
              (bitly_stats.p_utm_campaign utm) clicks)
  | _, _ => None
  end.

End Observed.

(* ================================================================== *)
(** * Results                                                          *)
(* ================================================================== *)

(** ** The pagination loop *)

Module PaginationFacts.
Import Py urllib requests bitly_stats Pagination.

Section Run.
Context {W : Type} (send : request -> W -> reply * W).
Variables (group_guid : string) (created_after : option Z).

Local Abbreviation loop := (get_all_bitlinks_loop send).
Local Abbreviation before := (world_before send group_guid created_after).
Local Abbreviation at_ := (reply_at send group_guid created_after).
Local Abbreviation got := (gathered send group_guid created_after).

(** One turn of the loop, read on the run. *)
Lemma loop_turn (fuel k : nat) (acc : list item) (w : W) :
  loop (S fuel) group_guid created_after (Z.of_nat k + 1)%Z acc (before k w) =
  if full_page (at_ k w)
  then loop fuel group_guid created_after (Z.of_nat (S k) + 1)%Z
         (acc ++ items_of (at_ k w))%list (before (S k) w)
  else Some (stop_outcome acc (at_ k w), before (S k) w).
Proof.
  cbn [get_all_bitlinks_loop world_before].
  unfold reply_at, call, page_request.
  destruct (send _ (before k w)) as [rp w'] eqn:E.
  cbn [fst snd].
  destruct rp as [r | e]; cbn [full_page stop_outcome]; [ | reflexivity ].
  destruct (Z.eqb (status_code r) 200); cbn [negb andb]; [ | reflexivity ].
  cbn [items_of].
  destruct (json r) as [data | e]; [ | reflexivity ].
  destruct (Z.ltb _ size); cbn [negb]; [ reflexivity | ].
  rewrite Nat2Z.inj_succ. unfold Z.succ. reflexivity.
Qed.

(** The loop is still running after [fuel] turns exactly when the first
    [fuel] replies from its starting point are full pages. *)
Lemma loop_runs_on (fuel : nat) : forall (k : nat) (acc : list item) (w : W),
  loop fuel group_guid created_after (Z.of_nat k + 1)%Z acc (before k w) = None <->
  (forall j, j < fuel -> full_page (at_ (k + j) w) = true).
Proof.
  induction fuel as [ | fuel IH]; intros k acc w.
  - split; [ intros _ j Hj; lia | reflexivity ].
  - rewrite loop_turn. split.
    + intros H j Hj.
      destruct (full_page (at_ k w)) eqn:F; [ | discriminate ].
      destruct j as [ | j]; [ now rewrite Nat.add_0_r | ].
      apply IH with (j := j) in H; [ | lia ].
      now replace (k + S j) with (S k + j) by lia.
    + intros H.
      assert (F : full_page (at_ k w) = true).
      { specialize (H 0). rewrite Nat.add_0_r in H. apply H. lia. }
      rewrite F. apply IH. intros j Hj.
      replace (S k + j) with (k + S j) by lia. apply H. lia.
Qed.

(** After [n] more full pages, a reply that is not one ends the loop. *)
Lemma loop_stops_at (n : nat) : forall (fuel k : nat) (w : W),
  (forall j, j < n -> full_page (at_ (k + j) w) = true) ->
  full_page (at_ (k + n) w) = false ->
  n < fuel ->
  loop fuel group_guid created_after (Z.of_nat k + 1)%Z (got k w) (before k w) =
  Some (stop_outcome (got (k + n) w) (at_ (k + n) w), before (S (k + n)) w).
Proof.
  induction n as [ | n IH]; intros fuel k w Hfull Hstop Hfuel;
    (destruct fuel as [ | fuel]; [ lia | ]); rewrite loop_turn.
  - rewrite Nat.add_0_r in *. now rewrite Hstop.
  - assert (F : full_page (at_ k w) = true).
    { specialize (Hfull 0). rewrite Nat.add_0_r in Hfull. apply Hfull. lia. }
    rewrite F.
    replace (k + S n) with (S k + n) in * by lia.
    change (got k w ++ items_of (at_ k w))%list with (got (S k) w).
    apply IH; [ | assumption | lia ].
    intros j Hj. replace (S k + j) with (k + S j) by lia. apply Hfull. lia.
Qed.


Lemma get_all_bitlinks_runs_on (fuel : nat) (w : W) :
  get_all_bitlinks send fuel group_guid created_after w = None <->
  (forall k, k < fuel -> full_page (at_ k w) = true).
Proof.
  unfold get_all_bitlinks.
  exact (loop_runs_on fuel 0 [] w).
Qed.

Lemma get_all_bitlinks_stops_at (n fuel : nat) (w : W) :
  (forall k, k < n -> full_page (at_ k w) = true) ->
  full_page (at_ n w) = false ->
  n < fuel ->
  get_all_bitlinks send fuel group_guid created_after w =
  Some (stop_outcome (got n w) (at_ n w), before (S n) w).
Proof.
  intros Hfull Hstop Hfuel. unfold get_all_bitlinks.
  exact (loop_stops_at n fuel 0 w Hfull Hstop Hfuel).
Qed.


Lemma not_full_page (rp : reply) :
  non_success rp = true \/ short_page rp = true -> full_page rp = false.
Proof.
  destruct rp as [r | e]; cbn [full_page non_success short_page];
    [ | intros [H | H]; discriminate ].
  destruct (Z.eqb (status_code r) 200); cbn [negb andb];
    [ | reflexivity ].
  intros [H | H]; [ discriminate | ].
  destruct (json r); [ now rewrite H | reflexivity ].
Qed.

End Run.

(** *** Slices of a list *)

Lemma firstn_skipn_add {A : Type} (a b : nat) : forall l : list A,
  (firstn a l ++ firstn b (skipn a l))%list = firstn (a + b) l.
Proof.
  induction a as [ | a IH]; intros [ | x l]; cbn [firstn skipn Nat.add app];
    try reflexivity.
  - now rewrite firstn_nil.
  - now rewrite IH.
Qed.

Lemma page_of_slice (records : list item) (k : nat) :
  Scenario.page_of records size (Z.of_nat k + 1) =
  firstn 50 (skipn (50 * k) records).
Proof.
  unfold Scenario.page_of.
  replace (Z.of_nat k + 1 - 1)%Z with (Z.of_nat k) by lia.
  rewrite Nat2Z.id. reflexivity.
Qed.

Lemma page_of_length (records : list item) (k : nat) :
  List.length (Scenario.page_of records size (Z.of_nat k + 1)) =
  Nat.min 50 (List.length records - 50 * k).
Proof.
  rewrite page_of_slice, length_firstn, length_skipn. reflexivity.
Qed.

Section Slices.
Context {W : Type} (send : request -> W -> reply * W).
Variables (group_guid : string) (created_after : option Z).
Variables (records : list item) (w : W).
Hypothesis served : serves_slices send group_guid created_after records w.

Local Abbreviation at_ := (reply_at send group_guid created_after).
Local Abbreviation got := (gathered send group_guid created_after).

Lemma slice_items (k : nat) :
  items_of (at_ k w) = firstn 50 (skipn (50 * k) records).
Proof.
  destruct (served k) as (r & data & E & _ & J & L).
  rewrite E. cbn [items_of]. rewrite J, L. apply page_of_slice.
Qed.

Lemma slice_full (k : nat) :
  full_page (at_ k w) = negb (Nat.ltb (List.length records - 50 * k) 50).
Proof.
  pose proof (slice_items k) as I.
  destruct (served k) as (r & data & E & St & J & L).
  rewrite E in *. cbn [full_page]. rewrite St, J, I, Z.eqb_refl. cbn [andb].
  rewrite length_firstn, length_skipn. f_equal.
  unfold size.
  destruct (Nat.ltb_spec (List.length records - 50 * k) 50);
    [ apply Z.ltb_lt | apply Z.ltb_ge ]; lia.
Qed.

Lemma slice_stop (acc : list item) (k : nat) :
  stop_outcome acc (at_ k w) = Ret (acc ++ firstn 50 (skipn (50 * k) records))%list.
Proof.
  pose proof (slice_items k) as I.
  destruct (served k) as (r & data & E & St & J & L).
  rewrite E in *. cbn [stop_outcome]. rewrite St, J, I. reflexivity.
Qed.

Lemma slices_gathered (k : nat) : got k w = firstn (50 * k) records.
Proof.
  induction k as [ | k IH]; [ reflexivity | ].
  cbn [gathered]. rewrite IH, slice_items, firstn_skipn_add.
  f_equal. lia.
Qed.

(** On correct slices the loop ends after the first short page, with all the
    records. *)
Lemma slices_all_retrieved (fuel : nat) :
  List.length records / 50 < fuel ->
  get_all_bitlinks send fuel group_guid created_after w =
  Some (Ret records,
        world_before send group_guid created_after (S (List.length records / 50)) w).
Proof.
  intros Hfuel.
  pose proof (Nat.div_mod_eq (List.length records) 50) as D.
  pose proof (Nat.mod_upper_bound (List.length records) 50) as U.
  set (n := List.length records / 50) in *.
  rewrite (get_all_bitlinks_stops_at send group_guid created_after n fuel w).
  - rewrite slice_stop, slices_gathered, firstn_skipn_add.
    rewrite firstn_all2 by lia. reflexivity.
  - intros k Hk. rewrite slice_full.
    destruct (Nat.ltb_spec (List.length records - 50 * k) 50); [ lia | reflexivity ].
  - rewrite slice_full.
    destruct (Nat.ltb_spec (List.length records - 50 * n) 50); [ reflexivity | lia ].
  - assumption.
Qed.

End Slices.

Lemma stop_outcome_non_success (acc : list item) (rp : reply) :
  non_success rp = true -> stop_outcome acc rp = Ret [].
Proof.
  destruct rp as [r | e]; cbn [non_success stop_outcome]; [ | discriminate ].
  now intros ->.
Qed.



(** *** The synthetic listing *)

Lemma paginated_world (group_guid : string) (created_after : option Z)
  (records : list item) (c k : nat) :
  world_before Scenario.paginated group_guid created_after k (records, c) =
  (records, k + c).
Proof.
  induction k as [ | k IH]; [ reflexivity | ].
  cbn [world_before]. rewrite IH. reflexivity.
Qed.

Lemma paginated_serves (group_guid : string) (created_after : option Z)
  (records : list item) (c : nat) :
  serves_slices Scenario.paginated group_guid created_after records (records, c).
Proof.
  intros k. unfold reply_at. rewrite paginated_world.
  eexists. eexists. cbn. repeat split; reflexivity.
Qed.

(** [C2] On a listing of [N] records served in pages of the requested size,
    the fetch returns exactly the [N] records as soon as it may make
    [N / 50 + 1] requests, and it makes exactly that many: the pages before
    the last one requested hold 50 records and the last one fewer, which is
    the empty page when 50 divides [N], the only page when [N = 0]. *)
Theorem get_all_bitlinks_retrieves_all
  (records : list item) (group_guid : string) (created_after : option Z) :
  let n := List.length records / 50 in
  (forall extra,
     get_all_bitlinks Scenario.paginated (S n + extra) group_guid created_after
       (records, 0) = Some (Ret records, (records, S n))) /\
  (forall fuel, fuel <= n ->
     get_all_bitlinks Scenario.paginated fuel group_guid created_after
       (records, 0) = None) /\
  (forall k, k < n ->
     List.length (Scenario.page_of records size (Z.of_nat k + 1)) = 50) /\
  List.length (Scenario.page_of records size (Z.of_nat n + 1)) < 50 /\
  (List.length records = 50 * n ->
     Scenario.page_of records size (Z.of_nat n + 1) = []) /\
  (records = [] ->
     get_all_bitlinks Scenario.paginated 1 group_guid created_after
       (records, 0) = Some (Ret [], ([], 1))).
Proof.
  intros n.
  pose proof (Nat.div_mod_eq (List.length records) 50) as Dv.
  pose proof (Nat.mod_upper_bound (List.length records) 50) as U.
  fold n in Dv.
  assert (R : forall extra,
     get_all_bitlinks Scenario.paginated (S n + extra) group_guid created_after
       (records, 0) = Some (Ret records, (records, S n))).
  { intros extra.
    rewrite (slices_all_retrieved Scenario.paginated group_guid created_after
               records (records, 0) (paginated_serves _ _ _ _)) by (fold n; lia).
    rewrite paginated_world. fold n. repeat f_equal. lia. }
  split; [ exact R | ].
  split.
  { intros fuel Hfuel. apply get_all_bitlinks_runs_on. intros k Hk.
    rewrite (slice_full Scenario.paginated group_guid created_after records
               (records, 0) (paginated_serves _ _ _ _)).
    destruct (Nat.ltb_spec (List.length records - 50 * k) 50);
      [ lia | reflexivity ]. }
  split; [ intros k Hk; rewrite page_of_length; lia | ].
  split; [ rewrite page_of_length; lia | ].
  split.
  { intros Hdiv. apply length_zero_iff_nil. rewrite page_of_length. lia. }
  intros ->. exact (R 0).
Qed.

(** The fetch at work on 120 records: three requests, the last page has 20. *)
Lemma get_all_bitlinks_retrieves_all_witness :
  let records := repeat (mkItem (Some "https://bit.ly/a") None None) 120 in
  get_all_bitlinks Scenario.paginated 3 "Bg1" None (records, 0) =
  Some (Ret records, (records, 3)).
Proof.
  exact (proj1 (get_all_bitlinks_retrieves_all
                  (repeat (mkItem (Some "https://bit.ly/a") None None) 120)
                  "Bg1" None) 0).
Defined.


End PaginationFacts.

(** ** The order of the report *)

Module SortFacts.
Import Py bitly_stats Notions Scenario.

Lemma string_compare_refl (x : string) : String.compare x x = Eq.
Proof.
  induction x as [ | a x IH]; [ reflexivity | ].
  cbn [String.compare]. unfold Ascii.compare. now rewrite N.compare_refl.
Qed.

Lemma string_compare_lt_trans : forall x y z : string,
  String.compare x y = Lt -> String.compare y z = Lt -> String.compare x z = Lt.
Proof.
  induction x as [ | a x IH]; intros [ | b y] [ | c z]; cbn [String.compare];
    try congruence.
  destruct (Ascii.compare a b) eqn:Eab; try discriminate;
    destruct (Ascii.compare b c) eqn:Ebc; try discriminate; intros Hxy Hyz.
  - apply Ascii.compare_eq_iff in Eab, Ebc. subst.
    unfold Ascii.compare. rewrite N.compare_refl. now apply IH with y.
  - apply Ascii.compare_eq_iff in Eab. subst. now rewrite Ebc.
  - apply Ascii.compare_eq_iff in Ebc. subst. now rewrite Eab.
  - unfold Ascii.compare in *. rewrite N.compare_lt_iff in Eab, Ebc.
    assert (H : N.compare (N_of_ascii a) (N_of_ascii c) = Lt)
      by (apply N.compare_lt_iff; lia).
    now rewrite H.
Qed.

Lemma string_compare_gt_lt (x y : string) :
  String.compare x y = Gt -> String.compare y x = Lt.
Proof.
  intros H. rewrite String.compare_antisym, H. reflexivity.
Qed.

Lemma row_compare_antisym (a b : row) :
  row_compare a b = CompOpp (row_compare b a).
Proof.
  unfold row_compare.
  rewrite (String.compare_antisym (utm_source b) (utm_source a)),
          (String.compare_antisym (utm_medium b) (utm_medium a)),
          (String.compare_antisym (utm_campaign b) (utm_campaign a)),
          (Z.compare_antisym (Clicks b) (Clicks a)).
  destruct (String.compare (utm_source a) (utm_source b)); cbn [CompOpp];
    try reflexivity.
  destruct (String.compare (utm_medium a) (utm_medium b)); cbn [CompOpp];
    try reflexivity.
  destruct (String.compare (utm_campaign a) (utm_campaign b)); cbn [CompOpp];
    try reflexivity.
  now destruct (Z.compare (Clicks b) (Clicks a)).
Qed.


(** One column of the comparison of [a] with [c] through [b]: either the
    column decides, or the three values agree and the next column is
    looked at. *)
Ltac column x y z :=
  let Exy := fresh "Exy" in
  let Eyz := fresh "Eyz" in
  destruct (String.compare x y) eqn:Exy; [ | | intros; discriminate ];
  (destruct (String.compare y z) eqn:Eyz; [ | | intros; discriminate ]);
  [ apply String.compare_eq_iff in Exy, Eyz;
    rewrite Exy, Eyz, string_compare_refl; clear Exy Eyz
  | apply String.compare_eq_iff in Exy; rewrite Exy, Eyz;
    intros; reflexivity
  | apply String.compare_eq_iff in Eyz; rewrite <- Eyz, Exy;
    intros; reflexivity
  | rewrite (string_compare_lt_trans x y z Exy Eyz);
    intros; reflexivity ].

Lemma row_le_trans (a b c : row) :
  row_le a b = true -> row_le b c = true -> row_le a c = true.
Proof.
  unfold row_le, row_compare.
  column (utm_source a) (utm_source b) (utm_source c).
  column (utm_medium a) (utm_medium b) (utm_medium c).
  column (utm_campaign a) (utm_campaign b) (utm_campaign c).
  destruct (Z.compare_spec (Clicks b) (Clicks a));
    destruct (Z.compare_spec (Clicks c) (Clicks b));
    destruct (Z.compare_spec (Clicks c) (Clicks a));
    try reflexivity; try discriminate; lia.
Qed.

Lemma row_le_total (a b : row) : row_le a b = false -> row_le b a = true.
Proof.
  unfold row_le. rewrite (row_compare_antisym b a).
  now destruct (row_compare a b).
Qed.

Lemma insert_row_perm (x : row) (l : list row) :
  Permutation (x :: l) (insert_row x l).
Proof.
  induction l as [ | y l IH]; cbn [insert_row]; [ reflexivity | ].
  destruct (row_le x y); [ reflexivity | ].
  rewrite perm_swap. now apply perm_skip.
Qed.

Lemma sort_values_perm (l : list row) : Permutation l (sort_values l).
Proof.
  induction l as [ | x l IH]; cbn [sort_values fold_right]; [ constructor | ].
  rewrite <- insert_row_perm. now apply perm_skip.
Qed.

Lemma insert_row_sorted (x : row) (l : list row) :
  StronglySorted (fun a b => row_le a b = true) l ->
  StronglySorted (fun a b => row_le a b = true) (insert_row x l).
Proof.
  induction 1 as [ | y l Hs IH Hall]; cbn [insert_row].
  - repeat constructor.
  - destruct (row_le x y) eqn:E.
    + constructor; [ now constructor | ].
      constructor; [ assumption | ].
      rewrite Forall_forall in *. intros z Hz.
      apply row_le_trans with y; auto.
    + constructor; [ assumption | ].
      rewrite Forall_forall in *. intros z Hz.
      apply (Permutation_in _ (Permutation_sym (insert_row_perm x l))) in Hz.
      destruct Hz as [<- | Hz]; [ now apply row_le_total | auto ].
Qed.

Lemma sort_values_sorted (l : list row) :
  StronglySorted (fun a b => row_le a b = true) (sort_values l).
Proof.
  induction l as [ | x l IH]; cbn [sort_values fold_right]; [ constructor | ].
  now apply insert_row_sorted.
Qed.







End SortFacts.

(** ** Strings, percent-encoding and query strings *)

Module EncodingFacts.
Import Py urllib.

Ltac each_byte c := destruct c as [[|] [|] [|] [|] [|] [|] [|] [|]].

Lemma char_in_app (c : ascii) (x y : string) :
  char_in c (x ++ y) = char_in c x || char_in c y.
Proof.
  induction x as [ | a x IH]; cbn [append char_in]; [ reflexivity | ].
  now rewrite IH, orb_assoc.
Qed.

Lemma is_empty_app (x y : string) :
  is_empty (x ++ y) = is_empty x && is_empty y.
Proof. now destruct x. Qed.

Lemma partition_app (c : ascii) (x y : string) :
  char_in c x = false -> partition c (x ++ String c y) = Some (x, y).
Proof.
  induction x as [ | a x IH]; cbn [append char_in partition].
  - now rewrite Ascii.eqb_refl.
  - intros H. apply orb_false_iff in H as [Ha Hx].
    now rewrite Ha, IH.
Qed.

Lemma split_absent (c : ascii) (x : string) :
  char_in c x = false -> split c x = [x].
Proof.
  induction x as [ | a x IH]; cbn [char_in split]; [ reflexivity | ].
  intros H. apply orb_false_iff in H as [Ha Hx].
  now rewrite Ha, IH.
Qed.

Lemma split_app (c : ascii) (x y : string) :
  char_in c x = false -> split c (x ++ String c y) = x :: split c y.
Proof.
  induction x as [ | a x IH]; cbn [append char_in split].
  - now rewrite Ascii.eqb_refl.
  - intros H. apply orb_false_iff in H as [Ha Hx].
    now rewrite Ha, IH.
Qed.

(** Splitting what was joined gives the fields back. *)
Lemma split_join (c : ascii) (x : string) (l : list string) :
  Forall (fun f => char_in c f = false) (x :: l) ->
  split c (join (String c EmptyString) (x :: l)) = x :: l.
Proof.
  revert x. induction l as [ | y l IH]; intros x H.
  - apply split_absent. now inversion H.
  - inversion H as [ | ? ? Hx Hl]; subst.
    change (join (String c EmptyString) (x :: y :: l))
      with (x ++ String c (join (String c EmptyString) (y :: l))).
    rewrite split_app by assumption.
    now rewrite IH.
Qed.

Lemma replace_char_absent (c d : ascii) (x : string) :
  char_in c x = false -> replace_char c d x = x.
Proof.
  induction x as [ | a x IH]; cbn [char_in replace_char]; [ reflexivity | ].
  intros H. apply orb_false_iff in H as [Ha Hx].
  now rewrite Ha, IH.
Qed.

Lemma replace_char_back (c d : ascii) (x : string) :
  char_in d x = false -> replace_char d c (replace_char c d x) = x.
Proof.
  induction x as [ | a x IH]; cbn [char_in replace_char]; [ reflexivity | ].
  intros H. apply orb_false_iff in H as [Ha Hx].
  rewrite IH by assumption. f_equal.
  destruct (Ascii.eqb a c) eqn:E.
  - rewrite Ascii.eqb_refl. apply Ascii.eqb_eq in E. now symmetry.
  - now rewrite Ha.
Qed.

Lemma char_in_replace_char (c a d : ascii) (x : string) :
  Ascii.eqb d c = false -> char_in c x = false ->
  char_in c (replace_char a d x) = false.
Proof.
  intros Hd. induction x as [ | b x IH]; cbn [char_in replace_char];
    [ reflexivity | ].
  intros H. apply orb_false_iff in H as [Hb Hx].
  rewrite IH by assumption.
  destruct (Ascii.eqb b a); now rewrite ?Hd, ?Hb.
Qed.

(** *** The quoter, byte by byte *)

Lemma quoter_reserved (b : bool) (c : ascii) :
  char_in "&" (quoter b c) = false /\
  char_in "=" (quoter b c) = false /\
  char_in "+" (quoter b c) = false.
Proof. destruct b; each_byte c; repeat split; reflexivity. Qed.

Lemma unquote_quoter (b : bool) (c : ascii) (rest : string) :
  unquote (quoter b c ++ rest) = String c (unquote rest).
Proof. destruct b; each_byte c; reflexivity. Qed.

Lemma quoter_not_empty (b : bool) (c : ascii) : is_empty (quoter b c) = false.
Proof.
  unfold quoter. now destruct (always_safe c || (b && Ascii.eqb c " ")).
Qed.

Lemma quote_reserved (b : bool) (s : string) :
  char_in "&" (quote b s) = false /\
  char_in "=" (quote b s) = false /\
  char_in "+" (quote b s) = false.
Proof.
  induction s as [ | c s (IH1 & IH2 & IH3)]; cbn [quote];
    [ repeat split; reflexivity | ].
  destruct (quoter_reserved b c) as (H1 & H2 & H3).
  rewrite !char_in_app, H1, H2, H3, IH1, IH2, IH3. repeat split; reflexivity.
Qed.

Lemma unquote_quote (b : bool) (s : string) : unquote (quote b s) = s.
Proof.
  induction s as [ | c s IH]; cbn [quote]; [ reflexivity | ].
  now rewrite unquote_quoter, IH.
Qed.

Lemma quote_plus_reserved (s : string) :
  char_in "&" (quote_plus s) = false /\ char_in "=" (quote_plus s) = false.
Proof.
  unfold quote_plus.
  destruct (char_in " " s).
  - destruct (quote_reserved true s) as (H1 & H2 & _).
    split; apply char_in_replace_char; auto.
  - destruct (quote_reserved false s) as (H1 & H2 & _). now split.
Qed.

(** Decoding undoes the encoding of a name or a value. *)
Lemma unquote_plus_quote_plus (s : string) : unquote_plus (quote_plus s) = s.
Proof.
  unfold unquote_plus, quote_plus.
  destruct (char_in " " s).
  - destruct (quote_reserved true s) as (_ & _ & H).
    rewrite replace_char_back by assumption. apply unquote_quote.
  - destruct (quote_reserved false s) as (_ & _ & H).
    rewrite replace_char_absent by assumption. apply unquote_quote.
Qed.

(** *** Encoding a dict and reading it back *)

Lemma encode_pair_no_amp (kv : string * string) :
  char_in "&" (encode_pair kv) = false.
Proof.
  unfold encode_pair.
  destruct (quote_plus_reserved (fst kv)) as (H1 & _).
  destruct (quote_plus_reserved (snd kv)) as (H2 & _).
  rewrite !char_in_app. cbn [char_in append]. rewrite H1, H2. reflexivity.
Qed.

Lemma parse_field_encode_pair (kv : string * string) :
  parse_field true (encode_pair kv) = Some kv.
Proof.
  unfold parse_field, encode_pair. cbn [append].
  rewrite is_empty_app. cbn [is_empty]. rewrite andb_false_r.
  destruct (quote_plus_reserved (fst kv)) as (_ & H).
  rewrite partition_app by assumption.
  rewrite orb_true_r, !unquote_plus_quote_plus. now destruct kv.
Qed.

Lemma parse_fields_encode (d : dict) :
  parse_fields true (map encode_pair d) = d.
Proof.
  induction d as [ | kv d IH]; cbn [map parse_fields]; [ reflexivity | ].
  now rewrite parse_field_encode_pair, IH.
Qed.

Lemma urlencode_join (d : dict) :
  urlencode d = join "&" (map encode_pair d).
Proof. reflexivity. Qed.

Lemma join_not_empty (sep x : string) (l : list string) :
  is_empty x = false -> is_empty (join sep (x :: l)) = false.
Proof.
  intros H. destruct l; cbn [join]; [ assumption | ].
  rewrite is_empty_app, H. reflexivity.
Qed.

(** The query [urlencode] writes for [d] is read back as [d]. *)
Lemma parse_qsl_urlencode (d : dict) : parse_qsl (urlencode d) true = d.
Proof.
  unfold parse_qsl. rewrite urlencode_join.
  destruct d as [ | kv d]; [ reflexivity | ].
  cbn [map]. rewrite join_not_empty.
  - rewrite split_join.
    + exact (parse_fields_encode (kv :: d)).
    + change (Forall (fun f => char_in "&" f = false) (map encode_pair (kv :: d))).
      apply Forall_forall. intros f Hf. apply in_map_iff in Hf as (x & <- & _).
      apply encode_pair_no_amp.
  - unfold encode_pair. cbn [append]. rewrite is_empty_app. cbn [is_empty].
    apply andb_false_r.
Qed.

End EncodingFacts.

(** ** Dicts and the merge of the tracking parameters *)

Module DictFacts.
Import Py urllib utm_bitly Notions.

Lemma dict_get_set (k k0 v : string) (d : dict) :
  dict_get k (dict_set k0 v d) =
  if String.eqb k0 k then Some v else dict_get k d.
Proof.
  induction d as [ | [k1 v1] d IH]; cbn [dict_set dict_get].
  - reflexivity.
  - destruct (String.eqb k1 k0) eqn:E10; cbn [dict_get].
    + apply String.eqb_eq in E10. subst k1.
      now destruct (String.eqb k0 k).
    + rewrite IH. destruct (String.eqb k1 k) eqn:E1; [ | reflexivity ].
      apply String.eqb_eq in E1. subst k1.
      rewrite String.eqb_sym in E10. now rewrite E10.
Qed.

Lemma keys_set (k v : string) (d : dict) :
  keys (dict_set k v d) =
  if str_mem k (keys d) then keys d else (keys d ++ [k])%list.
Proof.
  unfold keys, str_mem.
  induction d as [ | [k1 v1] d IH]; cbn [dict_set map existsb app fst];
    [ reflexivity | ].
  rewrite (String.eqb_sym k k1).
  destruct (String.eqb k1 k); cbn [map orb fst]; [ reflexivity | ].
  rewrite IH. now destruct (existsb (String.eqb k) (map fst d)).
Qed.

Lemma str_mem_In (k : string) (l : list string) :
  str_mem k l = true <-> In k l.
Proof.
  unfold str_mem. rewrite existsb_exists. split.
  - intros (x & Hx & E). apply String.eqb_eq in E. now subst.
  - intros H. exists k. split; [ assumption | apply String.eqb_refl ].
Qed.

Lemma dict_set_same (k v : string) (d : dict) :
  dict_get k d = Some v -> dict_set k v d = d.
Proof.
  induction d as [ | [k1 v1] d IH]; cbn [dict_set dict_get]; [ discriminate | ].
  destruct (String.eqb k1 k); [ congruence | ].
  intros H. now rewrite IH.
Qed.

Lemma dict_set_fresh (k v : string) (d : dict) :
  ~ In k (keys d) -> dict_set k v d = (d ++ [(k, v)])%list.
Proof.
  induction d as [ | [k1 v1] d IH]; cbn [dict_set keys map In app fst];
    [ reflexivity | ].
  intros H. destruct (String.eqb k1 k) eqn:E.
  - apply String.eqb_eq in E. tauto.
  - rewrite IH; [ reflexivity | tauto ].
Qed.

Lemma keys_set_nodup (k v : string) (d : dict) :
  NoDup (keys d) -> NoDup (keys (dict_set k v d)).
Proof.
  intros H. rewrite keys_set.
  destruct (str_mem k (keys d)) eqn:E; [ assumption | ].
  apply NoDup_app; [ assumption | repeat constructor; auto | ].
  intros x Hx [<- | []]. apply str_mem_In in Hx. congruence.
Qed.

Lemma fold_set_nodup (l : list (string * string)) : forall acc : dict,
  NoDup (keys acc) ->
  NoDup (keys (fold_left (fun d kv => dict_set (fst kv) (snd kv) d) l acc)).
Proof.
  induction l as [ | kv l IH]; intros acc H; cbn [fold_left];
    [ assumption | ].
  apply IH. now apply keys_set_nodup.
Qed.

Lemma dict_of_pairs_nodup (l : list (string * string)) :
  NoDup (keys (dict_of_pairs l)).
Proof. apply fold_set_nodup. constructor. Qed.

(** A dict read as a list of pairs makes the same dict. *)
Lemma dict_of_pairs_dict (d : dict) : NoDup (keys d) -> dict_of_pairs d = d.
Proof.
  unfold dict_of_pairs.
  assert (G : forall l acc : dict,
             NoDup (keys (acc ++ l)%list) ->
             fold_left (fun d kv => dict_set (fst kv) (snd kv) d) l acc
             = (acc ++ l)%list).
  { induction l as [ | [k v] l IH]; intros acc H; cbn [fold_left fst snd].
    - now rewrite app_nil_r.
    - unfold keys in H. rewrite map_app in H. cbn [map fst] in H.
      rewrite dict_set_fresh.
      + rewrite IH; rewrite <- app_assoc; [ reflexivity | ].
        unfold keys. now rewrite map_app.
      + apply NoDup_remove_2 in H. intros Hin. apply H.
        apply in_or_app. now left. }
  intros H. exact (G d [] H).
Qed.

Lemma fold_set_get (k : string) (l : list (string * string)) : forall acc : dict,
  dict_get k (fold_left (fun d kv => dict_set (fst kv) (snd kv) d) l acc) =
  match last_value k l with
  | Some x => Some x
  | None => dict_get k acc
  end.
Proof.
  induction l as [ | [k1 v1] l IH]; intros acc;
    cbn [fold_left last_value fst snd]; [ reflexivity | ].
  rewrite IH, dict_get_set.
  now destruct (last_value k l), (String.eqb k1 k).
Qed.

(** [dict(pairs)[k]] is the value of the last pair named [k]. *)
Lemma dict_of_pairs_get (k : string) (l : list (string * string)) :
  dict_get k (dict_of_pairs l) = last_value k l.
Proof.
  unfold dict_of_pairs. rewrite fold_set_get. now destruct (last_value k l).
Qed.

Lemma filter_filter {A : Type} (p q : A -> bool) (l : list A) :
  filter p (filter q l) = filter (fun x => q x && p x) l.
Proof.
  induction l as [ | x l IH]; cbn [filter]; [ reflexivity | ].
  destruct (q x); cbn [filter andb]; now rewrite IH.
Qed.

Lemma fold_set_keys (l : list (string * string)) : forall acc : dict,
  keys (fold_left (fun d kv => dict_set (fst kv) (snd kv) d) l acc) =
  (keys acc ++
   filter (fun k => negb (str_mem k (keys acc))) (first_occurrences (map fst l)))%list.
Proof.
  induction l as [ | [k v] l IH]; intros acc;
    cbn [fold_left map first_occurrences fst snd filter].
  - now rewrite app_nil_r.
  - rewrite IH, keys_set, filter_filter.
    destruct (str_mem k (keys acc)) eqn:E; cbn [negb].
    + f_equal. apply filter_ext_in. intros x _.
      destruct (String.eqb k x) eqn:Ex; cbn [negb andb]; [ | reflexivity ].
      apply String.eqb_eq in Ex. subst x. now rewrite E.
    + rewrite <- app_assoc. cbn [app]. do 2 f_equal.
      apply filter_ext_in. intros x _.
      unfold str_mem. rewrite existsb_app. cbn [existsb].
      rewrite orb_false_r, negb_orb, (String.eqb_sym x k).
      apply andb_comm.
Qed.

(** The keys of [dict(pairs)] are the names, in the order they first occur. *)
Lemma dict_of_pairs_keys (l : list (string * string)) :
  keys (dict_of_pairs l) = first_occurrences (map fst l).
Proof.
  unfold dict_of_pairs. rewrite fold_set_keys. cbn [keys map app].
  generalize (first_occurrences (map fst l)) as t.
  induction t as [ | x t IH]; [ reflexivity | ].
  cbn [filter]. unfold str_mem at 1. cbn [existsb negb]. now rewrite IH.
Qed.

Lemma first_occurrences_In (k : string) (l : list string) :
  In k (first_occurrences l) <-> In k l.
Proof.
  induction l as [ | x l IH]; cbn [first_occurrences In]; [ tauto | ].
  rewrite filter_In, IH. split.
  - intros [H | (H & _)]; auto.
  - intros [H | H]; [ now left | ].
    destruct (String.eqb x k) eqn:E.
    + left. now apply String.eqb_eq.
    + right. now split.
Qed.

(** *** The loop over the tracking parameters *)

Lemma apply_get_other (k : string) (l : list (string * option string)) :
  forall d : dict,
  ~ In k (map fst l) ->
  dict_get k (apply_utm_params l d) = dict_get k d.
Proof.
  unfold apply_utm_params.
  induction l as [ | [k1 o] l IH]; intros d H; cbn [fold_left fst snd];
    [ reflexivity | ].
  cbn [map fst In] in H. rewrite IH by tauto.
  destruct o as [v | ]; [ | reflexivity ].
  rewrite dict_get_set.
  destruct (String.eqb k1 k) eqn:E; [ | reflexivity ].
  apply String.eqb_eq in E. tauto.
Qed.

Lemma apply_get_assigned (k v : string) (l : list (string * option string)) :
  forall d : dict,
  NoDup (map fst l) -> In (k, Some v) l ->
  dict_get k (apply_utm_params l d) = Some v.
Proof.
  induction l as [ | [k1 o] l IH]; intros d Hnd Hin; [ contradiction | ].
  cbn [map fst] in Hnd. inversion Hnd as [ | ? ? Hk1 Hl]; subst.
  destruct Hin as [E | Hin].
  - injection E as -> ->.
    change (dict_get k (apply_utm_params l (dict_set k v d)) = Some v).
    rewrite apply_get_other by assumption.
    now rewrite dict_get_set, String.eqb_refl.
  - change (dict_get k (apply_utm_params l
              (match o with Some v1 => dict_set k1 v1 d | None => d end))
            = Some v).
    now apply IH.
Qed.

Lemma apply_fixed (l : list (string * option string)) (d : dict) :
  (forall k v, In (k, Some v) l -> dict_get k d = Some v) ->
  apply_utm_params l d = d.
Proof.
  unfold apply_utm_params.
  induction l as [ | [k1 o] l IH]; intros H; cbn [fold_left fst snd];
    [ reflexivity | ].
  destruct o as [v | ].
  - rewrite dict_set_same by (apply H; now left).
    apply IH. intros k v' Hin. apply H. now right.
  - apply IH. intros k v' Hin. apply H. now right.
Qed.


Lemma apply_nodup (l : list (string * option string)) : forall d : dict,
  NoDup (keys d) -> NoDup (keys (apply_utm_params l d)).
Proof.
  unfold apply_utm_params.
  induction l as [ | [k1 o] l IH]; intros d H; cbn [fold_left fst snd];
    [ assumption | ].
  apply IH. destruct o; [ now apply keys_set_nodup | assumption ].
Qed.

End DictFacts.

(** ** URLs that are read back as they were written *)

Module ReparseFacts.
Import Py urllib Notions EncodingFacts.

Lemma append_assoc (x y z : string) : (x ++ y) ++ z = x ++ (y ++ z).
Proof.
  induction x as [ | a x IH]; cbn [append]; [ reflexivity | now rewrite IH ].
Qed.

Lemma append_empty_r (x : string) : x ++ EmptyString = x.
Proof.
  induction x as [ | a x IH]; cbn [append]; [ reflexivity | now rewrite IH ].
Qed.

Lemma all_chars_app (p : ascii -> bool) (x y : string) :
  all_chars p (x ++ y) = all_chars p x && all_chars p y.
Proof.
  induction x as [ | a x IH]; cbn [append all_chars]; [ reflexivity | ].
  now rewrite IH, andb_assoc.
Qed.

Lemma all_chars_weaken (p q : ascii -> bool) (s : string) :
  (forall c, p c = true -> q c = true) ->
  all_chars p s = true -> all_chars q s = true.
Proof.
  intros Hpq. induction s as [ | a s IH]; cbn [all_chars]; [ reflexivity | ].
  intros H. apply andb_true_iff in H as [Ha Hs].
  now rewrite (Hpq a Ha), IH.
Qed.

Lemma all_chars_absent (p : ascii -> bool) (c : ascii) (s : string) :
  p c = false -> all_chars p s = true -> char_in c s = false.
Proof.
  intros Hc. induction s as [ | a s IH]; cbn [all_chars char_in];
    [ reflexivity | ].
  intros H. apply andb_true_iff in H as [Ha Hs]. rewrite (IH Hs).
  destruct (Ascii.eqb a c) eqn:E; [ | reflexivity ].
  apply Ascii.eqb_eq in E. congruence.
Qed.

Lemma remove_char_absent (c : ascii) (s : string) :
  char_in c s = false -> remove_char c s = s.
Proof.
  induction s as [ | a s IH]; cbn [char_in remove_char]; [ reflexivity | ].
  intros H. apply orb_false_iff in H as [Ha Hs]. now rewrite Ha, IH.
Qed.

Lemma partition_absent (c : ascii) (s : string) :
  char_in c s = false -> partition c s = None.
Proof.
  induction s as [ | a s IH]; cbn [char_in partition]; [ reflexivity | ].
  intros H. apply orb_false_iff in H as [Ha Hs]. now rewrite Ha, IH.
Qed.

Lemma remove_unsafe_kept (s : string) :
  all_chars kept s = true -> remove_unsafe s = s.
Proof.
  intros H. unfold remove_unsafe.
  rewrite (remove_char_absent TAB), (remove_char_absent CR),
    (remove_char_absent LF); try reflexivity;
    now apply (all_chars_absent kept).
Qed.

Lemma letter_not_stripped (a : ascii) :
  is_ascii_alpha a = true -> c0_control_or_space a = false.
Proof. each_byte a; (reflexivity || discriminate). Qed.

Lemma lstrip_letter (s : string) :
  starts_with_letter s = true -> lstrip c0_control_or_space s = s.
Proof.
  destruct s as [ | a s]; cbn [starts_with_letter lstrip]; [ reflexivity | ].
  intros H. now rewrite (letter_not_stripped a H).
Qed.

Lemma scheme_char_not_colon (c : ascii) :
  scheme_char c = true -> Ascii.eqb c ":" = false.
Proof. each_byte c; (reflexivity || discriminate). Qed.

(** The scheme of a written URL is found again. *)
Lemma split_scheme_written (sch rest : string) :
  starts_with_letter sch = true ->
  all_chars scheme_char sch = true ->
  lower sch = sch ->
  split_scheme (sch ++ String ":" rest) = (sch, rest).
Proof.
  intros Hl Hc Hlow. unfold split_scheme.
  rewrite partition_app.
  - destruct sch as [ | a pre]; [ discriminate | ].
    cbn [starts_with_letter] in Hl. now rewrite Hl, Hc, Hlow.
  - apply (all_chars_absent scheme_char); [ reflexivity | assumption ].
Qed.

Lemma splitnetloc_written (n tail : string) :
  all_chars netloc_char n = true -> ends_netloc tail = true ->
  _splitnetloc (n ++ tail) = (n, tail).
Proof.
  intros Hn Ht. induction n as [ | a n IH]; cbn [append].
  - destruct tail as [ | b t]; [ reflexivity | ].
    cbn [ends_netloc] in Ht. cbn [_splitnetloc]. now rewrite Ht.
  - cbn [all_chars] in Hn. apply andb_true_iff in Hn as [Ha Hn].
    cbn [_splitnetloc]. rewrite (IH Hn).
    unfold netloc_char in Ha. apply andb_true_iff in Ha as [_ Ha].
    apply negb_true_iff in Ha. now rewrite Ha.
Qed.

(** *** The characters of a written query *)

Lemma quoter_query_chars (b : bool) (c : ascii) :
  all_chars query_char (quoter b c) = true.
Proof. destruct b; each_byte c; reflexivity. Qed.

Lemma quote_query_chars (b : bool) (s : string) :
  all_chars query_char (quote b s) = true.
Proof.
  induction s as [ | c s IH]; cbn [quote]; [ reflexivity | ].
  now rewrite all_chars_app, quoter_query_chars, IH.
Qed.

Lemma all_chars_replace_char (p : ascii -> bool) (a d : ascii) (s : string) :
  p d = true -> all_chars p s = true -> all_chars p (replace_char a d s) = true.
Proof.
  intros Hd. induction s as [ | c s IH]; cbn [all_chars replace_char];
    [ reflexivity | ].
  intros H. apply andb_true_iff in H as [Hc Hs]. rewrite (IH Hs).
  destruct (Ascii.eqb c a); now rewrite ?Hd, ?Hc.
Qed.

Lemma quote_plus_query_chars (s : string) :
  all_chars query_char (quote_plus s) = true.
Proof.
  unfold quote_plus. destruct (char_in " " s).
  - apply all_chars_replace_char; [ reflexivity | apply quote_query_chars ].
  - apply quote_query_chars.
Qed.

Lemma join_query_chars (l : list string) :
  Forall (fun f => all_chars query_char f = true) l ->
  all_chars query_char (join "&" l) = true.
Proof.
  induction 1 as [ | x l Hx Hl IH]; [ reflexivity | ].
  destruct l as [ | y l]; [ assumption | ].
  change (join "&" (x :: y :: l)) with (x ++ "&" ++ join "&" (y :: l)).
  rewrite !all_chars_app, Hx, IH. reflexivity.
Qed.

Lemma urlencode_query_chars (d : dict) :
  all_chars query_char (urlencode d) = true.
Proof.
  unfold urlencode. apply join_query_chars, Forall_forall.
  intros f Hf. apply in_map_iff in Hf as (kv & <- & _).
  unfold encode_pair.
  now rewrite !all_chars_app, !quote_plus_query_chars.
Qed.

(** *** Reading a written URL *)

Lemma path_char_kept (c : ascii) : path_char c = true -> kept c = true.
Proof. each_byte c; (reflexivity || discriminate). Qed.

Lemma query_char_kept (c : ascii) : query_char c = true -> kept c = true.
Proof. each_byte c; (reflexivity || discriminate). Qed.

Lemma netloc_char_kept (c : ascii) : netloc_char c = true -> kept c = true.
Proof. each_byte c; (reflexivity || discriminate). Qed.

Lemma netloc_char_plain (c : ascii) : netloc_char c = true -> plain c = true.
Proof. each_byte c; (reflexivity || discriminate). Qed.

Lemma scheme_char_kept (c : ascii) : scheme_char c = true -> kept c = true.
Proof. each_byte c; (reflexivity || discriminate). Qed.

Lemma partition_marked (mark : ascii) (x s : string) :
  char_in mark x = false ->
  match partition mark (x ++ marked mark s) with
  | Some (u, f) => (u, f)
  | None => (x ++ marked mark s, EmptyString)
  end = (x, s).
Proof.
  intros Hx. unfold marked. destruct s as [ | a s]; cbn [is_empty negb].
  - rewrite append_empty_r, partition_absent by assumption.
    reflexivity.
  - now rewrite partition_app.
Qed.

Lemma ends_netloc_tail (pth q frg : string) :
  (is_empty pth || startswith "/" pth) = true ->
  ends_netloc ((pth ++ marked "?" q) ++ marked "#" frg) = true.
Proof.
  destruct pth as [ | a pth]; cbn [is_empty orb startswith append].
  - intros _. destruct q as [ | b q]; [ | reflexivity ].
    destruct frg as [ | c frg]; reflexivity.
  - intros H. apply andb_true_iff in H as [H _].
    cbn [ends_netloc]. unfold netloc_delim.
    rewrite Ascii.eqb_sym in H. now rewrite H.
Qed.

(** What [urlunparse] writes for the components of an absolute URL. *)
Lemma urlunparse_written (sch net pth q frg : string) :
  is_empty sch = false -> is_empty net = false ->
  (is_empty pth || startswith "/" pth) = true ->
  urlunparse (mkParseResult sch net pth EmptyString q frg) =
  sch ++ String ":" (String "/" (String "/"
    (net ++ ((pth ++ marked "?" q) ++ marked "#" frg)))).
Proof.
  intros Hs Hn Hp. unfold urlunparse, urlunsplit.
  cbn [params path scheme netloc query fragment is_empty negb].
  rewrite Hs, Hn. cbn [negb orb].
  assert (E : (negb (is_empty pth) && negb (startswith "/" pth)) = false).
  { destruct (is_empty pth); [ reflexivity | ].
    cbn [orb] in Hp. now rewrite Hp. }
  rewrite E. unfold marked.
  destruct q as [ | a q], frg as [ | b frg]; cbn [is_empty negb append];
    rewrite ?append_empty_r, ?append_assoc; cbn [append];
    rewrite ?append_assoc; cbn [append]; reflexivity.
Qed.

Section Written.
Context {P : Platform}.

Lemma plain_netloc (netloc : string) :
  all_chars plain netloc = true ->
  check_brackets netloc = Ret tt /\ _checknetloc netloc = Ret tt.
Proof.
  intros H.
  assert (H1 : char_in "[" netloc = false)
    by (apply (all_chars_absent plain); [ reflexivity | assumption ]).
  assert (H2 : char_in "]" netloc = false)
    by (apply (all_chars_absent plain); [ reflexivity | assumption ]).
  assert (H3 : all_chars is_ascii netloc = true).
  { apply (all_chars_weaken plain); [ | assumption ].
    intros c Hc. unfold plain in Hc.
    apply andb_true_iff in Hc as [Hc _]. now apply andb_true_iff in Hc as [Hc _]. }
  unfold check_brackets, _checknetloc. rewrite H1, H2, H3, orb_true_r.
  split; reflexivity.
Qed.

(** Written from the components of an absolute URL of plain characters and
    a query without ["#"], the URL is parsed into these components. *)
Lemma urlparse_written (p : ParseResult) (q : string) :
  absolute_plain p = true ->
  all_chars query_char q = true ->
  urlparse (urlunparse (replace_query p q)) = Ret (replace_query p q).
Proof.
  destruct p as [sch net pth prm qry frg].
  unfold absolute_plain, replace_query.
  cbn [scheme netloc path params query fragment].
  intros H Hq.
  repeat match type of H with
    | (_ && _) = true => let H' := fresh "H" in apply andb_true_iff in H as [H H']
    end.
  rename H into Hletter, H7 into Hsch, H6 into Hlow, H5 into Hnet0,
    H4 into Hnet, H3 into Hstart, H2 into Hpth, H1 into Hprm, H0 into Hfrg.
  destruct prm; [ | discriminate ].
  apply String.eqb_eq in Hlow. apply negb_true_iff in Hnet0.
  assert (Hsch0 : is_empty sch = false) by (now destruct sch).
  rewrite (urlunparse_written sch net pth q frg Hsch0 Hnet0 Hstart).
  set (tail := (pth ++ marked "?" q) ++ marked "#" frg).
  assert (Hkept : all_chars kept
            (sch ++ String ":" (String "/" (String "/" (net ++ tail)))) = true).
  { unfold tail, marked. rewrite all_chars_app. cbn [all_chars].
    rewrite !all_chars_app.
    rewrite (all_chars_weaken _ _ _ scheme_char_kept Hsch),
            (all_chars_weaken _ _ _ netloc_char_kept Hnet),
            (all_chars_weaken _ _ _ path_char_kept Hpth).
    destruct q, frg; cbn [is_empty negb all_chars] in *;
      rewrite ?Hfrg; try reflexivity.
    - apply andb_true_iff in Hq as [Hq1 Hq2].
      now rewrite (query_char_kept _ Hq1), (all_chars_weaken _ _ _ query_char_kept Hq2).
    - apply andb_true_iff in Hq as [Hq1 Hq2].
      rewrite (query_char_kept _ Hq1), (all_chars_weaken _ _ _ query_char_kept Hq2).
      reflexivity. }
  unfold urlparse, urlsplit.
  rewrite lstrip_letter by (destruct sch; [ discriminate | exact Hletter ]).
  rewrite (remove_unsafe_kept _ Hkept).
  rewrite (split_scheme_written sch _ Hletter Hsch Hlow).
  cbn [after_slashes Ascii.eqb Bool.eqb andb].
  rewrite (splitnetloc_written net tail Hnet (ends_netloc_tail pth q frg Hstart)).
  destruct (plain_netloc net) as (Hb & Hc);
    [ exact (all_chars_weaken _ _ _ netloc_char_plain Hnet) | ].
  rewrite Hb. cbn [bind]. unfold tail.
  rewrite (partition_marked "#" (pth ++ marked "?" q) frg).
  2: { rewrite char_in_app.
       rewrite (all_chars_absent path_char "#" pth eq_refl Hpth).
       unfold marked. destruct q as [ | a q]; [ reflexivity | ].
       cbn [is_empty negb char_in orb].
       apply (all_chars_absent query_char "#" _ eq_refl Hq). }
  rewrite (partition_marked "?" pth q)
    by exact (all_chars_absent path_char "?" pth eq_refl Hpth).
  rewrite Hc. cbn [bind s_scheme s_netloc s_path s_query s_fragment].
  rewrite (all_chars_absent path_char ";" pth eq_refl Hpth), andb_false_r.
  reflexivity.
Qed.

End Written.

End ReparseFacts.

(** ** The UTM builder *)

Module BuilderFacts.
Import Py urllib utm_bitly Notions DictFacts EncodingFacts ReparseFacts.

Section Builder.
Context {P : Platform}.

Lemma build_utm_url_parsed (base_url s m c t : string) (parsed : ParseResult) :
  is_empty base_url = false ->
  urlparse base_url = Ret parsed ->
  build_utm_url base_url s m c t =
  Ret (urlunparse (replace_query parsed (urlencode (merged_params parsed s m c t)))).
Proof.
  intros Hne Hp. unfold build_utm_url. rewrite Hne, Hp. reflexivity.
Qed.

Lemma build_utm_url_raises (base_url s m c t : string) (e : exn) :
  is_empty base_url = false ->
  urlparse base_url = Raise e ->
  build_utm_url base_url s m c t = Raise e.
Proof.
  intros Hne Hp. unfold build_utm_url. rewrite Hne, Hp. reflexivity.
Qed.

Lemma build_utm_url_empty (s m c t : string) :
  build_utm_url EmptyString s m c t = Ret EmptyString.
Proof. reflexivity. Qed.

Lemma utm_params_nodup (s m c t : string) :
  NoDup (map fst (utm_params_of s m c t)).
Proof.
  cbn. repeat constructor; cbn; intuition discriminate.
Qed.


Lemma assigned_utm_params (s m c t k v : string) :
  In (k, v) (assigned s m c t) ->
  In (k, or_none v) (utm_params_of s m c t).
Proof.
  cbn. intros [E | [E | [E | [E | []]]]]; injection E as <- <-; auto.
Qed.

Lemma merged_params_nodup (parsed : ParseResult) (s m c t : string) :
  NoDup (keys (merged_params parsed s m c t)).
Proof. apply apply_nodup, dict_of_pairs_nodup. Qed.

(** The tracking parameters are already in the dict [build_utm_url] made. *)
Lemma merged_params_fixed (parsed : ParseResult) (s m c t : string) :
  apply_utm_params (utm_params_of s m c t) (merged_params parsed s m c t) =
  merged_params parsed s m c t.
Proof.
  apply apply_fixed. intros k v Hin.
  apply apply_get_assigned; [ apply utm_params_nodup | assumption ].
Qed.


(** [C6] With the four tracking values empty and a base URL that [urlparse]
    accepts, the result is assembled from the parsed components with only
    the query replaced, by the re-encoding of the dict of the base query;
    the keys that [parse_qsl] reads from the new query are exactly the keys
    it reads from the base query; and when the parsed components are those
    of an absolute URL of plain characters, the result parses back into
    them, with the new query. *)
Theorem build_utm_url_no_tracking (base_url : string) (parsed : ParseResult) :
  is_empty base_url = false ->
  urlparse base_url = Ret parsed ->
  let query_params := dict_of_pairs (parse_qsl (query parsed) true) in
  build_utm_url base_url "" "" "" "" =
    Ret (urlunparse (replace_query parsed (urlencode query_params))) /\
  (forall k,
     In k (map fst (parse_qsl (urlencode query_params) true)) <->
     In k (map fst (parse_qsl (query parsed) true))) /\
  (absolute_plain parsed = true ->
   urlparse (urlunparse (replace_query parsed (urlencode query_params))) =
   Ret (replace_query parsed (urlencode query_params))).
Proof.
  intros Hne Hp query_params. split; [ | split ].
  - now rewrite (build_utm_url_parsed base_url "" "" "" "" parsed Hne Hp).
  - intros k. rewrite parse_qsl_urlencode.
    change (map fst query_params) with (keys query_params).
    unfold query_params. rewrite dict_of_pairs_keys.
    apply first_occurrences_In.
  - intros Habs. apply urlparse_written; [ assumption | ].
    apply urlencode_query_chars.
Qed.

Lemma build_utm_url_again (base_url s m c t result : string) :
  build_utm_url base_url s m c t = Ret result ->
  (forall parsed, urlparse base_url = Ret parsed ->
     urlparse result =
     Ret (replace_query parsed (urlencode (merged_params parsed s m c t)))) ->
  build_utm_url result s m c t = Ret result.
Proof.
  intros Hfirst Hback.
  destruct (is_empty result) eqn:Er.
  { destruct result; [ reflexivity | discriminate ]. }
  destruct (is_empty base_url) eqn:Eb.
  { unfold build_utm_url in Hfirst. rewrite Eb in Hfirst.
    injection Hfirst as <-. discriminate. }
  destruct (urlparse base_url) as [parsed | e] eqn:Hp.
  2: { rewrite (build_utm_url_raises _ _ _ _ _ e Eb Hp) in Hfirst. discriminate. }
  rewrite (build_utm_url_parsed _ _ _ _ _ parsed Eb Hp) in Hfirst.
  injection Hfirst as Hres. subst result.
  rewrite (build_utm_url_parsed _ _ _ _ _ _ Er (Hback parsed eq_refl)).
  assert (E : merged_params
                (replace_query parsed (urlencode (merged_params parsed s m c t)))
                s m c t = merged_params parsed s m c t).
  { unfold merged_params at 1. cbn [replace_query query].
    rewrite parse_qsl_urlencode.
    rewrite dict_of_pairs_dict by apply merged_params_nodup.
    apply merged_params_fixed. }
  rewrite E. reflexivity.
Qed.

(** [C7] When the URL the first application returns parses back into the
    components it was assembled from (the scheme, netloc, path, params and
    fragment of the base and the query that was written), the second
    application with the same values returns the identical URL.  It does
    parse back so for every base URL whose parsed components are those of an
    absolute URL of plain characters: a lowercase scheme, a host of ASCII
    characters without brackets, a path that is empty or starts with ["/"]
    and has no [";"], and no params. *)
Theorem build_utm_url_idempotent (base_url s m c t result : string) :
  build_utm_url base_url s m c t = Ret result ->
  ((forall parsed, urlparse base_url = Ret parsed ->
      urlparse result =
      Ret (replace_query parsed (urlencode (merged_params parsed s m c t)))) ->
   build_utm_url result s m c t = Ret result) /\
  (forall parsed, urlparse base_url = Ret parsed ->
     absolute_plain parsed = true ->
     urlparse result =
       Ret (replace_query parsed (urlencode (merged_params parsed s m c t))) /\
     build_utm_url result s m c t = Ret result).
Proof.
  intros Hfirst. split; [ now apply build_utm_url_again | ].
  intros parsed Hp Habs.
  assert (Hback : urlparse result =
            Ret (replace_query parsed (urlencode (merged_params parsed s m c t)))).
  { destruct (is_empty base_url) eqn:Eb.
    - destruct base_url; [ | discriminate ].
      vm_compute in Hp. injection Hp as <-. discriminate.
    - rewrite (build_utm_url_parsed _ _ _ _ _ parsed Eb Hp) in Hfirst.
      injection Hfirst as <-.
      apply urlparse_written; [ assumption | apply urlencode_query_chars ]. }
  split; [ assumption | ].
  apply (build_utm_url_again base_url s m c t result Hfirst).
  intros parsed' Hp'. rewrite Hp in Hp'. injection Hp' as <-. assumption.
Qed.

End Builder.

(** *** Base URLs that [urlsplit] accepts *)

Lemma all_chars_lstrip (p q : ascii -> bool) (s : string) :
  all_chars p s = true -> all_chars p (lstrip q s) = true.
Proof.
  induction s as [ | a s IH]; cbn [all_chars lstrip]; [ reflexivity | ].
  intros H. apply andb_true_iff in H as [Ha Hs].
  destruct (q a); [ now apply IH | ]. cbn [all_chars]. now rewrite Ha, Hs.
Qed.

Lemma all_chars_remove_char (p : ascii -> bool) (c : ascii) (s : string) :
  all_chars p s = true -> all_chars p (remove_char c s) = true.
Proof.
  induction s as [ | a s IH]; cbn [all_chars remove_char]; [ reflexivity | ].
  intros H. apply andb_true_iff in H as [Ha Hs].
  destruct (Ascii.eqb a c); [ now apply IH | ].
  cbn [all_chars]. now rewrite Ha, IH.
Qed.

Lemma all_chars_partition (p : ascii -> bool) (c : ascii) : forall s l r : string,
  partition c s = Some (l, r) -> all_chars p s = true -> all_chars p r = true.
Proof.
  induction s as [ | a s IH]; intros l r; cbn [partition all_chars];
    [ discriminate | ].
  intros E H. apply andb_true_iff in H as [Ha Hs].
  destruct (Ascii.eqb a c); [ now injection E as <- <- | ].
  destruct (partition c s) as [[l' r'] | ]; [ | discriminate ].
  injection E as <- <-. now apply (IH l' r').
Qed.

Lemma all_chars_split_scheme (p : ascii -> bool) (url : string) :
  all_chars p url = true -> all_chars p (snd (split_scheme url)) = true.
Proof.
  intros H. unfold split_scheme.
  destruct (partition ":" url) as [[[ | a pre] rest] | ] eqn:E;
    try assumption.
  destruct (is_ascii_alpha a && all_chars scheme_char (String a pre));
    [ | assumption ].
  exact (all_chars_partition p ":" url _ rest E H).
Qed.

Lemma all_chars_splitnetloc (p : ascii -> bool) (s : string) :
  all_chars p s = true -> all_chars p (fst (_splitnetloc s)) = true.
Proof.
  induction s as [ | a s IH]; cbn [_splitnetloc all_chars]; [ reflexivity | ].
  intros H. apply andb_true_iff in H as [Ha Hs].
  destruct (netloc_delim a); [ reflexivity | ].
  destruct (_splitnetloc s) as [n r]. cbn [fst all_chars] in *.
  now rewrite Ha, IH.
Qed.

Section Accepted.
Context {P : Platform}.

(** A URL of ASCII characters without square brackets is parsed. *)
Lemma urlparse_plain (url : string) :
  all_chars plain url = true -> returns (urlparse url) = true.
Proof.
  intros H. unfold urlparse, urlsplit.
  assert (H1 : all_chars plain
                 (snd (split_scheme
                         (remove_unsafe (lstrip c0_control_or_space url)))) = true).
  { apply all_chars_split_scheme. unfold remove_unsafe.
    now repeat apply all_chars_remove_char; apply all_chars_lstrip. }
  destruct (split_scheme (remove_unsafe (lstrip c0_control_or_space url)))
    as [sch rest]. cbn [snd] in H1.
  assert (G : forall netloc u,
            all_chars plain netloc = true ->
            returns
              (bind
                 (bind (Ret (netloc, u))
                    (fun '(netloc, url) =>
                       let (url, fragment) :=
                         match partition "#" url with
                         | Some (u, f) => (u, f)
                         | None => (url, EmptyString)
                         end in
                       let (url, query) :=
                         match partition "?" url with
                         | Some (u, q) => (u, q)
                         | None => (url, EmptyString)
                         end in
                       bind (_checknetloc netloc) (fun _ =>
                         Ret (mkSplitResult sch netloc url query fragment))))
                 (fun r =>
                    let (url, params) :=
                      if str_mem (s_scheme r) uses_params && char_in ";" (s_path r)
                      then _splitparams (s_path r)
                      else (s_path r, EmptyString) in
                    Ret (mkParseResult (s_scheme r) (s_netloc r) url params
                           (s_query r) (s_fragment r)))) = true).
  { intros netloc u Hn. cbn [bind].
    destruct (match partition "#" u with
              | Some (u0, f) => (u0, f) | None => (u, EmptyString) end)
      as [u1 frag].
    destruct (match partition "?" u1 with
              | Some (u0, q) => (u0, q) | None => (u1, EmptyString) end)
      as [u2 q].
    destruct (plain_netloc netloc Hn) as (_ & ->). cbn [bind].
    cbn [s_scheme s_path s_netloc s_query s_fragment].
    destruct (str_mem sch uses_params && char_in ";" u2);
      [ destruct (_splitparams u2) | ]; reflexivity. }
  destruct (after_slashes rest) as [rest' | ] eqn:E;
    [ | apply G; reflexivity ].
  assert (H2 : all_chars plain rest' = true).
  { destruct rest as [ | a [ | b r]]; try discriminate. cbn in E.
    destruct (Ascii.eqb a "/" && Ascii.eqb b "/"); [ | discriminate ].
    injection E as <-. cbn [all_chars] in H1.
    apply andb_true_iff in H1 as [_ H1]. now apply andb_true_iff in H1 as [_ H1]. }
  pose proof (all_chars_splitnetloc plain rest' H2) as Hn.
  destruct (_splitnetloc rest') as [netloc u]. cbn [fst] in Hn.
  destruct (plain_netloc netloc Hn) as (-> & _).
  cbn [bind]. now apply G.
Qed.

Lemma build_utm_url_returns (base_url s m c t : string) :
  returns (urlparse base_url) = true ->
  returns (build_utm_url base_url s m c t) = true.
Proof.
  intros H. unfold build_utm_url.
  destruct (is_empty base_url); [ reflexivity | ].
  now destruct (urlparse base_url).
Qed.

End Accepted.

(** *** The properties as the specification words them, where they fail *)


(** [C6] On no platform does [HTTP://site.com/page?a=1] come back equal
    outside its query: the result is [http://site.com/page?a=1]. *)
Lemma build_utm_url_no_tracking_counterexample :
  ~ exists P : Platform,
      forall r,
        @build_utm_url P "HTTP://site.com/page?a=1" "" "" "" "" = Ret r ->
        outside_query r = outside_query "HTTP://site.com/page?a=1".
Proof.
  intros (P & H).
  assert (E : @build_utm_url P "HTTP://site.com/page?a=1" "" "" "" ""
              = Ret "http://site.com/page?a=1")
    by (vm_compute; reflexivity).
  specialize (H _ E). vm_compute in H. discriminate.
Qed.

(** [C7] On no platform is the annotation of [/////x] with [utm_source=a]
    idempotent: the first application returns [///x?utm_source=a], the
    second [/x?utm_source=a]. *)
Lemma build_utm_url_idempotent_counterexample :
  ~ exists P : Platform,
      forall r,
        @build_utm_url P "/////x" "a" "" "" "" = Ret r ->
        @build_utm_url P r "a" "" "" "" = Ret r.
Proof.
  intros (P & H).
  assert (E1 : @build_utm_url P "/////x" "a" "" "" "" = Ret "///x?utm_source=a")
    by (vm_compute; reflexivity).
  assert (E2 : @build_utm_url P "///x?utm_source=a" "a" "" "" ""
               = Ret "/x?utm_source=a")
    by (vm_compute; reflexivity).
  specialize (H _ E1). rewrite E2 in H. discriminate.
Qed.

(** *** The results at work *)


Lemma build_utm_url_no_tracking_witness :
  @build_utm_url Scenario.reference_platform
    "https://site.com/page?b=2&a=1&b=3" "" "" "" "" =
  Ret "https://site.com/page?b=3&a=1".
Proof.
  exact (proj1 (@build_utm_url_no_tracking Scenario.reference_platform
                  "https://site.com/page?b=2&a=1&b=3"
                  (mkParseResult "https" "site.com" "/page" "" "b=2&a=1&b=3" "")
                  eq_refl eq_refl)).
Defined.

Lemma build_utm_url_idempotent_witness :
  @build_utm_url Scenario.reference_platform
    "https://site.com/page?x=1&utm_source=a" "a" "" "" "" =
  Ret "https://site.com/page?x=1&utm_source=a".
Proof.
  apply (proj2 (@build_utm_url_idempotent Scenario.reference_platform
                  "https://site.com/page?x=1" "a" "" "" ""
                  "https://site.com/page?x=1&utm_source=a" eq_refl)
           (mkParseResult "https" "site.com" "/page" "" "x=1" ""));
    reflexivity.
Defined.

End BuilderFacts.

(** ** The remote calls *)

Module RemoteFacts.
Import Py urllib requests.

Section Calls.
Context {P : Platform} {W : Type} (send : request -> W -> reply * W).

(** *** Status and transport failures, call by call *)

Lemma shorten_with_bitly_returns (long_url : string) (domain : option string) (w : W) :
  exists v w', utm_bitly.shorten_with_bitly send long_url domain w = (Ret v, w').
Proof.
  unfold utm_bitly.shorten_with_bitly, try_except, mbind, call, ret, lift.
  destruct (send _ w) as [[r | e] w']; [ | eauto ].
  destruct (negb (utm_bitly.status_created r)); [ eauto | ].
  destruct (json r); eauto.
Qed.

Lemma update_bitly_title_returns (bitlink title : string) (w : W) :
  exists v w', utm_bitly.update_bitly_title send bitlink title w = (Ret v, w').
Proof.
  unfold utm_bitly.update_bitly_title, try_except, mbind, call, ret.
  destruct (send _ w) as [[r | e] w']; [ | eauto ].
  destruct (negb (utm_bitly.status_created r)); eauto.
Qed.

Lemma shorten_with_bitly_status (long_url : string) (domain : option string)
  (w w' : W) (r : response) :
  send (PostShorten long_url (if utm_bitly.truthy domain then domain else None)) w
    = (Response r, w') ->
  utm_bitly.status_created r = false ->
  utm_bitly.shorten_with_bitly send long_url domain w =
  (Ret (None, Some ("Bitly error " ++ str_of_Z (status_code r) ++ ": " ++ text r)),
   w').
Proof.
  intros E S.
  unfold utm_bitly.shorten_with_bitly, try_except, mbind, call, ret.
  now rewrite E, S.
Qed.

Lemma shorten_with_bitly_failure (long_url : string) (domain : option string)
  (w w' : W) (e : exn) :
  send (PostShorten long_url (if utm_bitly.truthy domain then domain else None)) w
    = (Failure e, w') ->
  utm_bitly.shorten_with_bitly send long_url domain w =
  (Ret (None, Some (str_of_exn e)), w').
Proof.
  intros E.
  unfold utm_bitly.shorten_with_bitly, try_except, mbind, call, ret.
  now rewrite E.
Qed.

Lemma shorten_with_bitly_created (long_url : string) (domain : option string)
  (w w' : W) (r : response) (data : json_object) :
  send (PostShorten long_url (if utm_bitly.truthy domain then domain else None)) w
    = (Response r, w') ->
  utm_bitly.status_created r = true ->
  json r = Ret data ->
  utm_bitly.shorten_with_bitly send long_url domain w = (Ret (j_link data, None), w').
Proof.
  intros E S J.
  unfold utm_bitly.shorten_with_bitly, try_except, mbind, call, ret, lift.
  now rewrite E, S, J.
Qed.

Lemma update_bitly_title_status (bitlink title : string) (w w' : W) (r : response) :
  send (PatchBitlink (remove_sub "https://" bitlink) title) w = (Response r, w') ->
  utm_bitly.status_created r = false ->
  utm_bitly.update_bitly_title send bitlink title w =
  (Ret (Some ("Title update error " ++ str_of_Z (status_code r) ++ ": " ++ text r)),
   w').
Proof.
  intros E S.
  unfold utm_bitly.update_bitly_title, try_except, mbind, call, ret.
  now rewrite E, S.
Qed.

Lemma update_bitly_title_failure (bitlink title : string) (w w' : W) (e : exn) :
  send (PatchBitlink (remove_sub "https://" bitlink) title) w = (Failure e, w') ->
  utm_bitly.update_bitly_title send bitlink title w =
  (Ret (Some ("Exception while setting title: " ++ str_of_exn e)), w').
Proof.
  intros E.
  unfold utm_bitly.update_bitly_title, try_except, mbind, call, ret.
  now rewrite E.
Qed.

Lemma get_group_guid_status (w w' : W) (r : response) :
  send GetGroups w = (Response r, w') ->
  status_code r <> 200%Z ->
  bitly_stats.get_group_guid send w = (Ret None, w').
Proof.
  intros E S. apply Z.eqb_neq in S.
  unfold bitly_stats.get_group_guid, mbind, call, ret.
  now rewrite E, S.
Qed.

Lemma get_clicks_status (bitlink_id : string) (w w' : W) (r : response) :
  send (GetClicksSummary bitlink_id) w = (Response r, w') ->
  status_code r <> 200%Z ->
  bitly_stats.get_clicks send bitlink_id w = (Ret 0%Z, w').
Proof.
  intros E S. apply Z.eqb_neq in S.
  unfold bitly_stats.get_clicks, mbind, call, ret.
  now rewrite E, S.
Qed.

Lemma get_clicks_failure (bitlink_id : string) (w w' : W) (e : exn) :
  send (GetClicksSummary bitlink_id) w = (Failure e, w') ->
  bitly_stats.get_clicks send bitlink_id w = (Raise e, w').
Proof.
  intros E. unfold bitly_stats.get_clicks, mbind, call. now rewrite E.
Qed.

End Calls.

End RemoteFacts.

(** ** The two pipelines *)

Module PipelineFacts.
Import Py urllib requests Pagination Notions Scenario PaginationFacts BuilderFacts
  RemoteFacts.

(** *** Pre-enrichment filters *)

Lemma startswith_app (a b s : string) :
  startswith (a ++ b) s = true -> startswith a s = true.
Proof.
  revert s. induction a as [ | x a IH]; intros s; [ reflexivity | ].
  destruct s as [ | y s]; cbn [append startswith]; [ discriminate | ].
  intros H. apply andb_true_iff in H as [Hx Ha].
  now rewrite Hx, (IH s Ha).
Qed.

Lemma contains_app (a b s : string) :
  contains (a ++ b) s = true -> contains a s = true.
Proof.
  induction s as [ | y s IH]; cbn [contains].
  - rewrite !orb_false_r. apply startswith_app.
  - intros H. apply orb_true_iff in H as [H | H].
    + now rewrite (startswith_app a b _ H).
    + rewrite (IH H). apply orb_true_r.
Qed.

Lemma skipped_by_spec (param prefilter long_url : string) :
  bitly_stats.skipped_by param prefilter long_url = false <->
  prefilter = EmptyString \/ contains (param ++ "=" ++ prefilter) long_url = true.
Proof.
  unfold bitly_stats.skipped_by.
  destruct prefilter as [ | c p]; cbn [is_empty negb andb].
  - split; [ now left | reflexivity ].
  - rewrite negb_false_iff. split; [ now right | ].
    intros [H | H]; [ discriminate | assumption ].
Qed.

Section Stats.
Context {P : Platform} {W : Type} (send : request -> W -> reply * W).
Variables prefilter_source prefilter_medium prefilter_campaign : string.

Local Abbreviation passes :=
  (bitly_stats.passes_prefilters prefilter_source prefilter_medium
     prefilter_campaign).
Local Abbreviation process_item :=
  (bitly_stats.process_item send prefilter_source prefilter_medium
     prefilter_campaign).

(** A record that fails a filter is dropped before any request is made. *)
Lemma process_item_skipped (it : item) (w : W) :
  passes (long_url_of it) = false -> process_item it w = (Ret None, w).
Proof.
  unfold bitly_stats.passes_prefilters, bitly_stats.process_item, long_url_of.
  destruct (bitly_stats.skipped_by "utm_source" _ _); [ reflexivity | ].
  destruct (bitly_stats.skipped_by "utm_medium" _ _); [ reflexivity | ].
  destruct (bitly_stats.skipped_by "utm_campaign" _ _); [ reflexivity | ].
  discriminate.
Qed.

(** A record that passes the filters is not dropped: it gives a row or the
    run raises. *)
Lemma process_item_kept (it : item) (w : W) :
  passes (long_url_of it) = true ->
  forall w', process_item it w <> (Ret None, w').
Proof.
  unfold bitly_stats.passes_prefilters, bitly_stats.process_item, long_url_of.
  destruct (bitly_stats.skipped_by "utm_source" _ _); [ discriminate | ].
  destruct (bitly_stats.skipped_by "utm_medium" _ _); [ discriminate | ].
  destruct (bitly_stats.skipped_by "utm_campaign" _ _); [ discriminate | ].
  intros _ w'. unfold mbind, lift, raise, ret.
  destruct (bitly_stats.parse_utm_params _); [ | discriminate ].
  destruct (link it); [ | discriminate ].
  destruct (bitly_stats.get_clicks send _ w) as [[clicks | e] w1]; discriminate.
Qed.

(** The count of a record that passed the filters cannot be fetched: the
    exception of the request leaves the loop. *)
Lemma process_item_clicks_failure (it : item) (bitlink : string)
  (utm : bitly_stats.utm_params) (e : exn) (w w' : W) :
  passes (long_url_of it) = true ->
  bitly_stats.parse_utm_params (long_url_of it) = Ret utm ->
  link it = Some bitlink ->
  send (GetClicksSummary (remove_sub "https://" bitlink)) w = (Failure e, w') ->
  process_item it w = (Raise e, w').
Proof.
  unfold bitly_stats.passes_prefilters, bitly_stats.process_item, long_url_of.
  destruct (bitly_stats.skipped_by "utm_source" _ _); [ discriminate | ].
  destruct (bitly_stats.skipped_by "utm_medium" _ _); [ discriminate | ].
  destruct (bitly_stats.skipped_by "utm_campaign" _ _); [ discriminate | ].
  intros _ Hu Hl Hs. unfold mbind at 1. unfold lift. rewrite Hu, Hl.
  unfold mbind. now rewrite (get_clicks_failure send _ w w' e Hs).
Qed.

(** The count of a record that passed the filters is refused: the record is
    in the report with 0 clicks. *)
Lemma process_item_clicks_status (it : item) (bitlink : string)
  (utm : bitly_stats.utm_params) (r : response) (w w' : W) :
  passes (long_url_of it) = true ->
  bitly_stats.parse_utm_params (long_url_of it) = Ret utm ->
  link it = Some bitlink ->
  send (GetClicksSummary (remove_sub "https://" bitlink)) w = (Response r, w') ->
  status_code r <> 200%Z ->
  process_item it w =
  (Ret (Some (bitly_stats.mkRow (title_of it) bitlink (long_url_of it)
                (bitly_stats.p_utm_source utm) (bitly_stats.p_utm_medium utm)
                (bitly_stats.p_utm_campaign utm) 0)), w').
Proof.
  unfold bitly_stats.passes_prefilters, bitly_stats.process_item, long_url_of,
    title_of.
  destruct (bitly_stats.skipped_by "utm_source" _ _); [ discriminate | ].
  destruct (bitly_stats.skipped_by "utm_medium" _ _); [ discriminate | ].
  destruct (bitly_stats.skipped_by "utm_campaign" _ _); [ discriminate | ].
  intros _ Hu Hl Hs Hn. unfold mbind at 1. unfold lift. rewrite Hu, Hl.
  unfold mbind. rewrite (get_clicks_status send _ w w' r Hs Hn). reflexivity.
Qed.

Lemma process_items_step (it : item) (rest : list item)
  (rows : list bitly_stats.row) (w : W) :
  bitly_stats.process_items send prefilter_source prefilter_medium
    prefilter_campaign (it :: rest) rows w =
  match process_item it w with
  | (Ret r, w') =>
      bitly_stats.process_items send prefilter_source prefilter_medium
        prefilter_campaign rest
        (match r with Some x => (rows ++ [x])%list | None => rows end) w'
  | (Raise e, w') => (Raise e, w')
  end.
Proof. reflexivity. Qed.

End Stats.

(** [C8] A record passes the three filters exactly when, for each filter
    with a text, its target URL contains the literal ["<param>=<text>"]; a
    record that fails is dropped before any request and one that passes is
    not dropped.  A target URL with [utm_source=foo] passes the source
    filter [foo] and fails the source filters [bar] and [Foo]; a URL that
    passes only once decoded ([utm_source=a%20b] for the text [a b]) fails;
    and a URL without the text [utm_source=] fails every source filter with
    a text. *)
Theorem prefilter_literal_substring :
  (forall (src med camp long_url : string),
     bitly_stats.passes_prefilters src med camp long_url = true <->
     (src = EmptyString \/ contains ("utm_source=" ++ src) long_url = true) /\
     (med = EmptyString \/ contains ("utm_medium=" ++ med) long_url = true) /\
     (camp = EmptyString \/ contains ("utm_campaign=" ++ camp) long_url = true)) /\
  (forall (P : Platform) (W : Type) (send : request -> W -> reply * W)
          (src med camp : string) (it : item) (w : W),
     (bitly_stats.passes_prefilters src med camp (long_url_of it) = false ->
      bitly_stats.process_item send src med camp it w = (Ret None, w)) /\
     (bitly_stats.passes_prefilters src med camp (long_url_of it) = true ->
      forall w', bitly_stats.process_item send src med camp it w <> (Ret None, w'))) /\
  bitly_stats.passes_prefilters "foo" "" ""
    "https://site.com/?utm_source=foo&utm_medium=email" = true /\
  bitly_stats.passes_prefilters "bar" "" ""
    "https://site.com/?utm_source=foo&utm_medium=email" = false /\
  bitly_stats.passes_prefilters "Foo" "" ""
    "https://site.com/?utm_source=foo&utm_medium=email" = false /\
  bitly_stats.passes_prefilters "a b" "" ""
    "https://site.com/?utm_source=a%20b" = false /\
  (forall (src med camp long_url : string),
     contains "utm_source=" long_url = false ->
     src <> EmptyString ->
     bitly_stats.passes_prefilters src med camp long_url = false).
Proof.
  split.
  { intros src med camp u. unfold bitly_stats.passes_prefilters.
    rewrite !andb_true_iff, !negb_true_iff, !skipped_by_spec. tauto. }
  split.
  { intros P W send src med camp it w. split.
    - apply process_item_skipped.
    - apply process_item_kept. }
  repeat (split; [ reflexivity | ]).
  intros src med camp u Hno Hsrc.
  unfold bitly_stats.passes_prefilters.
  destruct (bitly_stats.skipped_by "utm_source" src u) eqn:E; [ reflexivity | ].
  apply skipped_by_spec in E as [E | E]; [ contradiction | ].
  change ("utm_source" ++ "=" ++ src) with ("utm_source=" ++ src) in E.
  apply contains_app in E. congruence.
Qed.

(** The filters at work on a record without the parameter. *)
Lemma prefilter_literal_substring_witness :
  bitly_stats.passes_prefilters "foo" "" "" "https://site.com/?utm_medium=email"
  = false.
Proof.
  apply (proj2 (proj2 (proj2 (proj2 (proj2 (proj2
           prefilter_literal_substring)))))).
  - reflexivity.
  - discriminate.
Defined.

(** *** The batch of the shortener *)

Section Batch.
Context {P : Platform} {W : Type} (send : request -> W -> reply * W).
Variables utm_source utm_medium utm_campaign utm_term bitly_domain : string.

Local Abbreviation process_url :=
  (utm_bitly.process_url send utm_source utm_medium utm_campaign utm_term
     bitly_domain).
Local Abbreviation process_urls :=
  (utm_bitly.process_urls send utm_source utm_medium utm_campaign utm_term
     bitly_domain).

(** An input that parses gives an entry, whatever the service does. *)
Lemma process_url_returns (i : nat) (url : string) (w : W) :
  returns (urlparse url) = true ->
  exists row w',
    process_url i url w = (Ret row, w') /\ utm_bitly.Original_URL row = url.
Proof.
  intros Hp.
  pose proof (build_utm_url_returns url utm_source utm_medium utm_campaign
                utm_term Hp) as Hb.
  unfold utm_bitly.process_url, mbind, lift, ret.
  destruct (urlparse url) as [parsed | ]; [ | discriminate ].
  destruct (utm_bitly.build_utm_url url _ _ _ _) as [utm_url | ];
    [ | discriminate ].
  destruct (shorten_with_bitly_returns send utm_url (or_none bitly_domain) w)
    as ([short_url err] & w1 & ->).
  destruct (utm_bitly.truthy short_url).
  - destruct (update_bitly_title_returns send (utm_bitly.or_empty short_url)
                (utm_bitly.readable_name i parsed ++ " — " ++ utm_campaign) w1)
      as (e & w2 & ->).
    eauto.
  - eauto.
Qed.

Lemma process_urls_all (urls : list string) :
  Forall (fun u => returns (urlparse u) = true) urls ->
  forall (i : nat) (results : list utm_bitly.result_row) (w : W),
  exists rows w',
    process_urls i urls results w = (Ret (results ++ rows)%list, w') /\
    map utm_bitly.Original_URL rows = urls.
Proof.
  induction 1 as [ | url urls Hu Hrest IH]; intros i results w;
    cbn [utm_bitly.process_urls].
  - exists [], w. rewrite app_nil_r. split; reflexivity.
  - destruct (process_url_returns i url w Hu) as (row & w1 & E & Ho).
    unfold mbind. rewrite E.
    destruct (IH (S i) (results ++ [row])%list w1) as (rows & w2 & E2 & Hm).
    exists (row :: rows), w2. rewrite E2, <- app_assoc. cbn [app map].
    now rewrite Ho, Hm.
Qed.


End Batch.



(** *** The report and the usage counts *)

(** [C5] When the request for the usage count of a record that passed the
    filters raises, the loop over the records raises the same exception:
    the rows gathered so far are lost and no later record is processed.
    When the request is answered with a status other than 200, the record
    is appended with 0 clicks and the loop goes on with the next record.
    On a listing of two records: a timeout of the first count ends the run
    with the exception, and the count of the second record is never asked
    for; a status 503 instead gives the report of both records, the first
    with 0 clicks. *)
Theorem usage_count_failure :
  (forall (P : Platform) (W : Type) (send : request -> W -> reply * W)
          (src med camp : string) (it : item) (rest : list item)
          (rows : list bitly_stats.row) (bitlink : string)
          (utm : bitly_stats.utm_params) (w w' : W),
     bitly_stats.passes_prefilters src med camp (long_url_of it) = true ->
     bitly_stats.parse_utm_params (long_url_of it) = Ret utm ->
     link it = Some bitlink ->
     (forall e,
        send (GetClicksSummary (remove_sub "https://" bitlink)) w = (Failure e, w') ->
        bitly_stats.process_items send src med camp (it :: rest) rows w =
        (Raise e, w')) /\
     (forall r,
        send (GetClicksSummary (remove_sub "https://" bitlink)) w = (Response r, w') ->
        status_code r <> 200%Z ->
        bitly_stats.process_items send src med camp (it :: rest) rows w =
        bitly_stats.process_items send src med camp rest
          (rows ++ [bitly_stats.mkRow (title_of it) bitlink (long_url_of it)
                      (bitly_stats.p_utm_source utm)
                      (bitly_stats.p_utm_medium utm)
                      (bitly_stats.p_utm_campaign utm) 0])%list w')) /\
  @bitly_stats.render Scenario.reference_platform _ Scenario.play "" "" "" 5 None
    first_count_times_out =
  Some (Raise (RequestException "Read timed out."),
        [Scenario.ok (mkJson None None (Some 7%Z) None)]) /\
  @bitly_stats.render Scenario.reference_platform _ Scenario.play "" "" "" 5 None
    first_count_refused =
  Some (Ret (Some
          [bitly_stats.mkRow "Untitled" "https://bit.ly/b"
             "https://site.com/?utm_source=mail" "mail" "" "" 7;
           bitly_stats.mkRow "Spring" "https://bit.ly/a"
             "https://site.com/?utm_source=news" "news" "" "" 0]),
        []).
Proof.
  split; [ | split; vm_compute; reflexivity ].
  intros P W send src med camp it rest rows bitlink utm w w' Hp Hu Hl.
  split.
  - intros e Hs. rewrite process_items_step.
    now rewrite (process_item_clicks_failure send src med camp it bitlink utm e
                   w w' Hp Hu Hl Hs).
  - intros r Hs Hn. rewrite process_items_step.
    now rewrite (process_item_clicks_status send src med camp it bitlink utm r
                   w w' Hp Hu Hl Hs Hn).
Qed.

(** *** Failures as values *)

(** [C3] [build_utm_url] returns the empty string for an empty base URL,
    returns for every base URL that [urlparse] accepts, which every URL of
    ASCII characters without square brackets is, and raises what [urlparse]
    raises on the others.  A status that is not a success is returned as a
    value by the five remote operations: no group, no links, 0 clicks, and a
    message for the creation and for the titling.  The creation and the
    titling return a value whatever the service does, a transport failure
    as its message. *)
Theorem failures_as_values
  (P : Platform) (W : Type) (send : request -> W -> reply * W) :
  (forall s m c t,
     utm_bitly.build_utm_url EmptyString s m c t = Ret EmptyString) /\
  (forall url s m c t,
     returns (urlparse url) = true ->
     returns (utm_bitly.build_utm_url url s m c t) = true) /\
  (forall url s m c t,
     all_chars plain url = true ->
     returns (utm_bitly.build_utm_url url s m c t) = true) /\
  (forall url s m c t e,
     is_empty url = false -> urlparse url = Raise e ->
     utm_bitly.build_utm_url url s m c t = Raise e) /\
  (forall w w' r,
     send GetGroups w = (Response r, w') -> status_code r <> 200%Z ->
     bitly_stats.get_group_guid send w = (Ret None, w')) /\
  (forall group_guid created_after w n fuel,
     (forall k, k < n ->
        full_page (reply_at send group_guid created_after k w) = true) ->
     non_success (reply_at send group_guid created_after n w) = true ->
     n < fuel ->
     bitly_stats.get_all_bitlinks send fuel group_guid created_after w =
     Some (Ret [], world_before send group_guid created_after (S n) w)) /\
  (forall bitlink_id w w' r,
     send (GetClicksSummary bitlink_id) w = (Response r, w') ->
     status_code r <> 200%Z ->
     bitly_stats.get_clicks send bitlink_id w = (Ret 0%Z, w')) /\
  (forall long_url domain w w' r,
     send (PostShorten long_url
             (if utm_bitly.truthy domain then domain else None)) w
       = (Response r, w') ->
     utm_bitly.status_created r = false ->
     utm_bitly.shorten_with_bitly send long_url domain w =
     (Ret (None, Some ("Bitly error " ++ str_of_Z (status_code r)
                         ++ ": " ++ text r)), w')) /\
  (forall bitlink title w w' r,
     send (PatchBitlink (remove_sub "https://" bitlink) title) w
       = (Response r, w') ->
     utm_bitly.status_created r = false ->
     utm_bitly.update_bitly_title send bitlink title w =
     (Ret (Some ("Title update error " ++ str_of_Z (status_code r)
                   ++ ": " ++ text r)), w')) /\
  (forall long_url domain w w' e,
     send (PostShorten long_url
             (if utm_bitly.truthy domain then domain else None)) w
       = (Failure e, w') ->
     utm_bitly.shorten_with_bitly send long_url domain w =
     (Ret (None, Some (str_of_exn e)), w')) /\
  (forall bitlink title w w' e,
     send (PatchBitlink (remove_sub "https://" bitlink) title) w
       = (Failure e, w') ->
     utm_bitly.update_bitly_title send bitlink title w =
     (Ret (Some ("Exception while setting title: " ++ str_of_exn e)), w')) /\
  (forall long_url domain w,
     exists v w', utm_bitly.shorten_with_bitly send long_url domain w = (Ret v, w')) /\
  (forall bitlink title w,
     exists v w', utm_bitly.update_bitly_title send bitlink title w = (Ret v, w')).
Proof.
  split; [ intros; reflexivity | ].
  split; [ intros url s m c t; apply build_utm_url_returns | ].
  split; [ intros url s m c t H;
           apply build_utm_url_returns, urlparse_plain, H | ].
  split; [ intros url s m c t e; apply build_utm_url_raises | ].
  split; [ intros w w' r; apply get_group_guid_status | ].
  split.
  { intros g ca w n fuel Hfull Hns Hfuel.
    rewrite (get_all_bitlinks_stops_at send g ca n fuel w Hfull);
      [ | apply not_full_page; now left | assumption ].
    now rewrite stop_outcome_non_success. }
  split; [ intros b w w' r; apply get_clicks_status | ].
  split; [ intros u d w w' r; apply shorten_with_bitly_status | ].
  split; [ intros b t w w' r; apply update_bitly_title_status | ].
  split; [ intros u d w w' e; apply shorten_with_bitly_failure | ].
  split; [ intros b t w w' e; apply update_bitly_title_failure | ].
  split; [ apply shorten_with_bitly_returns | apply update_bitly_title_returns ].
Qed.

(** [C3] On no platform does [build_utm_url] return for the base URL
    [http://[]: [urlsplit] raises [ValueError("Invalid IPv6 URL")]. *)
Lemma failures_as_values_counterexample :
  ~ exists (P : Platform) (r : string),
      @utm_bitly.build_utm_url P "http://[" "" "" "" "" = Ret r.
Proof.
  intros (P & r & H).
  assert (E : @utm_bitly.build_utm_url P "http://[" "" "" "" ""
              = Raise (ValueError "Invalid IPv6 URL"))
    by (vm_compute; reflexivity).
  rewrite E in H. discriminate.
Qed.

(** The values at work: a refused creation, a titling that cannot reach the
    service, a base URL of plain characters. *)
Lemma failures_as_values_witness :
  @utm_bitly.shorten_with_bitly _ Scenario.play
    "https://site.com/?utm_source=a" (Some "bit.ly")
    [Scenario.status 403 "FORBIDDEN"] =
  (Ret (None, Some "Bitly error 403: FORBIDDEN"), []) /\
  @utm_bitly.update_bitly_title _ Scenario.play "https://bit.ly/a" "Spring" [] =
  (Ret (Some "Exception while setting title: connection refused"), []) /\
  returns (@utm_bitly.build_utm_url Scenario.reference_platform
             "site.com/a b?q" "a" "" "" "") = true.
Proof.
  pose proof (failures_as_values Scenario.reference_platform _ Scenario.play)
    as (_ & _ & Hplain & _ & _ & _ & _ & Hs & _ & _ & Ht & _).
  split; [ | split ].
  - apply (Hs "https://site.com/?utm_source=a" (Some "bit.ly")
              [Scenario.status 403 "FORBIDDEN"] []
              (mkResponse 403 "FORBIDDEN" (Ret empty_object)));
      reflexivity.
  - apply (Ht "https://bit.ly/a" "Spring" [] []
              (RequestException "connection refused")).
    reflexivity.
  - apply Hplain. reflexivity.
Defined.

End PipelineFacts.

(** ** The written query, read again *)

Module QueryFacts.
Import Py urllib utm_bitly Notions Observed EncodingFacts DictFacts ReparseFacts
  BuilderFacts.

Lemma quote_empty (b : bool) (s : string) : is_empty (quote b s) = is_empty s.
Proof.
  destruct s as [ | c t]; [ reflexivity | ].
  cbn [quote is_empty]. rewrite is_empty_app, quoter_not_empty. reflexivity.
Qed.

Lemma replace_char_empty (a d : ascii) (s : string) :
  is_empty (replace_char a d s) = is_empty s.
Proof. now destruct s. Qed.

Lemma quote_plus_empty (s : string) : is_empty (quote_plus s) = is_empty s.
Proof.
  unfold quote_plus. destruct (char_in " " s);
    now rewrite ?replace_char_empty, quote_empty.
Qed.

Lemma parse_field_blank (kv : string * string) :
  parse_field false (encode_pair kv) = if not_blank kv then Some kv else None.
Proof.
  unfold parse_field, encode_pair, not_blank. cbn [append].
  rewrite is_empty_app. cbn [is_empty]. rewrite andb_false_r.
  destruct (quote_plus_reserved (fst kv)) as (_ & H).
  rewrite partition_app by assumption.
  rewrite orb_false_r, quote_plus_empty, !unquote_plus_quote_plus.
  now destruct kv.
Qed.

Lemma parse_fields_blank (d : dict) :
  parse_fields false (map encode_pair d) = filter not_blank d.
Proof.
  induction d as [ | kv d IH]; cbn [map parse_fields filter]; [ reflexivity | ].
  rewrite parse_field_blank, IH. now destruct (not_blank kv).
Qed.

(** Without [keep_blank_values], the query [urlencode] writes for [d] is
    read back as the pairs of [d] that have a value. *)
Lemma parse_qsl_blank_urlencode (d : dict) :
  parse_qsl (urlencode d) false = filter not_blank d.
Proof.
  unfold parse_qsl. rewrite urlencode_join.
  destruct d as [ | kv d]; [ reflexivity | ].
  cbn [map]. rewrite join_not_empty.
  - rewrite split_join.
    + exact (parse_fields_blank (kv :: d)).
    + change (Forall (fun f => char_in "&" f = false) (map encode_pair (kv :: d))).
      apply Forall_forall. intros f Hf. apply in_map_iff in Hf as (x & <- & _).
      apply encode_pair_no_amp.
  - unfold encode_pair. cbn [append]. rewrite is_empty_app. cbn [is_empty].
    apply andb_false_r.
Qed.

(** *** [parse_qs] and the first value of a name *)

Lemma add_value_has_name (k name value : string) (r : list (string * list string)) :
  has_name k (bitly_stats.add_value name value r) =
  has_name k r || String.eqb name k.
Proof.
  unfold has_name.
  induction r as [ | [n vs] r IH]; cbn [bitly_stats.add_value existsb fst].
  - now rewrite orb_false_r.
  - destruct (String.eqb n name) eqn:E; cbn [existsb fst].
    + apply String.eqb_eq in E. subst n.
      destruct (String.eqb name k); cbn [orb];
        [ reflexivity | now rewrite orb_false_r ].
    + rewrite IH. now rewrite orb_assoc.
Qed.

Lemma add_value_not_empty (name value : string) (r : list (string * list string)) :
  lists_not_empty r -> lists_not_empty (bitly_stats.add_value name value r).
Proof.
  unfold lists_not_empty.
  induction r as [ | [n vs] r IH]; cbn [bitly_stats.add_value]; intros H nv Hin.
  - destruct Hin as [<- | []]. discriminate.
  - destruct (String.eqb n name).
    + destruct Hin as [<- | Hin]; [ | apply H; now right ].
      cbn [snd]. intros E. now apply app_eq_nil in E as [_ E].
    + destruct Hin as [<- | Hin]; [ apply (H (n, vs)); now left | ].
      apply IH; [ | assumption ]. intros x Hx. apply H. now right.
Qed.

Lemma get_first_absent (k : string) (r : list (string * list string)) :
  has_name k r = false -> bitly_stats.get_first k r = EmptyString.
Proof.
  unfold has_name.
  induction r as [ | [n vs] r IH]; [ reflexivity | ].
  cbn [existsb fst]. intros E. apply orb_false_iff in E as [E1 E2].
  cbn [bitly_stats.get_first]. rewrite E1. now apply IH.
Qed.

Lemma add_value_get_first (k name value : string) (r : list (string * list string)) :
  lists_not_empty r ->
  bitly_stats.get_first k (bitly_stats.add_value name value r) =
  if has_name k r then bitly_stats.get_first k r
  else if String.eqb name k then value else EmptyString.
Proof.
  unfold has_name.
  induction r as [ | [n vs] r IH]; intros H;
    cbn [bitly_stats.add_value bitly_stats.get_first existsb fst].
  - now destruct (String.eqb name k).
  - destruct (String.eqb n name) eqn:E; cbn [bitly_stats.get_first].
    + destruct (String.eqb n k) eqn:Ek; cbn [orb].
      * destruct vs as [ | v vs]; [ | reflexivity ].
        exfalso. apply (H (n, [])); [ now left | reflexivity ].
      * apply String.eqb_eq in E. subst n. rewrite Ek.
        destruct (existsb (fun nv => String.eqb (fst nv) k) r) eqn:Er;
          [ reflexivity | ].
        now apply get_first_absent.
    + destruct (String.eqb n k) eqn:Ek; cbn [orb]; [ reflexivity | ].
      apply IH. intros x Hx. apply H. now right.
Qed.

Lemma parse_qs_fold (k : string) (pairs : list (string * string)) :
  forall r : list (string * list string),
  lists_not_empty r ->
  bitly_stats.get_first k
    (fold_left (fun r nv => bitly_stats.add_value (fst nv) (snd nv) r) pairs r) =
  if has_name k r then bitly_stats.get_first k r else first_value k pairs.
Proof.
  induction pairs as [ | [n v] pairs IH]; intros r H;
    cbn [fold_left first_value fst snd].
  - destruct (has_name k r) eqn:E; [ reflexivity | ].
    now apply get_first_absent.
  - rewrite IH by now apply add_value_not_empty.
    rewrite add_value_has_name, add_value_get_first by assumption.
    destruct (has_name k r); cbn [orb]; [ reflexivity | ].
    now destruct (String.eqb n k).
Qed.

(** [parse_qs(qs).get(k, [""])[0]] is the first value [parse_qsl] has for
    [k]. *)
Lemma get_first_parse_qs (k qs : string) :
  bitly_stats.get_first k (bitly_stats.parse_qs qs) =
  first_value k (parse_qsl qs false).
Proof.
  unfold bitly_stats.parse_qs. rewrite parse_qs_fold; [ reflexivity | ].
  intros nv [].
Qed.

Lemma first_value_absent (k : string) (l : list (string * string)) :
  ~ In k (map fst l) -> first_value k l = EmptyString.
Proof.
  induction l as [ | [k1 v1] l IH]; cbn [first_value map fst In];
    [ reflexivity | ].
  intros H. destruct (String.eqb k1 k) eqn:E.
  - apply String.eqb_eq in E. tauto.
  - apply IH. tauto.
Qed.

(** In a dict, the first value with text of a key is the value of the key. *)
Lemma first_value_dict (k : string) (d : dict) :
  NoDup (keys d) ->
  first_value k (filter not_blank d) = or_empty (dict_get k d).
Proof.
  induction d as [ | [k1 v1] d IH]; cbn [keys map fst]; intros H;
    [ reflexivity | ].
  inversion H as [ | ? ? Hk1 Hd]; subst.
  cbn [filter dict_get]. unfold not_blank at 1. cbn [snd].
  destruct (String.eqb k1 k) eqn:E.
  - apply String.eqb_eq in E. subst k1. cbn [or_empty].
    destruct v1 as [ | a v1]; cbn [is_empty negb first_value].
    + apply first_value_absent. intros Hin. apply Hk1.
      apply in_map_iff in Hin as (x & Hx & Hin).
      apply filter_In in Hin as [Hin _].
      apply in_map_iff. now exists x.
    + now rewrite String.eqb_refl.
  - destruct (negb (is_empty v1)); cbn [first_value];
      rewrite ?E; now apply IH.
Qed.

(** *** The dict [build_utm_url] writes *)

Lemma merged_get_given (parsed : ParseResult) (s m c t k v : string) :
  In (k, v) (assigned s m c t) -> is_empty v = false ->
  dict_get k (merged_params parsed s m c t) = Some v.
Proof.
  intros Hin Hv. unfold merged_params.
  apply apply_get_assigned; [ apply utm_params_nodup | ].
  apply assigned_utm_params in Hin. unfold or_none in Hin.
  now rewrite Hv in Hin.
Qed.

Lemma merged_get_not_given (parsed : ParseResult) (s m c t k v : string) :
  In (k, v) (assigned s m c t) -> is_empty v = true ->
  dict_get k (merged_params parsed s m c t) =
  last_value k (parse_qsl (query parsed) true).
Proof.
  intros Hin Hv. rewrite <- dict_of_pairs_get. unfold merged_params.
  assert (E : or_none v = None) by (unfold or_none; now rewrite Hv).
  cbn in Hin.
  destruct Hin as [H | [H | [H | [H | []]]]]; injection H as <- <-;
    unfold apply_utm_params, utm_params_of; cbn [fold_left fst snd];
    rewrite E;
    repeat match goal with
      | |- context [or_none ?x] => destruct (or_none x)
      end;
    rewrite ?dict_get_set; reflexivity.
Qed.

Lemma dict_get_In (k v : string) (d : dict) :
  dict_get k d = Some v -> In (k, v) d.
Proof.
  induction d as [ | [k1 v1] d IH]; cbn [dict_get]; [ discriminate | ].
  destruct (String.eqb k1 k) eqn:E.
  - apply String.eqb_eq in E. intros H. injection H as <-. subst. now left.
  - intros H. right. now apply IH.
Qed.

Lemma apply_keys (l : list (string * option string)) : forall d : dict,
  NoDup (map fst l) ->
  keys (apply_utm_params l d) =
  (keys d ++ filter (fun k => negb (str_mem k (keys d))) (valued_keys l))%list.
Proof.
  unfold apply_utm_params, valued_keys.
  induction l as [ | [k o] l IH]; intros d H; cbn [fold_left fst snd filter map].
  - now rewrite app_nil_r.
  - cbn [map fst] in H. inversion H as [ | ? ? Hk Hl]; subst.
    rewrite IH by assumption.
    destruct o as [v | ]; [ | reflexivity ].
    cbn [map fst filter]. rewrite keys_set.
    destruct (str_mem k (keys d)) eqn:E; cbn [negb]; [ reflexivity | ].
    rewrite <- app_assoc. cbn [app]. do 2 f_equal.
    apply filter_ext_in. intros x Hx.
    unfold str_mem. rewrite existsb_app. cbn [existsb].
    rewrite orb_false_r, negb_orb.
    destruct (String.eqb x k) eqn:Ex; [ | apply andb_true_r ].
    apply String.eqb_eq in Ex. subst x. exfalso. apply Hk.
    apply in_map_iff in Hx as (y & <- & Hy). apply filter_In in Hy as [Hy _].
    apply in_map_iff. now exists y.
Qed.

Lemma valued_keys_given (s m c t : string) :
  valued_keys (utm_params_of s m c t) = map fst (given s m c t).
Proof.
  destruct s, m, c, t; reflexivity.
Qed.

(** *** Substrings *)

Lemma startswith_prefix (x b : string) : startswith x (x ++ b) = true.
Proof.
  induction x as [ | a x IH]; [ reflexivity | ].
  cbn [append startswith]. now rewrite Ascii.eqb_refl, IH.
Qed.

Lemma startswith_longer (x s b : string) :
  startswith x s = true -> startswith x (s ++ b) = true.
Proof.
  revert s. induction x as [ | a x IH]; intros s; [ reflexivity | ].
  destruct s as [ | c s]; cbn [append startswith]; [ discriminate | ].
  intros H. apply andb_true_iff in H as [H1 H2]. now rewrite H1, IH.
Qed.

Lemma contains_after (x a s : string) :
  contains x s = true -> contains x (a ++ s) = true.
Proof.
  intros H. induction a as [ | c a IH]; [ assumption | ].
  cbn [append contains]. rewrite IH. apply orb_true_r.
Qed.

Lemma contains_before (x s b : string) :
  contains x s = true -> contains x (s ++ b) = true.
Proof.
  induction s as [ | c s IH]; cbn [contains append].
  - rewrite orb_false_r. intros H.
    destruct b as [ | d b]; cbn [contains].
    + now rewrite H.
    + destruct x; [ reflexivity | discriminate ].
  - intros H. apply orb_true_iff in H as [H | H].
    + change (String c (s ++ b)) with (String c s ++ b).
      now rewrite (startswith_longer x (String c s) b H).
    + rewrite (IH H). apply orb_true_r.
Qed.

Lemma contains_itself (x : string) : contains x x = true.
Proof.
  destruct x as [ | a x]; [ reflexivity | ].
  cbn [contains]. rewrite <- (ReparseFacts.append_empty_r (String a x)) at 2.
  now rewrite startswith_prefix.
Qed.

Lemma contains_member (sep f : string) (l : list string) :
  In f l -> contains f (join sep l) = true.
Proof.
  induction l as [ | x l IH]; [ contradiction | ].
  intros [-> | Hin].
  - destruct l as [ | y l]; [ apply contains_itself | ].
    change (join sep (f :: y :: l)) with (f ++ (sep ++ join sep (y :: l))).
    apply contains_before, contains_itself.
  - destruct l as [ | y l]; [ contradiction | ].
    change (join sep (x :: y :: l)) with (x ++ (sep ++ join sep (y :: l))).
    now apply contains_after, contains_after, IH.
Qed.

Lemma contains_not_empty (x s : string) :
  contains x s = true -> is_empty x = false -> is_empty s = false.
Proof.
  destruct s; [ | reflexivity ].
  destruct x; [ discriminate | ]. cbn. discriminate.
Qed.

(** What the query has, the URL written from it has. *)
Lemma urlunparse_contains_query (x : string) (p : ParseResult) :
  is_empty x = false -> contains x (query p) = true ->
  contains x (urlunparse p) = true.
Proof.
  intros Hx H. pose proof (contains_not_empty _ _ H Hx) as Hq.
  unfold urlunparse, urlunsplit. rewrite Hq. cbn [negb].
  match goal with
  | |- contains x (if ?b then ?u ++ _ else ?u) = true =>
      assert (G : contains x u = true);
      [ | destruct b; [ now apply contains_before | exact G ] ]
  end.
  now apply contains_after, contains_after.
Qed.

Lemma quote_safe (s : string) :
  all_chars always_safe s = true -> quote false s = s.
Proof.
  induction s as [ | c s IH]; cbn [all_chars quote]; [ reflexivity | ].
  intros H. apply andb_true_iff in H as [Hc Hs].
  unfold quoter. rewrite Hc. cbn [orb append]. now rewrite IH.
Qed.

Lemma space_not_safe (s : string) :
  all_chars always_safe s = true -> char_in " " s = false.
Proof. apply all_chars_absent. reflexivity. Qed.

(** Text of letters, digits and [_.-~] is written as it is. *)
Lemma quote_plus_safe (s : string) :
  all_chars always_safe s = true -> quote_plus s = s.
Proof.
  intros H. unfold quote_plus. rewrite (space_not_safe s H).
  now apply quote_safe.
Qed.

(** *** Blank values *)

Lemma unquote_empty (s : string) : is_empty (unquote s) = is_empty s.
Proof.
  destruct s as [ | c t]; [ reflexivity | ].
  cbn [unquote]. destruct (Ascii.eqb c "%"); [ | reflexivity ].
  destruct t as [ | a [ | b r]]; try reflexivity.
  now destruct (hexval a), (hexval b).
Qed.

Lemma unquote_plus_empty (s : string) : is_empty (unquote_plus s) = is_empty s.
Proof. unfold unquote_plus. now rewrite unquote_empty, replace_char_empty. Qed.

Lemma parse_field_not_blank (f : string) :
  parse_field false f =
  match parse_field true f with
  | Some kv => if not_blank kv then Some kv else None
  | None => None
  end.
Proof.
  unfold parse_field, not_blank.
  destruct (is_empty f); [ reflexivity | ].
  destruct (partition "=" f) as [[n v] | ]; [ | reflexivity ].
  rewrite orb_false_r, orb_true_r. cbn [snd].
  rewrite unquote_plus_empty. now destruct (is_empty v).
Qed.

Lemma parse_fields_not_blank (l : list string) :
  parse_fields false l = filter not_blank (parse_fields true l).
Proof.
  induction l as [ | f l IH]; cbn [parse_fields]; [ reflexivity | ].
  rewrite parse_field_not_blank.
  destruct (parse_field true f) as [kv | ]; [ | assumption ].
  cbn [filter]. destruct (not_blank kv); now rewrite IH.
Qed.

(** Without [keep_blank_values], [parse_qsl] gives the pairs that have a
    value. *)
Lemma parse_qsl_not_blank (qs : string) :
  parse_qsl qs false = filter not_blank (parse_qsl qs true).
Proof. apply parse_fields_not_blank. Qed.

Lemma merged_read_back (parsed : ParseResult) (s m c t k v : string) :
  In (k, v) (assigned s m c t) ->
  or_empty (dict_get k (merged_params parsed s m c t)) = read_back parsed k v.
Proof.
  intros Hin. unfold read_back. destruct (is_empty v) eqn:E.
  - now rewrite (merged_get_not_given parsed s m c t k v Hin E).
  - now rewrite (merged_get_given parsed s m c t k v Hin E).
Qed.

Lemma query_replace_query (p : ParseResult) (q : string) :
  query (replace_query p q) = q.
Proof. now destruct p. Qed.

Lemma str_mem_first_occurrences (k : string) (l : list string) :
  str_mem k (first_occurrences l) = str_mem k l.
Proof.
  destruct (str_mem k l) eqn:E.
  - apply str_mem_In. apply first_occurrences_In. now apply str_mem_In.
  - destruct (str_mem k (first_occurrences l)) eqn:F; [ | reflexivity ].
    apply (proj1 (str_mem_In _ _)) in F.
    apply (proj1 (first_occurrences_In _ _)) in F.
    apply (proj2 (str_mem_In _ _)) in F. congruence.
Qed.

Section ReadBack.
Context {P : Platform}.

Lemma absolute_plain_not_empty (base : string) (parsed : ParseResult) :
  urlparse base = Ret parsed -> absolute_plain parsed = true ->
  is_empty base = false.
Proof.
  destruct base; [ | reflexivity ].
  intros Hp Ha. vm_compute in Hp. injection Hp as <-. discriminate Ha.
Qed.

(** For absolute, plain components, the URL [build_utm_url] returns is
    read back by [urlparse] with the query it wrote. *)
Lemma build_utm_url_read (base s m c t result : string) (parsed : ParseResult) :
  urlparse base = Ret parsed ->
  absolute_plain parsed = true ->
  build_utm_url base s m c t = Ret result ->
  urlparse result =
  Ret (replace_query parsed (urlencode (merged_params parsed s m c t))).
Proof.
  intros Hp Ha Hb.
  rewrite (build_utm_url_parsed base s m c t parsed
             (absolute_plain_not_empty base parsed Hp Ha) Hp) in Hb.
  injection Hb as <-.
  apply urlparse_written; [ assumption | apply urlencode_query_chars ].
Qed.

(** [X1] What the builder writes, the report reads.  For a base URL whose
    parsed components are absolute and plain, [parse_utm_params] applied to
    the URL that [build_utm_url] returns does not raise, and each of its
    three columns is the value that was given for that parameter; for a
    parameter given no value, the column is the last value the base URL had
    for it, or the empty string. *)
Theorem parse_utm_params_of_built_url
  (base s m c t result : string) (parsed : ParseResult) :
  urlparse base = Ret parsed ->
  absolute_plain parsed = true ->
  build_utm_url base s m c t = Ret result ->
  bitly_stats.parse_utm_params result =
  Ret (bitly_stats.mkUtm
         (read_back parsed "utm_source" s)
         (read_back parsed "utm_medium" m)
         (read_back parsed "utm_campaign" c)).
Proof.
  intros Hp Ha Hb. unfold bitly_stats.parse_utm_params.
  rewrite (build_utm_url_read base s m c t result parsed Hp Ha Hb).
  cbn [bind]. rewrite query_replace_query, !get_first_parse_qs.
  rewrite parse_qsl_blank_urlencode.
  rewrite !first_value_dict by apply merged_params_nodup.
  rewrite (merged_read_back parsed s m c t "utm_source" s) by (cbn; tauto).
  rewrite (merged_read_back parsed s m c t "utm_medium" m) by (cbn; tauto).
  rewrite (merged_read_back parsed s m c t "utm_campaign" c) by (cbn; tauto).
  reflexivity.
Qed.

(** [X2] The keys of the query [build_utm_url] writes, in order.  For a base
    URL whose parsed components are absolute and plain, the result parses
    again, and the keys of its query are: the keys of the base URL, each
    once, at its first occurrence; then the tracking parameters that were
    given a value and that the base URL did not have, in the order
    utm_source, utm_medium, utm_campaign, utm_term.  No key is written
    twice. *)
Theorem build_utm_url_key_order
  (base s m c t result : string) (parsed : ParseResult) :
  urlparse base = Ret parsed ->
  absolute_plain parsed = true ->
  build_utm_url base s m c t = Ret result ->
  exists parsed',
    urlparse result = Ret parsed' /\
    map fst (parse_qsl (query parsed') true) =
      (first_occurrences (map fst (parse_qsl (query parsed) true)) ++
       filter (fun k => negb (str_mem k (map fst (parse_qsl (query parsed) true))))
         (map fst (given s m c t)))%list /\
    NoDup (map fst (parse_qsl (query parsed') true)).
Proof.
  intros Hp Ha Hb.
  exists (replace_query parsed (urlencode (merged_params parsed s m c t))).
  split; [ now apply (build_utm_url_read base s m c t) | ].
  rewrite query_replace_query, parse_qsl_urlencode.
  split; [ | apply merged_params_nodup ].
  change (map fst (merged_params parsed s m c t))
    with (keys (merged_params parsed s m c t)).
  unfold merged_params.
  rewrite apply_keys by apply utm_params_nodup.
  rewrite dict_of_pairs_keys, valued_keys_given. f_equal.
  apply filter_ext. intros k. now rewrite str_mem_first_occurrences.
Qed.

(** [X3] A link built with given tracking values passes the filters of the
    report for those values.  Whenever [build_utm_url] returns a URL for a
    non-empty base URL, that URL contains [utm_source=] followed by the
    value as [quote_plus] writes it, and likewise for the medium and the
    campaign, so it passes the three filters set to the written values;
    values of letters, digits and [_.-~] are written as they are, so the
    URL passes the filters set to the very values that were given. *)
Theorem built_url_passes_prefilters (base s m c t result : string) :
  is_empty base = false ->
  build_utm_url base s m c t = Ret result ->
  bitly_stats.passes_prefilters (quote_plus s) (quote_plus m) (quote_plus c)
    result = true /\
  (all_chars always_safe s = true -> all_chars always_safe m = true ->
   all_chars always_safe c = true ->
   bitly_stats.passes_prefilters s m c result = true).
Proof.
  intros Hne Hb.
  assert (G : bitly_stats.passes_prefilters (quote_plus s) (quote_plus m)
                (quote_plus c) result = true).
  { destruct (urlparse base) as [parsed | e] eqn:Hp;
      [ | now rewrite (build_utm_url_raises base s m c t e Hne Hp) in Hb ].
    rewrite (build_utm_url_parsed base s m c t parsed Hne Hp) in Hb.
    injection Hb as <-.
    assert (K : forall k v, In (k, v) (assigned s m c t) ->
                quote_plus k = k ->
                bitly_stats.skipped_by k (quote_plus v)
                  (urlunparse (replace_query parsed
                     (urlencode (merged_params parsed s m c t)))) = false).
    { intros k v Hin Hk. apply PipelineFacts.skipped_by_spec.
      destruct (is_empty v) eqn:E.
      - left. destruct v; [ reflexivity | discriminate ].
      - right. apply urlunparse_contains_query.
        + rewrite is_empty_app. cbn [is_empty append]. apply andb_false_r.
        + rewrite query_replace_query. unfold urlencode.
          apply contains_member. apply in_map_iff. exists (k, v).
          split; [ unfold encode_pair; cbn [fst snd]; now rewrite Hk | ].
          apply dict_get_In. now apply merged_get_given. }
    unfold bitly_stats.passes_prefilters.
    rewrite (K "utm_source" s), (K "utm_medium" m), (K "utm_campaign" c);
      try reflexivity; cbn; tauto. }
  split; [ exact G | ].
  intros Hs Hm Hc.
  now rewrite (quote_plus_safe s Hs), (quote_plus_safe m Hm),
    (quote_plus_safe c Hc) in G.
Qed.

(** [X4] The columns [parse_utm_params] reads.  It raises what [urlparse]
    raises on the URL and nothing else; otherwise each of utm_source,
    utm_medium and utm_campaign is the decoded value of the first field of
    the query that names the parameter and has a value after its [=], and
    the empty string when the query has no such field. *)
Theorem parse_utm_params_first_values (long_url : string) :
  bitly_stats.parse_utm_params long_url =
  bind (urlparse long_url) (fun parsed =>
    let pairs := filter not_blank (parse_qsl (query parsed) true) in
    Ret (bitly_stats.mkUtm (first_value "utm_source" pairs)
           (first_value "utm_medium" pairs)
           (first_value "utm_campaign" pairs))).
Proof.
  unfold bitly_stats.parse_utm_params.
  destruct (urlparse long_url) as [parsed | e]; [ | reflexivity ].
  cbn [bind]. now rewrite !get_first_parse_qs, parse_qsl_not_blank.
Qed.

End ReadBack.

(** A campaign link with a medium already in it: the source is given, the
    medium is read from the base URL. *)
Lemma parse_utm_params_of_built_url_witness :
  bitly_stats.parse_utm_params (P := Scenario.reference_platform)
    "https://site.com/page?utm_medium=old&x=1&utm_source=news+letter&utm_campaign=spring"
  = Ret (bitly_stats.mkUtm "news letter" "old" "spring").
Proof.
  exact (parse_utm_params_of_built_url (P := Scenario.reference_platform)
           "https://site.com/page?utm_medium=old&x=1" "news letter" "" "spring" ""
           "https://site.com/page?utm_medium=old&x=1&utm_source=news+letter&utm_campaign=spring"
           (mkParseResult "https" "site.com" "/page" "" "utm_medium=old&x=1" "")
           eq_refl eq_refl eq_refl).
Defined.

(** A base URL with a repeated key and a medium: the keys of the result. *)
Lemma build_utm_url_key_order_witness :
  exists parsed',
    urlparse (P := Scenario.reference_platform)
      "https://site.com/page?b=3&utm_medium=email&a=2&utm_source=news&utm_term=x"
      = Ret parsed' /\
    map fst (parse_qsl (query parsed') true) =
      ["b"; "utm_medium"; "a"; "utm_source"; "utm_term"] /\
    NoDup (map fst (parse_qsl (query parsed') true)).
Proof.
  exact (build_utm_url_key_order (P := Scenario.reference_platform)
           "https://site.com/page?b=1&utm_medium=old&a=2&b=3" "news" "email" "" "x"
           "https://site.com/page?b=3&utm_medium=email&a=2&utm_source=news&utm_term=x"
           (mkParseResult "https" "site.com" "/page" "" "b=1&utm_medium=old&a=2&b=3" "")
           eq_refl eq_refl eq_refl).
Defined.

(** A source with a space is written with [+]: the link passes the filter
    set to the written value, and the filter set to the value as typed
    skips it. *)
Lemma built_url_passes_prefilters_witness :
  bitly_stats.passes_prefilters "news+letter" "email" "spring"
    "https://site.com/?utm_source=news+letter&utm_medium=email&utm_campaign=spring"
    = true /\
  bitly_stats.passes_prefilters "news" "email" "spring"
    "https://site.com/?utm_source=news&utm_medium=email&utm_campaign=spring"
    = true /\
  bitly_stats.passes_prefilters "news letter" "email" "spring"
    "https://site.com/?utm_source=news+letter&utm_medium=email&utm_campaign=spring"
    = false.
Proof.
  split; [ | split ].
  - exact (proj1 (built_url_passes_prefilters (P := Scenario.reference_platform)
                    "https://site.com/" "news letter" "email" "spring" ""
                    "https://site.com/?utm_source=news+letter&utm_medium=email&utm_campaign=spring"
                    eq_refl eq_refl)).
  - exact (proj2 (built_url_passes_prefilters (P := Scenario.reference_platform)
                    "https://site.com/" "news" "email" "spring" ""
                    "https://site.com/?utm_source=news&utm_medium=email&utm_campaign=spring"
                    eq_refl eq_refl) eq_refl eq_refl eq_refl).
  - reflexivity.
Defined.

End QueryFacts.

(** ** The requests of a run *)

Module RequestFacts.
Import Py urllib requests Pagination Notions Observed SortFacts RemoteFacts
  PipelineFacts.

Section Recorded.
Context {P : Platform} {W : Type} (send : request -> W -> reply * W).

Lemma call_recorded (q : request) (w : W) (log : list request) :
  call (recorded send) q (w, log) =
  (fst (call send q w), (snd (call send q w), (log ++ [q])%list)).
Proof.
  unfold call, recorded. cbn [fst snd].
  now destruct (send q w) as [[r | e] w'].
Qed.

Lemma shorten_with_bitly_recorded (long_url : string) (domain : option string)
  (w : W) (log : list request) :
  utm_bitly.shorten_with_bitly (recorded send) long_url domain (w, log) =
  (fst (utm_bitly.shorten_with_bitly send long_url domain w),
   (snd (utm_bitly.shorten_with_bitly send long_url domain w),
    (log ++ [PostShorten long_url
               (if utm_bitly.truthy domain then domain else None)])%list)).
Proof.
  unfold utm_bitly.shorten_with_bitly, try_except, mbind.
  rewrite call_recorded. unfold call, ret, lift.
  destruct (send _ w) as [[r | e] w']; cbn [fst snd]; [ | reflexivity ].
  destruct (negb (utm_bitly.status_created r)); [ reflexivity | ].
  now destruct (json r).
Qed.

Lemma update_bitly_title_recorded (bitlink title : string) (w : W)
  (log : list request) :
  utm_bitly.update_bitly_title (recorded send) bitlink title (w, log) =
  (fst (utm_bitly.update_bitly_title send bitlink title w),
   (snd (utm_bitly.update_bitly_title send bitlink title w),
    (log ++ [PatchBitlink (remove_sub "https://" bitlink) title])%list)).
Proof.
  unfold utm_bitly.update_bitly_title, try_except, mbind.
  rewrite call_recorded. unfold call, ret.
  destruct (send _ w) as [[r | e] w']; cbn [fst snd]; [ | reflexivity ].
  now destruct (negb (utm_bitly.status_created r)).
Qed.

Lemma get_group_guid_recorded (w : W) (log : list request) :
  bitly_stats.get_group_guid (recorded send) (w, log) =
  (fst (bitly_stats.get_group_guid send w),
   (snd (bitly_stats.get_group_guid send w), (log ++ [GetGroups])%list)).
Proof.
  unfold bitly_stats.get_group_guid, mbind.
  rewrite call_recorded. unfold call, ret, lift, raise.
  destruct (send _ w) as [[r | e] w']; cbn [fst snd]; [ | reflexivity ].
  destruct (negb (Z.eqb (status_code r) 200)); [ reflexivity | ].
  destruct (json r) as [data | e]; [ | reflexivity ].
  destruct (j_groups data) as [[ | g gs] | ]; try reflexivity.
  now destruct (guid g).
Qed.

Lemma get_clicks_recorded (bitlink_id : string) (w : W) (log : list request) :
  bitly_stats.get_clicks (recorded send) bitlink_id (w, log) =
  (fst (bitly_stats.get_clicks send bitlink_id w),
   (snd (bitly_stats.get_clicks send bitlink_id w),
    (log ++ [GetClicksSummary bitlink_id])%list)).
Proof.
  unfold bitly_stats.get_clicks, mbind.
  rewrite call_recorded. unfold call, ret, lift.
  destruct (send _ w) as [[r | e] w']; cbn [fst snd]; [ | reflexivity ].
  destruct (negb (Z.eqb (status_code r) 200)); [ reflexivity | ].
  now destruct (json r).
Qed.

(** *** The batch of the builder *)

Section Batch.
Variables utm_source utm_medium utm_campaign utm_term bitly_domain : string.

Local Abbreviation process_url :=
  (utm_bitly.process_url send utm_source utm_medium utm_campaign utm_term
     bitly_domain).
Local Abbreviation process_url_recorded :=
  (utm_bitly.process_url (recorded send) utm_source utm_medium utm_campaign
     utm_term bitly_domain).
Local Abbreviation process_urls :=
  (utm_bitly.process_urls send utm_source utm_medium utm_campaign utm_term
     bitly_domain).
Local Abbreviation process_urls_recorded :=
  (utm_bitly.process_urls (recorded send) utm_source utm_medium utm_campaign
     utm_term bitly_domain).

(** One input of the batch: its entry, and the requests made for it. *)
Lemma process_url_requests (i : nat) (url : string) (w w' : W)
  (log log' : list request) (row : utm_bitly.result_row) :
  process_url_recorded i url (w, log) = (Ret row, (w', log')) ->
  process_url i url w = (Ret row, w') /\
  utm_bitly.Original_URL row = url /\
  built utm_source utm_medium utm_campaign utm_term row /\
  log' = (log ++ requests_of_row utm_campaign bitly_domain i row)%list.
Proof.
  unfold utm_bitly.process_url, built, requests_of_row.
  unfold mbind at 1 2 6 7. unfold lift.
  destruct (urlparse url) as [parsed | e] eqn:Hp; [ | discriminate ].
  destruct (utm_bitly.build_utm_url url _ _ _ _) as [utm_url | e] eqn:Hb;
    [ | discriminate ].
  unfold mbind at 1 4. rewrite shorten_with_bitly_recorded.
  destruct (shorten_with_bitly_returns send utm_url (or_none bitly_domain) w)
    as ([short err] & w1 & Es).
  rewrite Es. cbn [fst snd].
  destruct (utm_bitly.truthy short) eqn:T.
  - unfold mbind. rewrite update_bitly_title_recorded.
    destruct (update_bitly_title_returns send (utm_bitly.or_empty short)
                (utm_bitly.readable_name i parsed ++ " — " ++ utm_campaign) w1)
      as (terr & w2 & Eu).
    rewrite Eu. cbn [fst snd]. unfold ret. intros H. injection H as <- <- <-.
    cbn [utm_bitly.Original_URL utm_bitly.UTM_URL utm_bitly.Short_URL].
    rewrite Hp, Hb.
    unfold utm_bitly.truthy in T. apply negb_true_iff in T. rewrite T.
    repeat split. rewrite <- app_assoc. reflexivity.
  - unfold mbind, ret. intros H. injection H as <- <- <-.
    cbn [utm_bitly.Original_URL utm_bitly.UTM_URL utm_bitly.Short_URL is_empty].
    rewrite Hb. repeat split.
Qed.

Lemma process_urls_requests (urls : list string) :
  forall (i : nat) (results rows : list utm_bitly.result_row) (w w' : W)
         (log log' : list request),
  process_urls_recorded i urls results (w, log) = (Ret rows, (w', log')) ->
  exists new,
    rows = (results ++ new)%list /\
    process_urls i urls results w = (Ret rows, w') /\
    map utm_bitly.Original_URL new = urls /\
    Forall (built utm_source utm_medium utm_campaign utm_term) new /\
    log' = (log ++ requests_of_rows utm_campaign bitly_domain i new)%list.
Proof.
  induction urls as [ | url urls IH]; intros i results rows w w' log log';
    cbn [utm_bitly.process_urls].
  - unfold ret. intros H. injection H as <- <- <-. exists [].
    rewrite !app_nil_r. repeat split. constructor.
  - unfold mbind at 1.
    destruct (process_url_recorded i url (w, log)) as [[row | e] [w1 log1]] eqn:E;
      [ | discriminate ].
    apply process_url_requests in E as (E1 & E2 & E3 & E4).
    intros H. apply IH in H as (new & -> & H2 & H3 & H4 & ->).
    exists (row :: new). unfold mbind. rewrite E1, H2, E4.
    cbn [map requests_of_rows]. rewrite E2, H3, <- !app_assoc.
    repeat split. now constructor.
Qed.

(** [X5] The requests of a batch.  For a non-empty list of inputs that
    [urlparse] accepts, and whatever the service answers, the handler
    returns one entry per input, in the order of the inputs; the UTM URL of
    each entry is what [build_utm_url] makes of its original URL; and the
    requests sent are, entry by entry in that order, one creation of a short
    link for the UTM URL of the entry, followed by one titling of that link
    exactly when the entry has a short URL.  Nothing else is sent, and no
    request is repeated after a failure. *)
Theorem render_batch_requests (urls : list string) (w : W) (log : list request) :
  urls <> [] ->
  Forall (fun u => returns (urlparse u) = true) urls ->
  exists rows w',
    utm_bitly.render send utm_source utm_medium utm_campaign utm_term
      bitly_domain urls w = (Ret (Some rows), w') /\
    utm_bitly.render (recorded send) utm_source utm_medium utm_campaign utm_term
      bitly_domain urls (w, log) =
      (Ret (Some rows),
       (w', (log ++ requests_of_rows utm_campaign bitly_domain 0 rows)%list)) /\
    map utm_bitly.Original_URL rows = urls /\
    Forall (built utm_source utm_medium utm_campaign utm_term) rows.
Proof.
  intros Hne Hall.
  destruct (process_urls_all (recorded send) utm_source utm_medium utm_campaign
              utm_term bitly_domain urls Hall 0 [] (w, log))
    as (rows & [w' log'] & E & _).
  cbn [app] in E.
  destruct (process_urls_requests urls 0 [] rows w w' log log' E)
    as (new & -> & E1 & E2 & E3 & ->).
  cbn [app] in *. exists new, w'.
  unfold utm_bitly.render.
  destruct urls as [ | u urls]; [ contradiction | ].
  unfold mbind, ret. rewrite E, E1. repeat split; assumption.
Qed.

(** [X6] An entry with neither a link nor an error.  When the creation is
    answered with status 200 or 201 and a JSON body that has no link, or an
    empty one, the entry of the input has an empty short URL and an empty
    error, and no titling is asked for: the creation is the only request of
    the entry. *)
Theorem process_url_no_link (i : nat) (url utm_url : string)
  (parsed : ParseResult) (r : response) (data : json_object) (w w1 : W)
  (log : list request) :
  urlparse url = Ret parsed ->
  utm_bitly.build_utm_url url utm_source utm_medium utm_campaign utm_term
    = Ret utm_url ->
  send (PostShorten utm_url (payload_domain bitly_domain)) w = (Response r, w1) ->
  utm_bitly.status_created r = true ->
  json r = Ret data ->
  utm_bitly.truthy (j_link data) = false ->
  process_url_recorded i url (w, log) =
  (Ret (utm_bitly.mkResultRow url utm_url EmptyString EmptyString),
   (w1, (log ++ [PostShorten utm_url (payload_domain bitly_domain)])%list)).
Proof.
  intros Hp Hb Hs Hc Hj Hl.
  unfold utm_bitly.process_url. unfold mbind at 1 2. unfold lift.
  rewrite Hp, Hb. unfold mbind at 1. rewrite shorten_with_bitly_recorded.
  rewrite (shorten_with_bitly_created send utm_url (or_none bitly_domain)
             w w1 r data Hs Hc Hj).
  cbn [fst snd]. rewrite Hl. reflexivity.
Qed.

End Batch.

(** *** The listing *)

Section Listing.
Variables (group_guid : string) (created_after : option Z).

Local Abbreviation loop := (bitly_stats.get_all_bitlinks_loop send).
Local Abbreviation loop_recorded :=
  (bitly_stats.get_all_bitlinks_loop (recorded send)).

Lemma loop_requests (fuel : nat) :
  forall (k : nat) (bitlinks : list item) (w w' : W) (log : list request)
         (o : outcome (list item)),
  loop fuel group_guid created_after (Z.of_nat k + 1)%Z bitlinks w = Some (o, w') ->
  exists n,
    1 <= n <= fuel /\
    loop_recorded fuel group_guid created_after (Z.of_nat k + 1)%Z bitlinks (w, log)
    = Some (o, (w', (log ++ map (page_request group_guid created_after)
                              (seq k n))%list)).
Proof.
  induction fuel as [ | fuel IH]; intros k bitlinks w w' log o;
    cbn [bitly_stats.get_all_bitlinks_loop]; [ discriminate | ].
  rewrite call_recorded. unfold call.
  assert (One : forall (x : outcome (list item)) (w1 : W),
            Some (x, w1) = Some (o, w') ->
            exists n,
              1 <= n <= S fuel /\
              Some (x, (w1, (log ++ [page_request group_guid created_after k])%list))
              = Some (o, (w', (log ++ map (page_request group_guid created_after)
                                        (seq k n))%list))).
  { intros x w1 H. injection H as <- <-. exists 1. split; [ lia | reflexivity ]. }
  fold (page_request group_guid created_after k).
  destruct (send (page_request group_guid created_after k) w) as [[r | e] w1];
    cbn [fst snd]; [ | apply One ].
  destruct (negb (Z.eqb (status_code r) 200)); [ apply One | ].
  destruct (json r) as [data | e]; [ | apply One ].
  destruct (Z.ltb _ _); [ apply One | ].
  replace (Z.of_nat k + 1 + 1)%Z with (Z.of_nat (S k) + 1)%Z by lia.
  intros H.
  destruct (IH (S k) _ w1 w' (log ++ [page_request group_guid created_after k])%list
              o H) as (n & Hn & E).
  exists (S n). split; [ lia | ].
  rewrite E. cbn [seq map]. now rewrite <- app_assoc.
Qed.

(** [X7] The requests of the listing.  A run of [get_all_bitlinks] that
    ends, whatever its outcome, has asked for the pages 1, 2, ..., n of the
    group, for some n of at least 1, in this order and each once; every
    request asks for 50 links and carries the same lower bound on the
    creation time, which is left out when the bound is absent or 0.  The
    outcome and the state of the service do not depend on the requests
    being written down. *)
Theorem get_all_bitlinks_requests (fuel : nat) (w w' : W) (log : list request)
  (o : outcome (list item)) :
  bitly_stats.get_all_bitlinks send fuel group_guid created_after w = Some (o, w') ->
  exists n,
    1 <= n <= fuel /\
    bitly_stats.get_all_bitlinks (recorded send) fuel group_guid created_after
      (w, log) =
    Some (o, (w', (log ++ map (fun k =>
                                 GetBitlinks group_guid 50 (Z.of_nat k + 1)
                                   (bitly_stats.created_after_param created_after))
                              (seq 0 n))%list)).
Proof.
  unfold bitly_stats.get_all_bitlinks. intros H.
  exact (loop_requests fuel 0 [] w w' log o H).
Qed.

End Listing.

(** *** The report *)

Section Report.
Variables prefilter_source prefilter_medium prefilter_campaign : string.

Local Abbreviation passes :=
  (bitly_stats.passes_prefilters prefilter_source prefilter_medium
     prefilter_campaign).
Local Abbreviation survivors :=
  (surviving prefilter_source prefilter_medium prefilter_campaign).
Local Abbreviation process_items :=
  (bitly_stats.process_items send prefilter_source prefilter_medium
     prefilter_campaign).
Local Abbreviation process_items_recorded :=
  (bitly_stats.process_items (recorded send) prefilter_source prefilter_medium
     prefilter_campaign).

Lemma process_item_log (it : item) (w : W) (log : list request) :
  exists L,
    bitly_stats.process_item (recorded send) prefilter_source prefilter_medium
      prefilter_campaign it (w, log) =
    (fst (bitly_stats.process_item send prefilter_source prefilter_medium
            prefilter_campaign it w),
     (snd (bitly_stats.process_item send prefilter_source prefilter_medium
             prefilter_campaign it w), (log ++ L)%list)) /\
    (L = [] \/ (L = [clicks_request it] /\ passes (long_url_of it) = true)) /\
    (forall o,
       fst (bitly_stats.process_item send prefilter_source prefilter_medium
              prefilter_campaign it w) = Ret o ->
       L = if passes (long_url_of it) then [clicks_request it] else []).
Proof.
  unfold bitly_stats.process_item, bitly_stats.passes_prefilters, long_url_of,
    clicks_request, link_text.
  assert (None_ : exists L : list request,
            (@ret (W * list request) (option bitly_stats.row) None (w, log)) =
            (fst (@ret W (option bitly_stats.row) None w),
             (snd (@ret W (option bitly_stats.row) None w), (log ++ L)%list)) /\
            (L = [] \/ (L = [GetClicksSummary
                               (remove_sub "https://"
                                  match link it with
                                  | Some b => b
                                  | None => EmptyString
                                  end)] /\ false = true)) /\
            (forall o : option bitly_stats.row,
               fst (@ret W (option bitly_stats.row) None w) = Ret o -> L = [])).
  { exists []. rewrite app_nil_r. repeat split. now left. }
  destruct (bitly_stats.skipped_by "utm_source" _ _); [ exact None_ | ].
  destruct (bitly_stats.skipped_by "utm_medium" _ _); [ exact None_ | ].
  destruct (bitly_stats.skipped_by "utm_campaign" _ _); [ exact None_ | ].
  clear None_. cbn [negb andb].
  unfold mbind at 1 3. unfold lift.
  destruct (bitly_stats.parse_utm_params _) as [utm | e].
  - destruct (link it) as [bitlink | ].
    + unfold mbind. rewrite get_clicks_recorded.
      exists [GetClicksSummary (remove_sub "https://" bitlink)].
      destruct (bitly_stats.get_clicks send _ w) as [[clicks | e] w1];
        cbn [fst snd]; repeat split; auto.
    + exists []. rewrite app_nil_r. unfold raise. cbn [fst snd].
      repeat split; [ now left | discriminate ].
  - exists []. rewrite app_nil_r. cbn [fst snd].
    repeat split; [ now left | discriminate ].
Qed.

Lemma surviving_cons (it : item) (l : list item) :
  survivors (it :: l) =
  if passes (long_url_of it) then it :: survivors l else survivors l.
Proof. reflexivity. Qed.

(** [X8] The count requests of the report.  Whatever the outcome of the
    loop over the listed records, the requests it has sent are the count
    requests of the records that pass the three filters, in the order of
    the listing and one for each, up to some record of the listing; when
    the loop returns its rows, up to the last one.  So no request is made
    for a record that a filter excludes, and once the loop is left by an
    exception no later record is asked for. *)
Theorem process_items_requests (links : list item) :
  forall (rows : list bitly_stats.row) (w : W) (log : list request),
  exists n,
    n <= List.length links /\
    process_items_recorded links rows (w, log) =
      (fst (process_items links rows w),
       (snd (process_items links rows w),
        (log ++ map clicks_request (survivors (firstn n links)))%list)) /\
    (forall rows', fst (process_items links rows w) = Ret rows' ->
                   n = List.length links).
Proof.
  induction links as [ | it links IH]; intros rows w log.
  - exists 0. cbn. rewrite app_nil_r. repeat split. lia.
  - rewrite !process_items_step.
    destruct (process_item_log it w log) as (L & E & HL & HR).
    rewrite E.
    destruct (bitly_stats.process_item send _ _ _ it w) as [[o | e] w1];
      cbn [fst snd] in *.
    + specialize (HR o eq_refl).
      destruct (IH (match o with
                    | Some x => (rows ++ [x])%list
                    | None => rows
                    end) w1 (log ++ L)%list) as (n & Hn & En & Hr).
      exists (S n). split; [ cbn [List.length]; lia | ].
      split.
      * rewrite En. cbn [firstn]. rewrite surviving_cons, HR.
        destruct (passes (long_url_of it)); cbn [map];
          now rewrite <- app_assoc.
      * intros rows' H. cbn [List.length]. f_equal. now apply (Hr rows').
    + destruct HL as [-> | [-> Hp]].
      * exists 0. cbn [firstn]. split; [ lia | ].
        split; [ reflexivity | discriminate ].
      * exists 1. cbn [firstn List.length]. split; [ lia | ].
        rewrite surviving_cons, Hp.
        split; [ reflexivity | discriminate ].
Qed.

(** What a record that is processed gives. *)
Lemma process_item_row (it : item) (w w' : W) (o : option bitly_stats.row) :
  bitly_stats.process_item send prefilter_source prefilter_medium
    prefilter_campaign it w = (Ret o, w') ->
  if passes (long_url_of it)
  then exists r clicks, o = Some r /\ row_of it clicks = Some r
  else o = None.
Proof.
  unfold bitly_stats.process_item, bitly_stats.passes_prefilters, row_of,
    long_url_of, title_of.
  destruct (bitly_stats.skipped_by "utm_source" _ _);
    [ unfold ret; intros H; now injection H as <- | ].
  destruct (bitly_stats.skipped_by "utm_medium" _ _);
    [ unfold ret; intros H; now injection H as <- | ].
  destruct (bitly_stats.skipped_by "utm_campaign" _ _);
    [ unfold ret; intros H; now injection H as <- | ].
  cbn [negb andb]. unfold mbind at 1. unfold lift.
  destruct (bitly_stats.parse_utm_params _) as [utm | e]; [ | discriminate ].
  destruct (link it) as [bitlink | ]; [ | discriminate ].
  unfold mbind, ret.
  destruct (bitly_stats.get_clicks send _ w) as [[clicks | e] w1];
    [ | discriminate ].
  intros H. injection H as <- <-. eexists. exists clicks.
  split; reflexivity.
Qed.

Lemma process_items_rows_from (links : list item) :
  forall (rows rows' : list bitly_stats.row) (w w' : W),
  process_items links rows w = (Ret rows', w') ->
  exists new,
    rows' = (rows ++ new)%list /\
    Forall2 (fun it r => exists clicks, row_of it clicks = Some r)
      (survivors links) new.
Proof.
  induction links as [ | it links IH]; intros rows rows' w w'.
  - cbn. unfold ret. intros H. injection H as <- <-. exists [].
    rewrite app_nil_r. split; [ reflexivity | constructor ].
  - rewrite process_items_step.
    destruct (bitly_stats.process_item send _ _ _ it w) as [[o | e] w1] eqn:E;
      [ | discriminate ].
    apply process_item_row in E. rewrite surviving_cons.
    intros H. apply IH in H as (new & -> & F).
    destruct (passes (long_url_of it)).
    + destruct E as (r & clicks & -> & Er). exists (r :: new).
      rewrite <- app_assoc. split; [ reflexivity | ].
      constructor; [ now exists clicks | assumption ].
    + subst o. now exists new.
Qed.

Lemma row_of_columns (it : item) (clicks : Z) (r : bitly_stats.row) :
  row_of it clicks = Some r ->
  bitly_stats.UTM_URL r = long_url_of it /\
  bitly_stats.Title r = title_of it /\
  bitly_stats.Bitly_Link r = link_text it /\
  bitly_stats.Clicks r = clicks.
Proof.
  unfold row_of, link_text.
  destruct (bitly_stats.parse_utm_params (long_url_of it)); [ | discriminate ].
  destruct (link it); [ | discriminate ].
  intros H. injection H as <-. repeat split.
Qed.

(** [X9] The rows of the report.  When the loop over the listed records
    returns, it has added one row for each record that passes the three
    filters, in the order of the listing, and nothing else: the row has the
    link and the long URL of its record, the title of the record or
    [Untitled], the three UTM columns read from that long URL, and a
    count. *)
Theorem process_items_rows (links : list item) (rows rows' : list bitly_stats.row)
  (w w' : W) :
  process_items links rows w = (Ret rows', w') ->
  exists new,
    rows' = (rows ++ new)%list /\
    Forall2 (fun it r => exists clicks, row_of it clicks = Some r)
      (survivors links) new /\
    map bitly_stats.UTM_URL new = map long_url_of (survivors links) /\
    map bitly_stats.Title new = map title_of (survivors links) /\
    map bitly_stats.Bitly_Link new = map link_text (survivors links).
Proof.
  intros H. apply process_items_rows_from in H as (new & E & F).
  exists new. split; [ exact E | ]. split; [ exact F | ].
  clear E. induction F as [ | it r l new (clicks & Hr) F IH];
    [ repeat split | ].
  destruct (row_of_columns it clicks r Hr) as (E1 & E2 & E3 & _).
  destruct IH as (I1 & I2 & I3).
  cbn [map]. now rewrite E1, E2, E3, I1, I2, I3.
Qed.

Lemma row_of_sound (it : item) (clicks : Z) (r : bitly_stats.row) :
  passes (long_url_of it) = true ->
  row_of it clicks = Some r ->
  row_sound prefilter_source prefilter_medium prefilter_campaign r.
Proof.
  unfold row_of, row_sound. intros Hp.
  destruct (bitly_stats.parse_utm_params (long_url_of it)) as [utm | e] eqn:E;
    [ | discriminate ].
  destruct (link it) as [bitlink | ]; [ | discriminate ].
  intros H. injection H as <-.
  cbn [bitly_stats.UTM_URL bitly_stats.Title bitly_stats.utm_source
         bitly_stats.utm_medium bitly_stats.utm_campaign].
  repeat split; [ assumption | | now destruct utm ].
  unfold title_of. destruct (title it) as [t | ]; [ | reflexivity ].
  now destruct (is_empty t) eqn:Et.
Qed.

Lemma rows_sound (l : list item) (new : list bitly_stats.row) :
  Forall (fun it => passes (long_url_of it) = true) l ->
  Forall2 (fun it r => exists clicks, row_of it clicks = Some r) l new ->
  Forall (row_sound prefilter_source prefilter_medium prefilter_campaign) new.
Proof.
  intros Hl F. induction F as [ | it r l new (clicks & Hr) F IH];
    [ constructor | ].
  inversion Hl; subst. constructor; [ | now apply IH ].
  now apply (row_of_sound it clicks).
Qed.

Lemma survivors_pass (links : list item) :
  Forall (fun it => passes (long_url_of it) = true) (survivors links).
Proof.
  apply Forall_forall. intros it H. unfold surviving in H.
  now apply filter_In in H as [_ H].
Qed.

(** [X10] The table of the report.  Whenever the handler shows a table, the
    table is not empty, it is in the order of the four sort columns, and
    every row of it has passed the three filters on its long URL, has a
    non-empty title, and has in its three UTM columns what
    [parse_utm_params] reads from its own long URL. *)
Theorem render_table_sound (fuel : nat) (created_after : option Z) (w w' : W)
  (table : list bitly_stats.row) :
  bitly_stats.render send prefilter_source prefilter_medium prefilter_campaign
    fuel created_after w = Some (Ret (Some table), w') ->
  table <> [] /\
  StronglySorted (fun a b => bitly_stats.row_le a b = true) table /\
  Forall (row_sound prefilter_source prefilter_medium prefilter_campaign) table.
Proof.
  unfold bitly_stats.render.
  destruct (bitly_stats.get_group_guid send w) as [[g | e] w1]; [ | discriminate ].
  destruct (negb (bitly_stats.truthy_guid g)); [ discriminate | ].
  destruct (bitly_stats.get_all_bitlinks send fuel _ created_after w1)
    as [[[links | e] w2] | ]; try discriminate.
  destruct links as [ | it links]; [ discriminate | ].
  destruct (bitly_stats.process_items send _ _ _ (it :: links) [] w2)
    as [[rows | e] w3] eqn:E; [ | discriminate ].
  destruct rows as [ | r rows]; [ discriminate | ].
  intros H. injection H as <- <-.
  apply process_items_rows_from in E as (new & E & F). cbn [app] in E. subst new.
  pose proof (sort_values_perm (r :: rows)) as Pm.
  split; [ | split ].
  - intros Heq. change (bitly_stats.sort_values (r :: rows) = []) in Heq.
    rewrite Heq in Pm. apply Permutation_sym in Pm.
    now apply Permutation_nil_cons in Pm.
  - exact (sort_values_sorted (r :: rows)).
  - change (Forall (row_sound prefilter_source prefilter_medium prefilter_campaign)
              (bitly_stats.sort_values (r :: rows))).
    apply (Permutation_Forall Pm).
    apply (rows_sound (survivors (it :: links))); [ apply survivors_pass | exact F ].
Qed.


(** [X12] The group request is not protected.  A transport failure of the
    group request, a body of a status 200 answer that is not JSON, and a
    first group without a guid each leave the handler of the report as an
    exception (the last as a KeyError), after that single request and
    whatever the fuel of the listing: nothing is listed and no count is
    asked for. *)
Theorem render_group_request_raises (fuel : nat) (created_after : option Z)
  (w : W) (log : list request) :
  (forall e w1,
     send GetGroups w = (Failure e, w1) ->
     bitly_stats.render (recorded send) prefilter_source prefilter_medium
       prefilter_campaign fuel created_after (w, log) =
     Some (Raise e, (w1, (log ++ [GetGroups])%list))) /\
  (forall r e w1,
     send GetGroups w = (Response r, w1) ->
     status_code r = 200%Z ->
     json r = Raise e ->
     bitly_stats.render (recorded send) prefilter_source prefilter_medium
       prefilter_campaign fuel created_after (w, log) =
     Some (Raise e, (w1, (log ++ [GetGroups])%list))) /\
  (forall r data g gs w1,
     send GetGroups w = (Response r, w1) ->
     status_code r = 200%Z ->
     json r = Ret data ->
     j_groups data = Some (g :: gs) ->
     guid g = None ->
     bitly_stats.render (recorded send) prefilter_source prefilter_medium
       prefilter_campaign fuel created_after (w, log) =
     Some (Raise (KeyError "'guid'"), (w1, (log ++ [GetGroups])%list))).
Proof.
  unfold bitly_stats.render. rewrite get_group_guid_recorded.
  unfold bitly_stats.get_group_guid, mbind, call, lift, raise, ret.
  split; [ | split ].
  - intros e w1 Hs. now rewrite Hs.
  - intros r e w1 Hs Hc Hj. now rewrite Hs, Hc, Hj.
  - intros r data g gs w1 Hs Hc Hj Hg Hn. now rewrite Hs, Hc, Hj, Hg, Hn.
Qed.

End Report.

End Recorded.

(** The creation is answered with status 200 and a body without a link. *)
Lemma process_url_no_link_witness :
  utm_bitly.process_url (P := Scenario.reference_platform) (recorded Scenario.play)
    "news" "" "" "" "bit.ly" 1 "https://site.com/custom-store"
    ([Scenario.ok empty_object], []) =
  (Ret (utm_bitly.mkResultRow "https://site.com/custom-store"
          "https://site.com/custom-store?utm_source=news" "" ""),
   ([], [PostShorten "https://site.com/custom-store?utm_source=news"
           (Some "bit.ly")])).
Proof.
  exact (process_url_no_link (P := Scenario.reference_platform) Scenario.play
           "news" "" "" "" "bit.ly" 1 "https://site.com/custom-store"
           "https://site.com/custom-store?utm_source=news"
           (mkParseResult "https" "site.com" "/custom-store" "" "" "")
           (mkResponse 200 "" (Ret empty_object)) empty_object
           [Scenario.ok empty_object] [] []
           eq_refl eq_refl eq_refl eq_refl eq_refl eq_refl).
Defined.

(** The group request times out, and the first group has no guid. *)
Lemma render_group_request_raises_witness :
  bitly_stats.render (P := Scenario.reference_platform) (recorded Scenario.play)
    "" "" "" 0 None ([Failure (RequestException "Read timed out.")], []) =
  Some (Raise (RequestException "Read timed out."), ([], [GetGroups])) /\
  bitly_stats.render (P := Scenario.reference_platform) (recorded Scenario.play)
    "" "" "" 0 None
    ([Scenario.ok (mkJson (Some [mkGroup None]) None None None)], []) =
  Some (Raise (KeyError "'guid'"), ([], [GetGroups])).
Proof.
  split.
  - exact (proj1 (render_group_request_raises
                    (P := Scenario.reference_platform) Scenario.play "" "" ""
                    0 None [Failure (RequestException "Read timed out.")] [])
             (RequestException "Read timed out.") [] eq_refl).
  - exact (proj2 (proj2 (render_group_request_raises
                    (P := Scenario.reference_platform) Scenario.play "" "" ""
                    0 None
                    [Scenario.ok (mkJson (Some [mkGroup None]) None None None)] []))
             (mkResponse 200 "" (Ret (mkJson (Some [mkGroup None]) None None None)))
             (mkJson (Some [mkGroup None]) None None None)
             (mkGroup None) [] [] eq_refl eq_refl eq_refl eq_refl eq_refl).
Defined.

(** Three inputs, the title of the second link refused: the requests of the
    batch. *)
Lemma render_batch_requests_witness :
  exists rows w',
    utm_bitly.render (P := Scenario.reference_platform) Scenario.play
      "news" "email" "spring" "" "bit.ly" Scenario.three_urls
      Scenario.second_title_refused = (Ret (Some rows), w') /\
    utm_bitly.render (P := Scenario.reference_platform) (recorded Scenario.play)
      "news" "email" "spring" "" "bit.ly" Scenario.three_urls
      (Scenario.second_title_refused, []) =
      (Ret (Some rows),
       (w', ([] ++ requests_of_rows (P := Scenario.reference_platform)
                     "spring" "bit.ly" 0 rows)%list)) /\
    map utm_bitly.Original_URL rows = Scenario.three_urls /\
    Forall (built (P := Scenario.reference_platform) "news" "email" "spring" "")
      rows.
Proof.
  apply (render_batch_requests (P := Scenario.reference_platform) Scenario.play
           "news" "email" "spring" "" "bit.ly" Scenario.three_urls
           Scenario.second_title_refused []).
  - discriminate.
  - repeat constructor.
Defined.

(** A listing of 120 records, asked for with the bound 0: three requests,
    none with a bound. *)
Lemma get_all_bitlinks_requests_witness :
  exists n,
    1 <= n <= 5 /\
    bitly_stats.get_all_bitlinks (recorded Scenario.paginated) 5 "Bg1" (Some 0%Z)
      ((repeat (mkItem None None None) 120, 0), []) =
    Some (Ret (repeat (mkItem None None None) 120),
          ((repeat (mkItem None None None) 120, 3),
           ([] ++ map (fun k => GetBitlinks "Bg1" 50 (Z.of_nat k + 1) None)
                    (seq 0 n))%list)).
Proof.
  apply (get_all_bitlinks_requests Scenario.paginated "Bg1" (Some 0%Z) 5
           (repeat (mkItem None None None) 120, 0)
           (repeat (mkItem None None None) 120, 3) []
           (Ret (repeat (mkItem None None None) 120))).
  vm_compute. reflexivity.
Defined.

(** Two records and the source filter [news]: one count request, for the
    first record. *)
Lemma process_items_requests_witness :
  exists n,
    n <= 2 /\
    bitly_stats.process_items (P := Scenario.reference_platform)
      (recorded Scenario.play) "news" "" "" Scenario.two_links []
      ([Scenario.ok (mkJson None None (Some 7%Z) None)], []) =
    (Ret [bitly_stats.mkRow "Spring" "https://bit.ly/a"
            "https://site.com/?utm_source=news" "news" "" "" 7],
     ([], ([] ++ map clicks_request
                   (surviving "news" "" "" (firstn n Scenario.two_links)))%list)) /\
    (forall rows',
       Ret [bitly_stats.mkRow "Spring" "https://bit.ly/a"
              "https://site.com/?utm_source=news" "news" "" "" 7] = Ret rows' ->
       n = 2).
Proof.
  exact (process_items_requests (P := Scenario.reference_platform) Scenario.play
           "news" "" "" Scenario.two_links []
           [Scenario.ok (mkJson None None (Some 7%Z) None)] []).
Defined.

(** Two records and the source filter [news]: one row, for the first. *)
Lemma process_items_rows_witness :
  exists new,
    [bitly_stats.mkRow "Spring" "https://bit.ly/a"
       "https://site.com/?utm_source=news" "news" "" "" 7] = ([] ++ new)%list /\
    Forall2 (fun it r => exists clicks,
               row_of (P := Scenario.reference_platform) it clicks = Some r)
      (surviving "news" "" "" Scenario.two_links) new /\
    map bitly_stats.UTM_URL new =
      map long_url_of (surviving "news" "" "" Scenario.two_links) /\
    map bitly_stats.Title new =
      map title_of (surviving "news" "" "" Scenario.two_links) /\
    map bitly_stats.Bitly_Link new =
      map link_text (surviving "news" "" "" Scenario.two_links).
Proof.
  apply (process_items_rows (P := Scenario.reference_platform) Scenario.play
           "news" "" "" Scenario.two_links []
           [bitly_stats.mkRow "Spring" "https://bit.ly/a"
              "https://site.com/?utm_source=news" "news" "" "" 7]
           [Scenario.ok (mkJson None None (Some 7%Z) None)] []).
  vm_compute. reflexivity.
Defined.

(** The report of two records without filters: the table shown. *)
Lemma render_table_sound_witness :
  [bitly_stats.mkRow "Untitled" "https://bit.ly/b"
     "https://site.com/?utm_source=mail" "mail" "" "" 7;
   bitly_stats.mkRow "Spring" "https://bit.ly/a"
     "https://site.com/?utm_source=news" "news" "" "" 3] <> [] /\
  StronglySorted (fun a b => bitly_stats.row_le a b = true)
    [bitly_stats.mkRow "Untitled" "https://bit.ly/b"
       "https://site.com/?utm_source=mail" "mail" "" "" 7;
     bitly_stats.mkRow "Spring" "https://bit.ly/a"
       "https://site.com/?utm_source=news" "news" "" "" 3] /\
  Forall (row_sound (P := Scenario.reference_platform) "" "" "")
    [bitly_stats.mkRow "Untitled" "https://bit.ly/b"
       "https://site.com/?utm_source=mail" "mail" "" "" 7;
     bitly_stats.mkRow "Spring" "https://bit.ly/a"
       "https://site.com/?utm_source=news" "news" "" "" 3].
Proof.
  apply (render_table_sound (P := Scenario.reference_platform) Scenario.play
           "" "" "" 5 None
           (Scenario.listing_of_two ++
            [Scenario.ok (mkJson None None (Some 3%Z) None);
             Scenario.ok (mkJson None None (Some 7%Z) None)])%list []).
  vm_compute. reflexivity.
Defined.


End RequestFacts.

(** ** The table and the formatted block *)

Module TableFacts.
Import Py utm_bitly utm_bitly_output SortFacts.

Lemma output_lines_nth (labels : list string) :
  forall (results : list result_row) (k : nat) (label : string) (row : result_row),
  nth_error labels k = Some label ->
  nth_error results k = Some row ->
  nth_error (output_lines labels results) k =
  Some (label ++ " - " ++ Short_URL row).
Proof.
  unfold output_lines.
  induction labels as [ | l labels IH]; intros results k label row Hl Hr.
  - now destruct k.
  - destruct results as [ | r results]; [ now destruct k | ].
    destruct k as [ | k]; cbn [nth_error combine map] in *.
    + injection Hl as <-. injection Hr as <-. reflexivity.
    + now apply IH.
Qed.

(** [X13] The formatted block pairs the six fixed labels with the entries
    by position.  It has one line for each of the first six entries and none
    for a later entry, so its length is the smaller of 6 and the number of
    entries; the line at a position is the label of that position, [ - ],
    and the short URL of the entry at that position, whatever the URL of the
    entry is; an entry without a short URL has nothing after the dash. *)
Theorem final_output_lines_by_position (results : list result_row) :
  List.length (final_output_lines results) = Nat.min 6 (List.length results) /\
  (forall (k : nat) (label : string) (row : result_row),
     nth_error HARDCODED_LABELS k = Some label ->
     nth_error results k = Some row ->
     nth_error (final_output_lines results) k =
     Some (label ++ " - " ++ Short_URL row)) /\
  (forall k : nat, 6 <= k -> nth_error (final_output_lines results) k = None).
Proof.
  assert (L : List.length (final_output_lines results) =
              Nat.min 6 (List.length results)).
  { unfold final_output_lines, output_lines.
    now rewrite length_map, length_combine. }
  split; [ exact L | split ].
  - apply output_lines_nth.
  - intros k Hk. apply nth_error_None. rewrite L. lia.
Qed.

(** Eight entries: six lines, the second with the short URL of the second
    entry. *)
Lemma final_output_lines_by_position_witness :
  List.length (final_output_lines
                 (repeat (mkResultRow "u" "v" "https://bit.ly/a" "") 8)) = 6 /\
  nth_error (final_output_lines
               (repeat (mkResultRow "u" "v" "https://bit.ly/a" "") 8)) 1 =
    Some ("📌 Індивідуальна розробка Shopify-магазину для вашого бренду"
          ++ " - " ++ "https://bit.ly/a") /\
  nth_error (final_output_lines
               (repeat (mkResultRow "u" "v" "https://bit.ly/a" "") 8)) 7 = None.
Proof.
  pose proof (final_output_lines_by_position
                (repeat (mkResultRow "u" "v" "https://bit.ly/a" "") 8))
    as (L & N & M).
  split; [ exact L | split ].
  - exact (N 1 _ _ eq_refl eq_refl).
  - apply (M 7). lia.
Defined.

Lemma sort_values_of_sorted (l : list bitly_stats.row) :
  StronglySorted (fun a b => bitly_stats.row_le a b = true) l ->
  bitly_stats.sort_values l = l.
Proof.
  induction 1 as [ | x l Hs IH Hall]; [ reflexivity | ].
  change (bitly_stats.sort_values (x :: l))
    with (bitly_stats.insert_row x (bitly_stats.sort_values l)).
  rewrite IH. destruct l as [ | y l]; [ reflexivity | ].
  cbn [bitly_stats.insert_row]. inversion Hall as [ | ? ? Hxy _]; subst.
  now rewrite Hxy.
Qed.

(** [X14] Sorting a sorted table changes nothing: the order of the report
    applied to its own result gives that result again, row for row. *)
Theorem sort_values_idempotent (rows : list bitly_stats.row) :
  bitly_stats.sort_values (bitly_stats.sort_values rows) =
  bitly_stats.sort_values rows.
Proof. apply sort_values_of_sorted, sort_values_sorted. Qed.

End TableFacts.
